(** * The market-entry analyzer: risk scoring, forecasting and their composition

    A shallow embedding of the three methods of [MarketEntryAnalyzer] in
    [market_analyzer.py] that carry the analysis:
    [calculate_risk_score], [forecast_metrics] and [analyze_country].

    Modelling conventions.
    - Python numbers of the dataset (int and float literals) are stored as
      the rationals they denote ([Q]).  Where a method only looks numbers up,
      compares them with the thresholds of a label, or hands them on, it is
      embedded over these rationals: binary64 compares exactly, so nothing is
      lost.  Where the value of an arithmetic result is at stake (the total
      risk score, the positions of the grouped bars) the embedding is over
      IEEE 754 binary64, Rocq's primitive floats: see [Binary64].
    - Values that come back from numpy arithmetic or from the smoothing
      library may be non-finite, so they live in [float64]: a rational, an
      infinity or NaN.  Finite results are kept exact there; of a growth rate
      the properties use the formula, the operands and the sign.
    - A Python dict that is only looked up is a [gmap]; a dict that is
      iterated (a country's risk profile, the forecasts under construction)
      is an association list in insertion order.
    - Exceptions are values of [exn]; a method body runs in the monad [Py]
      (the analyzer as state, plus an exception), and every method wraps its
      body in [try_except], as the source does.
    - [ExponentialSmoothing(...).fit().forecast(n)] (statsmodels) and the
      [:.Nf] format specification are collaborators of the analyzer, not
      code of it: they are parameters of the methods.  [holt_forecast] models
      the smoothing from the spec, for the one property that is about the
      library's own failure. *)

From Stdlib Require Import QArith Lia Lqa.
From Stdlib Require PrimFloat.
From stdpp Require Import gmap strings list pretty.

(** ** Numbers *)

(** A numpy [float64] up to rounding: finite values are exact rationals. *)
Inductive float64 : Type :=
  | Fin (q : Q)
  | PInf
  | NInf
  | NaN.

(** [a / b] on numpy scalars: dividing by zero gives an infinity or NaN (with
    a warning), it does not raise.  Zero has one sign here: a divisor of
    [-0.0], for which numpy gives the infinity of the opposite sign, is not
    represented. *)
Definition fdiv (a b : float64) : float64 :=
  match a, b with
  | NaN, _ | _, NaN => NaN
  | Fin x, Fin y =>
      if Qeq_bool y 0 then
        if Qeq_bool x 0 then NaN
        else if Qle_bool 0 x then PInf else NInf
      else Fin (x / y)
  | Fin _, (PInf | NInf) => Fin 0
  | PInf, Fin y => if Qle_bool 0 y then PInf else NInf
  | NInf, Fin y => if Qle_bool 0 y then NInf else PInf
  | (PInf | NInf), (PInf | NInf) => NaN
  end.

(** [a - b]. *)
Definition fsub (a b : float64) : float64 :=
  match a, b with
  | NaN, _ | _, NaN => NaN
  | Fin x, Fin y => Fin (x - y)
  | Fin _, PInf => NInf
  | Fin _, NInf => PInf
  | PInf, PInf | NInf, NInf => NaN
  | PInf, _ => PInf
  | NInf, _ => NInf
  end.

(** The sign of a product with an infinity; a zero factor gives NaN. *)
Definition inf_times (positive : bool) (y : Q) : float64 :=
  if Qeq_bool y 0 then NaN
  else if Bool.eqb positive (Qle_bool 0 y) then PInf else NInf.

(** [a * b]. *)
Definition fmul (a b : float64) : float64 :=
  match a, b with
  | NaN, _ | _, NaN => NaN
  | Fin x, Fin y => Fin (x * y)
  | PInf, Fin y | Fin y, PInf => inf_times true y
  | NInf, Fin y | Fin y, NInf => inf_times false y
  | PInf, PInf | NInf, NInf => PInf
  | PInf, NInf | NInf, PInf => NInf
  end.

(** [a > b]: false as soon as one side is NaN. *)
Definition fgt (a b : float64) : bool :=
  match a, b with
  | NaN, _ | _, NaN => false
  | Fin x, Fin y => negb (Qle_bool x y)
  | PInf, PInf => false
  | PInf, _ => true
  | NInf, _ => false
  | Fin _, PInf => false
  | Fin _, NInf => true
  end.

(** ** Python values, exceptions *)

(** The values the dataset stores under a field name: a number, or a list of
    statements (strengths, weaknesses, risk factors). *)
Inductive pyval : Type :=
  | PNum (q : Q)
  | PList (l : list string).

Inductive exn : Type :=
  | KeyError (key : string)
  | TypeError
  | IndexError
  | FitError.

Inductive result (A : Type) : Type :=
  | Ok (a : A)
  | Raise (e : exn).
Arguments Ok {A} a.
Arguments Raise {A} e.

(** [d[key]]. *)
Definition getitem {V : Type} (d : gmap string V) (key : string) : result V :=
  match d !! key with
  | Some v => Ok v
  | None => Raise (KeyError key)
  end.

(** A number where one is required: arithmetic, ordering and [:.Nf] formatting
    raise [TypeError] on a list. *)
Definition as_number (v : pyval) : result Q :=
  match v with
  | PNum q => Ok q
  | PList _ => Raise TypeError
  end.

(** [l[-1]] / [series.iloc[-1]]. *)
Definition last_item {A : Type} (l : list A) : result A :=
  match last l with
  | Some x => Ok x
  | None => Raise IndexError
  end.

(** ** The analyzer and its log *)

(** What [self.logger.error] is called with: the method that failed, the
    country, and the exception whose text the message embeds. *)
Inductive log_message : Type :=
  | ErrorRiskScore (country : string) (e : exn)
  | ErrorForecasting (country : string) (e : exn)
  | NoDataFound (country : string)
  | ErrorAnalyzing (country : string) (e : exn).

(** A risk profile: risk type to risk data, in insertion order. *)
Abbreviation risk_profile := (list (string * gmap string pyval)).

Record MarketEntryAnalyzer : Type := {
  current_data : gmap string (gmap string pyval);
  historical_data : gmap string (gmap string (list Q));
  risk_factors : gmap string risk_profile;
  logged : list log_message
}.

(** ** The monad of method bodies: analyzer state and exceptions *)

Definition Py (A : Type) : Type :=
  MarketEntryAnalyzer -> result A * MarketEntryAnalyzer.

Definition ret {A : Type} (a : A) : Py A := fun self => (Ok a, self).

Definition bind {A B : Type} (m : Py A) (k : A -> Py B) : Py B :=
  fun self =>
    match m self with
    | (Ok a, self') => k a self'
    | (Raise e, self') => (Raise e, self')
    end.

(** A pure computation that may raise, run inside a method. *)
Definition lift {A : Type} (r : result A) : Py A := fun self => (r, self).

Definition read {A : Type} (field : MarketEntryAnalyzer -> A) : Py A :=
  fun self => (Ok (field self), self).

Definition logger_error (m : log_message) : Py unit :=
  fun self =>
    (Ok tt, {| current_data := current_data self;
               historical_data := historical_data self;
               risk_factors := risk_factors self;
               logged := logged self ++ [m] |}).

(** [try: body  except Exception as e: handler e]. *)
Definition try_except {A : Type} (body : Py A) (handler : exn -> Py A) : Py A :=
  fun self =>
    match body self with
    | (Ok a, self') => (Ok a, self')
    | (Raise e, self') => handler e self'
    end.

Notation "'let*' x := m 'in' k" := (bind m (fun x => k))
  (at level 10, x name, m at level 100, k at level 200, only parsing).

(** The same sequencing for pure computations that may raise. *)
Definition rbind {A B : Type} (r : result A) (k : A -> result B) : result B :=
  match r with
  | Ok a => k a
  | Raise e => Raise e
  end.

Notation "'let?' x := r 'in' k" := (rbind r (fun x => k))
  (at level 10, x name, r at level 100, k at level 200, only parsing).

(** ** Risk scoring *)

(** The weights of [calculate_risk_score]. *)
Definition weights : gmap string Q :=
  {[ "Political_Risk" := 0.25%Q;
     "Economic_Risk" := 0.30%Q;
     "Operational_Risk" := 0.20%Q;
     "Technical_Risk" := 0.25%Q ]}.

(** [weights[risk_type] * risk_data['score']]: the left operand is looked up
    first. *)
Definition weighted_score (item : string * gmap string pyval) : result Q :=
  let? w := getitem weights item.1 in
  let? v := getitem item.2 "score" in
  let? s := as_number v in
  Ok (w * s)%Q.

(** [sum(...)] over a generator: start at 0, add the items left to right; the
    first item that raises ends the sum.  The products and the sum are exact
    here; [Binary64.calculate_risk_score] has them as the code computes
    them. *)
Fixpoint sum_from (acc : Q) (items : list (string * gmap string pyval)) : result Q :=
  match items with
  | [] => Ok acc
  | item :: rest =>
      let? x := weighted_score item in
      sum_from (acc + x)%Q rest
  end.

(** The chain of [if total_score <= ...] of [calculate_risk_score]. *)
Definition risk_rating_of (total_score : Q) : string :=
  if Qle_bool total_score 15 then "Very Low Risk"
  else if Qle_bool total_score 25 then "Low Risk"
  else if Qle_bool total_score 35 then "Moderate Risk"
  else if Qle_bool total_score 45 then "High Risk"
  else "Very High Risk".

Record DetailedScore : Type := {
  score : pyval;
  factors : pyval
}.

Record RiskAssessment : Type := {
  total_score : Q;
  risk_rating : string;
  detailed_scores : list (string * DetailedScore)
}.

(** The dict comprehension that builds ['detailed_scores']. *)
Fixpoint detail_items (items : list (string * gmap string pyval))
  : result (list (string * DetailedScore)) :=
  match items with
  | [] => Ok []
  | item :: rest =>
      let? s := getitem item.2 "score" in
      let? f := getitem item.2 "factors" in
      let? ds := detail_items rest in
      Ok ((item.1, {| score := s; factors := f |}) :: ds)
  end.

(** The body of the [try] in [calculate_risk_score]. *)
Definition risk_score_body (country : string) : Py (option RiskAssessment) :=
  let* risks := read risk_factors in
  match risks !! country with
  | None => ret None
  | Some [] => ret None
  | Some country_risks =>
      let* total := lift (sum_from 0 country_risks) in
      let* details := lift (detail_items country_risks) in
      ret (Some {| total_score := total;
                   risk_rating := risk_rating_of total;
                   detailed_scores := details |})
  end.

Definition calculate_risk_score (country : string) : Py (option RiskAssessment) :=
  try_except (risk_score_body country)
    (fun e => let* _ := logger_error (ErrorRiskScore country e) in ret None).

(** ** The scorer in binary64

    Python's [float] is IEEE 754 binary64, and so is Rocq's primitive
    [float] (round to nearest, ties to even).  This module embeds
    [calculate_risk_score] over it: every product [weight * score] and
    every addition of [sum] rounds, so the value of the total, and the rating
    of a total next to a threshold, are those of the code only here. *)
Module Binary64.

Import PrimFloat.
Local Open Scope float_scope.

(** A positive integer as a binary64 number; exact below 2^53. *)
Fixpoint of_positive (p : positive) : float :=
  match p with
  | xH => 1
  | xO p' => 2 * of_positive p'
  | xI p' => 2 * of_positive p' + 1
  end.

Definition of_Z (z : Z) : float :=
  match z with
  | Z0 => 0
  | Zpos p => of_positive p
  | Zneg p => - of_positive p
  end.

(** The [float] of a number of the dataset.  An int converts exactly; a
    decimal literal n/d is read as the binary64 number nearest to it, which
    is what the quotient of the two integers rounds to (numerator and
    denominator below 2^53, that is every literal of up to 15 significant
    digits). *)
Definition of_Q (q : Q) : float := of_Z (Qnum q) / of_positive (Qden q).

(** How [sum] adds floats.  Up to CPython 3.11 it adds item after item; from
    CPython 3.12 on it also carries a compensation (Neumaier's variant of
    Kahan's summation) and adds it at the end.  The repository names no
    version of the interpreter, so the scorer takes the mode as a
    parameter. *)
Inductive summation : Type :=
  | left_to_right
  | compensated.

(** One float of the compensated loop, on the running sum [f] and the
    compensation [c]:
    [t = f + x; c += (f - t) + x if fabs(f) >= fabs(x) else (x - t) + f;
    f = t]. *)
Definition neumaier (state : float * float) (x : float) : float * float :=
  let t := state.1 + x in
  (t, if abs x <=? abs state.1
      then state.2 + ((state.1 - t) + x)
      else state.2 + ((x - t) + state.1)).

(** [sum(xs)] on floats.  The start value is the int 0, so the first float
    enters as [0 + x]; the compensation is added at the end when it is
    finite and not zero. *)
Definition py_sum (mode : summation) (xs : list float) : float :=
  match mode, xs with
  | left_to_right, _ => fold_left add xs 0
  | compensated, [] => 0
  | compensated, x :: rest =>
      let state := fold_left neumaier rest (0 + x, 0) in
      if negb (is_zero state.2) && negb (is_nan state.2 || is_infinity state.2)
      then state.1 + state.2
      else state.1
  end.

(** The weights of [calculate_risk_score], as the floats their literals
    denote. *)
Definition weights : gmap string float :=
  {[ "Political_Risk" := of_Q 0.25;
     "Economic_Risk" := of_Q 0.30;
     "Operational_Risk" := of_Q 0.20;
     "Technical_Risk" := of_Q 0.25 ]}.

(** [weights[risk_type] * risk_data['score']]: one rounded product. *)
Definition weighted_score (item : string * gmap string pyval) : result float :=
  let? w := getitem weights item.1 in
  let? v := getitem item.2 "score" in
  let? s := as_number v in
  Ok (w * of_Q s).

(** The items of the generator that [sum] consumes, in the insertion order
    of the profile; the first item that raises ends the sum. *)
Fixpoint products (items : list (string * gmap string pyval)) : result (list float) :=
  match items with
  | [] => Ok []
  | item :: rest =>
      let? x := weighted_score item in
      let? xs := products rest in
      Ok (x :: xs)
  end.

(** The chain of [if total_score <= ...]. *)
Definition risk_rating_of (total_score : float) : string :=
  if total_score <=? 15 then "Very Low Risk"
  else if total_score <=? 25 then "Low Risk"
  else if total_score <=? 35 then "Moderate Risk"
  else if total_score <=? 45 then "High Risk"
  else "Very High Risk".

Record RiskAssessment : Type := {
  total_score : float;
  risk_rating : string;
  detailed_scores : list (string * DetailedScore)
}.

(** The body of the [try] in [calculate_risk_score]. *)
Definition risk_score_body (mode : summation) (country : string)
    : Py (option RiskAssessment) :=
  let* risks := read risk_factors in
  match risks !! country with
  | None => ret None
  | Some [] => ret None
  | Some country_risks =>
      let* terms := lift (products country_risks) in
      let total := py_sum mode terms in
      let* details := lift (detail_items country_risks) in
      ret (Some {| total_score := total;
                   risk_rating := risk_rating_of total;
                   detailed_scores := details |})
  end.

Definition calculate_risk_score (mode : summation) (country : string)
    : Py (option RiskAssessment) :=
  try_except (risk_score_body mode country)
    (fun e => let* _ := logger_error (ErrorRiskScore country e) in ret None).

End Binary64.

(** ** Forecasting and the country analysis *)

Record Forecast : Type := {
  current_value : Q;
  forecasted_value : float64;
  growth_rate : float64;
  trend : string
}.

Record CountryAnalysis : Type := {
  country : string;
  market_score : Q;
  status : string;
  current_metrics : gmap string string;
  strengths : pyval;
  weaknesses : pyval;
  forecasts : option (gmap string Forecast);
  risk_analysis : option RiskAssessment
}.

Definition metrics_to_forecast : list string :=
  ["GDP"; "Population"; "Consumer_Spending"; "Economic_Growth"].

(** [((future_value / current_value) - 1) * 100]. *)
Definition growth_rate_of (future_value : float64) (current : Q) : float64 :=
  fmul (fsub (fdiv future_value (Fin current)) (Fin 1)) (Fin 100).

(** ["Increasing" if growth_rate > 0 else "Decreasing"]. *)
Definition trend_of (growth : float64) : string :=
  if fgt growth (Fin 0) then "Increasing" else "Decreasing".

(** The chain of [if market_score >= ...] of [analyze_country]. *)
Definition status_of (score : Q) : string :=
  if Qle_bool 88 score then "Highly Suitable"
  else if Qle_bool 82 score then "Very Suitable"
  else if Qle_bool 75 score then "Suitable"
  else "Moderately Suitable".

(** [not d] on a dict: true exactly when it has no key. *)
Definition is_empty_dict {V : Type} (d : gmap string V) : bool :=
  match size d with
  | O => true
  | S _ => false
  end.

Section Analysis.

(** [ExponentialSmoothing(data, trend='add', seasonal=None).fit()
    .forecast(years_ahead)] on the series of historical values: the
    projected points, or the exception the library raises. *)
Variable smoothing_forecast : list Q -> Z -> result (list float64).

(** [f"{x:.Nf}"], by the number [N] of decimals. *)
Variable format_fixed : nat -> Q -> string.

(** One turn of the loop of [forecast_metrics]. *)
Definition forecast_metric (series : gmap string (list Q)) (years_ahead : Z)
    (metric : string) : result Forecast :=
  let? historical_values := getitem series metric in
  let? forecast_values := smoothing_forecast historical_values years_ahead in
  let? current := last_item historical_values in
  let? future := last_item forecast_values in
  let growth := growth_rate_of future current in
  Ok {| current_value := current;
        forecasted_value := future;
        growth_rate := growth;
        trend := trend_of growth |}.

(** [for metric in metrics_to_forecast: ... forecasts[metric] = {...}]. *)
Fixpoint forecast_loop (series : gmap string (list Q)) (years_ahead : Z)
    (metrics : list string) (acc : gmap string Forecast)
    : result (gmap string Forecast) :=
  match metrics with
  | [] => Ok acc
  | metric :: rest =>
      let? f := forecast_metric series years_ahead metric in
      forecast_loop series years_ahead rest (<[metric := f]> acc)
  end.

(** The body of the [try] in [forecast_metrics]. *)
Definition forecast_body (country : string) (years_ahead : Z)
    : Py (option (gmap string Forecast)) :=
  let* hist := read historical_data in
  match hist !! country with
  | None => ret None
  | Some series =>
      let* fs := lift (forecast_loop series years_ahead metrics_to_forecast ∅) in
      ret (Some fs)
  end.

Definition forecast_metrics (country : string) (years_ahead : Z)
    : Py (option (gmap string Forecast)) :=
  try_except (forecast_body country years_ahead)
    (fun e => let* _ := logger_error (ErrorForecasting country e) in ret None).

(** [f"{country_data[key]:.Nf}"]. *)
Definition formatted (country_data : gmap string pyval) (key : string)
    (decimals : nat) : result string :=
  let? v := getitem country_data key in
  let? x := as_number v in
  Ok (format_fixed decimals x).

(** The dict ['current_metrics'], its values built in source order. *)
Definition current_metrics_of (country_data : gmap string pyval)
    : result (gmap string string) :=
  let? population := formatted country_data "Population" 1 in
  let? gdp := formatted country_data "GDP" 2 in
  let? spending := formatted country_data "Consumer_Spending" 2 in
  let? growth := formatted country_data "Economic_Growth" 1 in
  Ok {[ "Population" := population +:+ " Million";
        "GDP" := "$" +:+ gdp +:+ " Trillion USD";
        "Consumer_Spending" := "$" +:+ spending +:+ " Trillion USD";
        "Economic_Growth" := growth +:+ "%" ]}.

(** [self.logger.error("No data found ..."); return None]. *)
Definition no_data (name : string) : Py (option CountryAnalysis) :=
  let* _ := logger_error (NoDataFound name) in ret None.

(** The body of the [try] in [analyze_country]. *)
Definition analyze_body (name : string) : Py (option CountryAnalysis) :=
  let* current := read current_data in
  match current !! name with
  | None => no_data name
  | Some country_data =>
      if is_empty_dict country_data then no_data name
      else
        let* score := lift (as_number (default (PNum 0) (country_data !! "Market_Score"))) in
        let* metrics := lift (current_metrics_of country_data) in
        let* fs := forecast_metrics name 5 in
        let* risk := calculate_risk_score name in
        let* strong := lift (getitem country_data "Strengths") in
        let* weak := lift (getitem country_data "Weaknesses") in
        ret (Some {| country := name;
                     market_score := score;
                     status := status_of score;
                     current_metrics := metrics;
                     strengths := strong;
                     weaknesses := weak;
                     forecasts := fs;
                     risk_analysis := risk |})
  end.

Definition analyze_country (name : string) : Py (option CountryAnalysis) :=
  try_except (analyze_body name)
    (fun e => let* _ := logger_error (ErrorAnalyzing name e) in ret None).

End Analysis.

(** ** The dataset of the source *)

Module Seed.

Local Open Scope Q_scope.

(** The entries of [self.current_data] ([prepare_market_data]). *)
Definition japan_snapshot : gmap string pyval :=
  {[ "GDP" := PNum 4.23;
     "Population" := PNum 125.2;
     "Consumer_Spending" := PNum 2.88;
     "Economic_Growth" := PNum 1.0;
     "Market_Score" := PNum 88;
     "Strengths" := PList
       ["Advanced Infrastructure and Technology";
        "Strong Financial System";
        "High Innovation Capacity"];
     "Weaknesses" := PList
       ["Slow Economic Growth";
        "Complex Business Regulations";
        "Limited Market Expansion Potential"] ]}.

Definition brazil_snapshot : gmap string pyval :=
  {[ "GDP" := PNum 1.84;
     "Population" := PNum 214.3;
     "Consumer_Spending" := PNum 1.15;
     "Economic_Growth" := PNum 2.9;
     "Market_Score" := PNum 82;
     "Strengths" := PList
       ["Large Consumer Market";
        "Growing Middle Class";
        "Rich Natural Resources"];
     "Weaknesses" := PList
       ["Complex Regulatory Environment";
        "Infrastructure Gaps";
        "Bureaucratic Challenges"] ]}.

Definition france_snapshot : gmap string pyval :=
  {[ "GDP" := PNum 2.78;
     "Population" := PNum 67.8;
     "Consumer_Spending" := PNum 1.65;
     "Economic_Growth" := PNum 2.5;
     "Market_Score" := PNum 84;
     "Strengths" := PList
       ["Strong Infrastructure Network";
        "Skilled Workforce";
        "Strategic EU Market Position"];
     "Weaknesses" := PList
       ["High Labor Costs";
        "Complex Labor Laws";
        "Moderate Economic Growth"] ]}.

Definition canada_snapshot : gmap string pyval :=
  {[ "GDP" := PNum 2.00;
     "Population" := PNum 38.5;
     "Consumer_Spending" := PNum 1.18;
     "Economic_Growth" := PNum 3.4;
     "Market_Score" := PNum 83;
     "Strengths" := PList
       ["Strong Legal Framework";
        "Stable Financial System";
        "High-Quality Infrastructure"];
     "Weaknesses" := PList
       ["Small Domestic Market";
        "High Business Operating Costs";
        "Weather-Related Challenges"] ]}.

Definition prepare_market_data : gmap string (gmap string pyval) :=
  {[ "Japan" := japan_snapshot;
     "Brazil" := brazil_snapshot;
     "France" := france_snapshot;
     "Canada" := canada_snapshot ]}.

(** The entries of [self.historical_data] ([prepare_historical_data]). *)
Definition japan_history : gmap string (list Q) :=
  {[ "GDP" :=
       [5.16; 4.85; 4.39; 4.92; 4.87; 4.95; 5.08; 4.97; 4.94; 4.23];
     "Population" :=
       [127.3; 127.1; 126.9; 126.7; 126.5; 126.3; 126.1; 125.8; 125.5; 125.2];
     "Consumer_Spending" :=
       [2.98; 2.89; 2.82; 2.85; 2.88; 2.91; 2.94; 2.75; 2.82; 2.88];
     "Economic_Growth" :=
       [1.6; 0.4; 1.2; 0.5; 2.2; 0.3; 0.7; (-4.5); 1.6; 1.0] ]}.

Definition brazil_history : gmap string (list Q) :=
  {[ "GDP" :=
       [2.47; 2.46; 1.80; 1.80; 2.06; 1.92; 1.88; 1.45; 1.61; 1.84];
     "Population" :=
       [201.0; 202.8; 204.5; 206.2; 207.8; 209.3; 210.8; 212.2; 213.6; 214.3];
     "Consumer_Spending" :=
       [1.52; 1.48; 1.12; 1.15; 1.28; 1.24; 1.22; 0.98; 1.08; 1.15];
     "Economic_Growth" :=
       [3.0; 0.5; (-3.5); (-3.3); 1.3; 1.8; 1.2; (-3.9); 4.6; 2.9] ]}.

Definition france_history : gmap string (list Q) :=
  {[ "GDP" :=
       [2.81; 2.85; 2.43; 2.47; 2.59; 2.78; 2.73; 2.63; 2.96; 2.78];
     "Population" :=
       [65.8; 66.2; 66.5; 66.7; 66.9; 67.2; 67.3; 67.4; 67.6; 67.8];
     "Consumer_Spending" :=
       [1.62; 1.64; 1.42; 1.44; 1.52; 1.64; 1.61; 1.48; 1.72; 1.65];
     "Economic_Growth" :=
       [0.6; 1.0; 1.1; 1.1; 2.3; 1.9; 1.8; (-7.9); 6.8; 2.5] ]}.

Definition canada_history : gmap string (list Q) :=
  {[ "GDP" :=
       [1.84; 1.80; 1.56; 1.53; 1.65; 1.72; 1.74; 1.64; 1.99; 2.00];
     "Population" :=
       [35.2; 35.5; 35.8; 36.2; 36.5; 37.0; 37.6; 38.0; 38.2; 38.5];
     "Consumer_Spending" :=
       [1.05; 1.02; 0.92; 0.91; 0.98; 1.02; 1.04; 0.96; 1.15; 1.18];
     "Economic_Growth" :=
       [2.3; 2.9; 0.7; 1.1; 3.0; 2.8; 1.9; (-5.2); 4.5; 3.4] ]}.

Definition prepare_historical_data : gmap string (gmap string (list Q)) :=
  {[ "Japan" := japan_history;
     "Brazil" := brazil_history;
     "France" := france_history;
     "Canada" := canada_history ]}.

(** The entries of [self.risk_factors] ([prepare_risk_data]). *)
Definition japan_risks : risk_profile :=
  [("Political_Risk",
    {[ "score" := PNum 15;
       "factors" := PList
         ["Stable political environment";
          "Strong regulatory framework";
          "Occasional policy shifts affecting business"] ]});
   ("Economic_Risk",
    {[ "score" := PNum 25;
       "factors" := PList
         ["Deflation concerns";
          "High public debt";
          "Aging population impact"] ]});
   ("Operational_Risk",
    {[ "score" := PNum 20;
       "factors" := PList
         ["Natural disaster vulnerability";
          "High operating costs";
          "Complex business culture"] ]});
   ("Technical_Risk",
    {[ "score" := PNum 15;
       "factors" := PList
         ["Advanced digital infrastructure";
          "High cybersecurity standards";
          "Strong technological innovation";
          "Skilled IT workforce"] ]})].

Definition brazil_risks : risk_profile :=
  [("Political_Risk",
    {[ "score" := PNum 35;
       "factors" := PList
         ["Political instability";
          "Frequent regulatory changes";
          "Corruption concerns"] ]});
   ("Economic_Risk",
    {[ "score" := PNum 30;
       "factors" := PList
         ["Currency volatility";
          "Inflation risk";
          "Economic policy uncertainty"] ]});
   ("Operational_Risk",
    {[ "score" := PNum 40;
       "factors" := PList
         ["Infrastructure limitations";
          "Complex tax system";
          "Security concerns"] ]});
   ("Technical_Risk",
    {[ "score" := PNum 35;
       "factors" := PList
         ["Digital infrastructure gaps";
          "Cybersecurity vulnerabilities";
          "Limited tech talent pool";
          "Uneven technological adoption"] ]})].

Definition france_risks : risk_profile :=
  [("Political_Risk",
    {[ "score" := PNum 20;
       "factors" := PList
         ["Labor union influence";
          "EU regulatory compliance";
          "Social movement impact"] ]});
   ("Economic_Risk",
    {[ "score" := PNum 25;
       "factors" := PList
         ["High tax burden";
          "EU economic dependencies";
          "Labor market rigidity"] ]});
   ("Operational_Risk",
    {[ "score" := PNum 15;
       "factors" := PList
         ["Strike frequency";
          "Administrative complexity";
          "High labor costs"] ]});
   ("Technical_Risk",
    {[ "score" := PNum 20;
       "factors" := PList
         ["Good digital infrastructure";
          "Moderate cybersecurity framework";
          "Growing tech innovation";
          "Competitive IT sector"] ]})].

Definition canada_risks : risk_profile :=
  [("Political_Risk",
    {[ "score" := PNum 10;
       "factors" := PList
         ["Stable political system";
          "Strong property rights";
          "Transparent regulations"] ]});
   ("Economic_Risk",
    {[ "score" := PNum 20;
       "factors" := PList
         ["US economic dependency";
          "Housing market volatility";
          "Resource price sensitivity"] ]});
   ("Operational_Risk",
    {[ "score" := PNum 15;
       "factors" := PList
         ["High labor costs";
          "Inter-provincial trade barriers";
          "Weather-related disruptions"] ]});
   ("Technical_Risk",
    {[ "score" := PNum 18;
       "factors" := PList
         ["Strong digital infrastructure";
          "Advanced cybersecurity measures";
          "Growing tech ecosystem";
          "High tech adoption rate"] ]})].

Definition prepare_risk_data : gmap string risk_profile :=
  {[ "Japan" := japan_risks;
     "Brazil" := brazil_risks;
     "France" := france_risks;
     "Canada" := canada_risks ]}.

(** The analyzer as [__init__] leaves it. *)
Definition analyzer : MarketEntryAnalyzer :=
  {| current_data := prepare_market_data;
     historical_data := prepare_historical_data;
     risk_factors := prepare_risk_data;
     logged := [] |}.

End Seed.

(** ** The two collaborators

    The theorems about the analyzer hold for every smoothing function and
    every formatter, unless they name the ones below. *)

(** One observation of Holt's additive-trend recursion on the pair (level,
    trend), fractions kept in lowest terms. *)
Definition holt_step (alpha beta : Q) (state : Q * Q) (y : Q) : Q * Q :=
  let level := Qred (alpha * y + (1 - alpha) * (state.1 + state.2)) in
  (level, Qred (beta * (level - state.1) + (1 - beta) * state.2)).

(** The points [level + h * trend] for [h = k+1 .. k+n]. *)
Fixpoint holt_points (state : Q * Q) (k : Q) (n : nat) : list float64 :=
  match n with
  | O => []
  | S n' => Fin (Qred (state.1 + (k + 1) * state.2)) :: holt_points state (k + 1)%Q n'
  end.

(** Additive-trend smoothing with given coefficients: level and trend start
    at [y[0]] and [y[1] - y[0]], every observation updates them, and the
    forecast extends the last level and trend linearly. *)
Definition holt_fixed (alpha beta : Q) (ys : list Q) (years_ahead : Z)
    : result (list float64) :=
  match ys with
  | y0 :: y1 :: _ =>
      if (years_ahead <? 0)%Z then Raise FitError
      else Ok (holt_points (fold_left (holt_step alpha beta) ys (y0, (y1 - y0)%Q))
                 0%Q (Z.to_nat years_ahead))
  | _ => Raise FitError
  end.

(** Modelled from the spec: the fit and forecast of the smoothing library
    ([ExponentialSmoothing(data, trend='add', seasonal=None).fit()
    .forecast(years_ahead)] of statsmodels, which the source imports and does
    not contain).  Section 4.2 of the spec: a level and a trend, each updated
    recursively from every observation with smoothing coefficients; the
    forecast extends the fitted level and trend linearly; how the
    coefficients are fitted is left open, so it is the parameter [estimate];
    a series of fewer than 2 points is a fit failure. *)
Definition holt_forecast (estimate : list Q -> Q * Q) (ys : list Q)
    (years_ahead : Z) : result (list float64) :=
  holt_fixed (estimate ys).1 (estimate ys).2 ys years_ahead.

(** The nearest integer, ties to even. *)
Definition round_half_even (x : Q) : Z :=
  let d := Z.pos (Qden x) in
  let lo := (Qnum x / d)%Z in
  let twice := (2 * (Qnum x mod d))%Z in
  if (twice <? d)%Z then lo
  else if (d <? twice)%Z then (lo + 1)%Z
  else if Z.even lo then lo else (lo + 1)%Z.

(** The decimal digits of [n], left-padded with zeros to [width]. *)
Definition zero_padded (width : nat) (n : Z) : string :=
  let digits := pretty (Z.to_N n) in
  String.concat "" (replicate (width - String.length digits) "0") +:+ digits.

(** [:.Nf] on an exact decimal, rounded half to even.  Python formats the
    binary64 number nearest to the decimal, so the two differ on a decimal
    that is a tie of the rounding (2.675 at two places: the binary64 number
    lies below it and Python prints 2.67); on the numbers of the dataset they
    agree. *)
Definition format_decimal (decimals : nat) (x : Q) : string :=
  let scale := (10 ^ Z.of_nat decimals)%Z in
  let units := Z.abs (round_half_even (x * inject_Z scale)) in
  (if Qle_bool 0 x then "" else "-")
  +:+ pretty (Z.to_N (units / scale))
  +:+ match decimals with
      | O => ""
      | S _ => "." +:+ zero_padded decimals (units mod scale)
      end.

(** The smoothing the examples run with: both coefficients one half. *)
Module Run.

Definition smoothing : list Q -> Z -> result (list float64) :=
  holt_forecast (fun _ => (1 # 2, 1 # 2)).


End Run.

(** Variations of the dataset on which a sub-computation fails or a field
    is missing. *)
Module Fixture.

(** Japan with a single observation of GDP. *)
Definition short_gdp_history : gmap string (list Q) :=
  <["GDP" := [4.23%Q]]> Seed.japan_history.

Definition short_gdp_analyzer : MarketEntryAnalyzer :=
  {| current_data := Seed.prepare_market_data;
     historical_data := <["Japan" := short_gdp_history]> Seed.prepare_historical_data;
     risk_factors := Seed.prepare_risk_data;
     logged := [] |}.

(** Canada without a market score. *)
Definition unscored_snapshot : gmap string pyval :=
  delete "Market_Score" Seed.canada_snapshot.

Definition unscored_analyzer : MarketEntryAnalyzer :=
  {| current_data := <["Canada" := unscored_snapshot]> Seed.prepare_market_data;
     historical_data := Seed.prepare_historical_data;
     risk_factors := Seed.prepare_risk_data;
     logged := [] |}.

(** Canada without its current GDP. *)
Definition no_gdp_snapshot : gmap string pyval :=
  delete "GDP" Seed.canada_snapshot.

Definition no_gdp_analyzer : MarketEntryAnalyzer :=
  {| current_data := <["Canada" := no_gdp_snapshot]> Seed.prepare_market_data;
     historical_data := Seed.prepare_historical_data;
     risk_factors := Seed.prepare_risk_data;
     logged := [] |}.

(** Japan without a Population series and with a single observation of
    Consumer_Spending: two of the four metrics fail, each in its own way. *)
Definition two_failures_history : gmap string (list Q) :=
  <["Consumer_Spending" := [2.88%Q]]> (delete "Population" Seed.japan_history).

Definition two_failures_analyzer : MarketEntryAnalyzer :=
  {| current_data := Seed.prepare_market_data;
     historical_data := <["Japan" := two_failures_history]> Seed.prepare_historical_data;
     risk_factors := Seed.prepare_risk_data;
     logged := [] |}.

(** Japan with the scores 0, 1, 41 and 26, whose weighted sum is 15. *)
Definition rounding_risks : risk_profile :=
  [("Political_Risk", {[ "score" := PNum 0; "factors" := PList [] ]});
   ("Economic_Risk", {[ "score" := PNum 1; "factors" := PList [] ]});
   ("Operational_Risk", {[ "score" := PNum 41; "factors" := PList [] ]});
   ("Technical_Risk", {[ "score" := PNum 26; "factors" := PList [] ]})].

Definition rounding_analyzer : MarketEntryAnalyzer :=
  {| current_data := Seed.prepare_market_data;
     historical_data := Seed.prepare_historical_data;
     risk_factors := <["Japan" := rounding_risks]> Seed.prepare_risk_data;
     logged := [] |}.

(** The same entries in the order Technical, Economic, Operational,
    Political. *)
Definition rounding_risks_reordered : risk_profile :=
  [("Technical_Risk", {[ "score" := PNum 26; "factors" := PList [] ]});
   ("Economic_Risk", {[ "score" := PNum 1; "factors" := PList [] ]});
   ("Operational_Risk", {[ "score" := PNum 41; "factors" := PList [] ]});
   ("Political_Risk", {[ "score" := PNum 0; "factors" := PList [] ]})].

Definition rounding_reordered_analyzer : MarketEntryAnalyzer :=
  {| current_data := Seed.prepare_market_data;
     historical_data := Seed.prepare_historical_data;
     risk_factors := <["Japan" := rounding_risks_reordered]> Seed.prepare_risk_data;
     logged := [] |}.

End Fixture.

(** ** Vocabulary of the properties *)

(** Two analyzers with the same three tables; their logs may differ. *)
Definition same_data (s1 s2 : MarketEntryAnalyzer) : Prop :=
  current_data s1 = current_data s2
  ∧ historical_data s1 = historical_data s2
  ∧ risk_factors s1 = risk_factors s2.

(** What one logged error does to the analyzer. *)
Definition with_error (s : MarketEntryAnalyzer) (m : log_message) : MarketEntryAnalyzer :=
  (logger_error m s).2.

(** A profile entry of the category [risk_type] with numeric score [x]. *)
Definition category (risk_type : string) (x : Q)
    (item : string * gmap string pyval) : Prop :=
  item.1 = risk_type
  ∧ item.2 !! "score" = Some (PNum x)
  ∧ is_Some (item.2 !! "factors").


(** [d] holds a number under [key]. *)
Definition holds_number (d : gmap string pyval) (key : string) : bool :=
  match d !! key with
  | Some (PNum _) => true
  | _ => false
  end.

(** [d] has the field [key]. *)
Definition has_field (d : gmap string pyval) (key : string) : bool :=
  match d !! key with
  | Some _ => true
  | None => false
  end.

(** A snapshot as the data model has it: the four current metrics are
    numbers, strengths and weaknesses are present, and the market score, when
    present, is a number. *)
Definition well_formed_snapshot (d : gmap string pyval) : bool :=
  forallb (holds_number d) ["Population"; "GDP"; "Consumer_Spending"; "Economic_Growth"]
  && has_field d "Strengths"
  && has_field d "Weaknesses"
  && match d !! "Market_Score" with
     | None | Some (PNum _) => true
     | Some (PList _) => false
     end.

(** The four statuses from the least to the most suitable. *)
Definition status_rank (label : string) : nat :=
  if String.eqb label "Highly Suitable" then 3
  else if String.eqb label "Very Suitable" then 2
  else if String.eqb label "Suitable" then 1
  else 0.

(** ** The batch report and the comparison chart

    [analyze_markets] and [create_comparison_visualizations] are module-level
    functions with no [try]: an exception raised in them ends the call.  They
    run on a console: the analyzer in use, the lines printed so far and the
    charts saved so far.  A chart is the data handed to [plt.bar] and
    [plt.text]; figure size, titles, axis labels and legends are not
    represented. *)

(** What ends a call of the reporting functions: an exception of the kinds
    the analyzer knows, or the [ValueError] of [float(text)]. *)
Inductive error : Type :=
  | Uncaught (e : exn)
  | ValueError (text : string).

Inductive outcome (A : Type) : Type :=
  | Returned (a : A)
  | Aborted (e : error).
Arguments Returned {A} a.
Arguments Aborted {A} e.

(** One call of [plt.bar]: positions (binary64 numbers), heights of type
    [H], and the width, colours and label when they are given. *)
Record Bars (H : Type) : Type := {
  bar_x : list PrimFloat.float;
  bar_height : list H;
  bar_width : option PrimFloat.float;
  bar_color : option (list string);
  bar_label : option string
}.
Arguments bar_x {H} b.
Arguments bar_height {H} b.
Arguments bar_width {H} b.
Arguments bar_color {H} b.
Arguments bar_label {H} b.

(** The four subplots of [market_comparison.png]: the bars of each, the tick
    labels and the texts written on top of the bars. *)
Record Chart : Type := {
  chart_countries : list string;
  score_bars : Bars Q;
  score_texts : list string;
  risk_bars : Bars Q;
  risk_texts : list string;
  category_bars : list (Bars pyval);
  metric_bars : list (Bars float64)
}.

Record console : Type := {
  analyzer : MarketEntryAnalyzer;
  stdout : list string;
  figures : list Chart
}.

Definition IO (A : Type) : Type := console -> outcome A * console.

Definition io_ret {A : Type} (a : A) : IO A := fun w => (Returned a, w).

Definition io_bind {A B : Type} (m : IO A) (k : A -> IO B) : IO B :=
  fun w =>
    match m w with
    | (Returned a, w') => k a w'
    | (Aborted e, w') => (Aborted e, w')
    end.

Notation "'let!' x := m 'in' k" := (io_bind m (fun x => k))
  (at level 10, x name, m at level 100, k at level 200, only parsing).

(** [print(text)]. *)
Definition print (text : string) : IO unit :=
  fun w => (Returned tt, {| analyzer := analyzer w;
                            stdout := stdout w ++ [text];
                            figures := figures w |}).

(** [plt.savefig(...)]. *)
Definition savefig (chart : Chart) : IO unit :=
  fun w => (Returned tt, {| analyzer := analyzer w;
                            stdout := stdout w;
                            figures := figures w ++ [chart] |}).

(** A computation that may raise, outside any [try]. *)
Definition unguarded {A : Type} (r : result A) : IO A :=
  fun w => match r with
           | Ok a => (Returned a, w)
           | Raise e => (Aborted (Uncaught e), w)
           end.

(** A method call on the analyzer of the console. *)
Definition call {A : Type} (method : Py A) : IO A :=
  fun w =>
    let w' r := {| analyzer := r; stdout := stdout w; figures := figures w |} in
    match method (analyzer w) with
    | (Ok a, self') => (Returned a, w' self')
    | (Raise e, self') => (Aborted (Uncaught e), w' self')
    end.

(** [for x in items: body x]. *)
Fixpoint for_each {A : Type} (items : list A) (body : A -> IO unit) : IO unit :=
  match items with
  | [] => io_ret tt
  | x :: rest => let! _ := body x in for_each rest body
  end.

(** [x[...]] on a value that may be [None]. *)
Definition subscriptable {A : Type} (x : option A) : result A :=
  match x with
  | Some a => Ok a
  | None => Raise TypeError
  end.

(** [for x in v]: the items of a list; a number cannot be iterated. *)
Definition iterate (v : pyval) : result (list string) :=
  match v with
  | PList l => Ok l
  | PNum _ => Raise TypeError
  end.

(** The scan of [s.replace(old, new)] for a non-empty [old]: [skip] counts
    the characters of the occurrence just replaced that are still ahead. *)
Fixpoint replace_go (old new : string) (skip : nat) (s : string) : string :=
  match s with
  | EmptyString => EmptyString
  | String c rest =>
      match skip with
      | S k => replace_go old new k rest
      | O =>
          if String.prefix old s
          then new +:+ replace_go old new (String.length old - 1) rest
          else String c (replace_go old new 0 rest)
      end
  end.

Definition replace (old new s : string) : string := replace_go old new 0 s.

(** The newline of ["\n..."] and the rule ['-'*50]. *)
Definition nl : string := String (Ascii.ascii_of_nat 10) EmptyString.

Definition rule : string := String.concat "" (replicate 50 "-").

(** [current_metrics.items()]: the dict is the one [current_metrics_of]
    built, so its items come in the order of that literal. *)
Definition current_metrics_items (metrics : gmap string string)
    : list (string * string) :=
  omap (fun key => (fun value => (key, value)) <$> metrics !! key)
    ["Population"; "GDP"; "Consumer_Spending"; "Economic_Growth"].

(** [np.arange(n)], and [range(n)] where it gives the positions of bars:
    the integers from 0 to n - 1, as the binary64 numbers that the
    arithmetic on them and [plt.bar] take them for. *)
Definition arange (n : nat) : list PrimFloat.float :=
  (fun i => Binary64.of_Z (Z.of_nat i)) <$> seq 0 n.

(** The colour of a market score and of a total risk score in the chart. *)
Definition score_color (s : Q) : string :=
  if Qle_bool 88 s then "#2ecc71"
  else if Qle_bool 82 s then "#3498db"
  else if Qle_bool 75 s then "#f1c40f"
  else "#e67e22".

Definition risk_color (s : Q) : string :=
  if Qle_bool s 15 then "#2ecc71"
  else if Qle_bool s 25 then "#3498db"
  else if Qle_bool s 35 then "#f1c40f"
  else "#e67e22".

Definition risk_categories : list string :=
  ["Political_Risk"; "Economic_Risk"; "Operational_Risk"; "Technical_Risk"].

Definition chart_metrics : list string :=
  ["GDP"; "Consumer_Spending"; "Economic_Growth"].

(** [d[key]] on the association list of the detailed scores. *)
Definition detail_of (details : list (string * DetailedScore)) (key : string)
    : result DetailedScore :=
  match list_find (fun entry => String.eqb entry.1 key) details with
  | Some (_, entry) => Ok entry.2
  | None => Raise (KeyError key)
  end.

(** A list comprehension whose element expression may raise. *)
Fixpoint comprehension {A B : Type} (f : A -> outcome B) (items : list A)
    : outcome (list B) :=
  match items with
  | [] => Returned []
  | x :: rest =>
      match f x with
      | Aborted e => Aborted e
      | Returned y =>
          match comprehension f rest with
          | Aborted e => Aborted e
          | Returned ys => Returned (y :: ys)
          end
      end
  end.

Definition guarded {A : Type} (r : result A) : outcome A :=
  match r with
  | Ok a => Returned a
  | Raise e => Aborted (Uncaught e)
  end.

Section Reporting.

Import PrimFloat.

Variable smoothing_forecast : list Q -> Z -> result (list float64).
Variable format_fixed : nat -> Q -> string.

(** [str(v)]. *)
Variable py_str : pyval -> string.

(** [float(text)]: the number read, or nothing for a [ValueError]. *)
Variable py_float : string -> option float64.

(** [f"{x:.Nf}"] on a numpy scalar. *)
Definition format_float64 (decimals : nat) (x : float64) : string :=
  match x with
  | Fin q => format_fixed decimals q
  | PInf => "inf"
  | NInf => "-inf"
  | NaN => "nan"
  end.

(** [float(text.replace('$', '').replace(' Trillion USD', '').replace('%', ''))]. *)
Definition reread (text : string) : outcome float64 :=
  let stripped := replace "%" "" (replace " Trillion USD" "" (replace "$" "" text)) in
  match py_float stripped with
  | Some q => Returned q
  | None => Aborted (ValueError stripped)
  end.

(** The bars of one risk category, [i] being its index, at
    [x + i*width - (len(risk_categories)-1)*width/2]. *)
Definition category_series (results : list CountryAnalysis) (i : nat)
    (category : string) : outcome (Bars pyval) :=
  match comprehension
          (fun r => guarded (let? risk := subscriptable (risk_analysis r) in
                             let? detail := detail_of (detailed_scores risk) category in
                             Ok (score detail)))
          results with
  | Aborted e => Aborted e
  | Returned category_scores =>
      let width := Binary64.of_Q 0.2 in
      Returned
        {| bar_x := (fun x => x + Binary64.of_Z (Z.of_nat i) * width
                              - Binary64.of_Z (Z.of_nat (length risk_categories - 1))
                                * width / 2)%float
                    <$> arange (length results);
           bar_height := category_scores;
           bar_width := Some width;
           bar_color := None;
           bar_label := Some (replace "_" " " category) |}
  end.

(** The bars of one economic metric, read back from its display string, at
    [x + i*width - len(metrics)*width/2]. *)
Definition metric_series (results : list CountryAnalysis) (i : nat)
    (metric : string) : outcome (Bars float64) :=
  match comprehension
          (fun r => match guarded (getitem (current_metrics r) metric) with
                    | Aborted e => Aborted e
                    | Returned text => reread text
                    end)
          results with
  | Aborted e => Aborted e
  | Returned values =>
      let width := Binary64.of_Q 0.25 in
      Returned
        {| bar_x := (fun x => x + Binary64.of_Z (Z.of_nat i) * width
                              - Binary64.of_Z (Z.of_nat (length chart_metrics))
                                * width / 2)%float
                    <$> arange (length results);
           bar_height := values;
           bar_width := Some width;
           bar_color := None;
           bar_label := Some metric |}
  end.

(** [for i, x in enumerate(items)] building one series per item. *)
Fixpoint enumerate_series {H : Type} (f : nat -> string -> outcome (Bars H))
    (i : nat) (items : list string) : outcome (list (Bars H)) :=
  match items with
  | [] => Returned []
  | x :: rest =>
      match f i x with
      | Aborted e => Aborted e
      | Returned b =>
          match enumerate_series f (S i) rest with
          | Aborted e => Aborted e
          | Returned bs => Returned (b :: bs)
          end
      end
  end.

(** The data of the four subplots, in the order the source computes them. *)
Definition comparison_chart (results : list CountryAnalysis) : outcome Chart :=
  let countries := country <$> results in
  let scores := market_score <$> results in
  let colors := score_color <$> scores in
  match comprehension
          (fun r => guarded (let? risk := subscriptable (risk_analysis r) in
                             Ok (total_score risk)))
          results with
  | Aborted e => Aborted e
  | Returned risk_scores =>
      let risk_colors := risk_color <$> risk_scores in
      match enumerate_series (category_series results) 0 risk_categories with
      | Aborted e => Aborted e
      | Returned categories =>
          match enumerate_series (metric_series results) 0 chart_metrics with
          | Aborted e => Aborted e
          | Returned metrics =>
              Returned
                {| chart_countries := countries;
                   score_bars := {| bar_x := arange (length countries);
                                    bar_height := scores;
                                    bar_width := None;
                                    bar_color := Some colors;
                                    bar_label := None |};
                   score_texts := (fun s => format_fixed 1 s +:+ "%") <$> scores;
                   risk_bars := {| bar_x := arange (length countries);
                                   bar_height := risk_scores;
                                   bar_width := None;
                                   bar_color := Some risk_colors;
                                   bar_label := None |};
                   risk_texts := format_fixed 1 <$> risk_scores;
                   category_bars := categories;
                   metric_bars := metrics |}
          end
      end
  end.

Definition create_comparison_visualizations (results : list CountryAnalysis)
    : IO unit :=
  fun w =>
    match comparison_chart results with
    | Aborted e => (Aborted e, w)
    | Returned chart => savefig chart w
    end.

(** One line of the 5-year outlook with its growth rate. *)
Definition outlook_line (forecasts : gmap string Forecast) (metric : string)
    (head : string) (decimals : nat) (units tail : string) : IO unit :=
  let! f := unguarded (getitem forecasts metric) in
  print (head +:+ format_float64 decimals (forecasted_value f) +:+ units +:+ " ("
         +:+ trend f +:+ ", " +:+ format_float64 1 (growth_rate f) +:+ tail).

(** The lines that [analyze_markets] prints for one analysis. *)
Definition print_analysis (name : string) (analysis : CountryAnalysis) : IO unit :=
  let! _ := print (nl +:+ rule) in
  let! _ := print ("Market Analysis: " +:+ name) in
  let! _ := print rule in
  let! _ := print ("Market Entry Score: " +:+ format_fixed 2 (market_score analysis) +:+ "%") in
  let! _ := print ("Status: " +:+ status analysis) in
  let! _ := print (nl +:+ "Risk Assessment:") in
  let! risk := unguarded (subscriptable (risk_analysis analysis)) in
  let! _ := print ("Overall Risk Rating: " +:+ risk_rating risk) in
  let! _ := print ("Total Risk Score: " +:+ format_fixed 2 (total_score risk)) in
  let! _ := print (nl +:+ "Detailed Risk Analysis:") in
  let! _ := for_each (detailed_scores risk) (fun item =>
              let! _ := print (nl +:+ replace "_" " " item.1 +:+ ":") in
              let! _ := print ("Score: " +:+ py_str (score item.2)) in
              let! _ := print "Key Factors:" in
              let! key_factors := unguarded (iterate (factors item.2)) in
              for_each key_factors (fun factor => print ("- " +:+ factor))) in
  let! _ := print (nl +:+ "Current Market Metrics:") in
  let! _ := for_each (current_metrics_items (current_metrics analysis)) (fun item =>
              print (item.1 +:+ ": " +:+ item.2)) in
  let! _ := print (nl +:+ "Key Strengths:") in
  let! strong := unguarded (iterate (strengths analysis)) in
  let! _ := for_each strong (fun strength => print ("- " +:+ strength)) in
  let! _ := print (nl +:+ "Key Challenges:") in
  let! weak := unguarded (iterate (weaknesses analysis)) in
  let! _ := for_each weak (fun weakness => print ("- " +:+ weakness)) in
  let! _ :=
    match forecasts analysis with
    | None => io_ret tt
    | Some fs =>
        if is_empty_dict fs then io_ret tt
        else
          let! _ := print (nl +:+ "5-Year Market Outlook:") in
          let! _ := outlook_line fs "GDP" "GDP: $" 2 " Trillion USD" "% growth)" in
          let! _ := outlook_line fs "Population" "Population: " 1 " Million" "% change)" in
          let! _ := outlook_line fs "Consumer_Spending" "Consumer Spending: $" 2
                      " Trillion USD" "% growth)" in
          let! growth := unguarded (getitem fs "Economic_Growth") in
          print ("Expected GDP Growth Rate: "
                 +:+ format_float64 1 (forecasted_value growth) +:+ "%")
    end in
  print rule.

(** The loop of [analyze_markets] over the countries, [results] being the
    list built so far. *)
Fixpoint analyze_each (countries : list string) (results : list CountryAnalysis)
    : IO (list CountryAnalysis) :=
  match countries with
  | [] => io_ret results
  | name :: rest =>
      let! _ := print (nl +:+ "Analyzing " +:+ name +:+ "...") in
      let! analysis := call (analyze_country smoothing_forecast format_fixed name) in
      match analysis with
      | None => analyze_each rest results
      | Some a =>
          let! _ := print_analysis name a in
          analyze_each rest (results ++ [a])
      end
  end.

(** [analyze_markets], from the tables that [MarketEntryAnalyzer()] sets up;
    the log is the one of the process. *)
Definition analyze_markets_from (tables : MarketEntryAnalyzer)
    (country_list : list string) : IO (list CountryAnalysis) :=
  fun w =>
    let fresh := {| analyzer := {| current_data := current_data tables;
                                   historical_data := historical_data tables;
                                   risk_factors := risk_factors tables;
                                   logged := logged (analyzer w) |};
                    stdout := stdout w;
                    figures := figures w |} in
    (let! _ := print (nl +:+ "Analyzing countries: " +:+ String.concat ", " country_list) in
     let! results := analyze_each country_list [] in
     let! _ :=
       match results with
       | [] => io_ret tt
       | _ :: _ =>
           let! _ := create_comparison_visualizations results in
           print (nl +:+ "Visualization saved as 'market_comparison.png'")
       end in
     io_ret results) fresh.

Definition analyze_markets (country_list : list string) : IO (list CountryAnalysis) :=
  analyze_markets_from Seed.analyzer country_list.

End Reporting.

(** ** The market outlook of the dashboard

    Of the Streamlit script, the block that draws the 5-year outlook of one
    analysis: a loop over four rows, each reading [forecasts[metric]] and
    calling [st.metric].  A call of [st.metric] is the data it is given; the
    columns it is placed in are not represented. *)

Record Metric : Type := {
  metric_label : string;
  metric_value : string;
  metric_delta : option string
}.

(** The rows of [metrics]: the metric, whether the row has a growth key, and
    the unit; the value key is ['forecasted_value'] in every row. *)
Definition outlook_rows : list (string * bool * string) :=
  [("GDP", true, "T USD");
   ("Population", true, "M");
   ("Consumer_Spending", true, "T USD");
   ("Economic_Growth", false, "%")].

Section Dashboard.

Variable format_fixed : nat -> Q -> string.

(** One turn of the loop. *)
Definition outlook_metric (forecasts : option (gmap string Forecast))
    (row : string * bool * string) : outcome Metric :=
  match guarded (let? fs := subscriptable forecasts in getitem fs row.1.1) with
  | Aborted e => Aborted e
  | Returned metric_data =>
      let value := forecasted_value metric_data in
      if row.1.2
      then Returned
             {| metric_label := row.1.1;
                metric_value := format_float64 format_fixed 1 value +:+ " " +:+ row.2;
                metric_delta := Some (format_float64 format_fixed 1
                                        (growth_rate metric_data) +:+ "%") |}
      else Returned
             {| metric_label := row.1.1;
                metric_value := format_float64 format_fixed 1 value +:+ row.2;
                metric_delta := None |}
  end.

Definition market_outlook (forecasts : option (gmap string Forecast))
    : outcome (list Metric) :=
  comprehension (outlook_metric forecasts) outlook_rows.

End Dashboard.

(** Further variations of the dataset. *)
Module Variant.



(** Brazil without a risk profile. *)
Definition unrated_analyzer : MarketEntryAnalyzer :=
  {| current_data := Seed.prepare_market_data;
     historical_data := Seed.prepare_historical_data;
     risk_factors := delete "Brazil" Seed.prepare_risk_data;
     logged := [] |}.

(** France with a profile of one category, political risk 90. *)
Definition political_only : risk_profile :=
  [("Political_Risk", {[ "score" := PNum 90; "factors" := PList ["Unrest"] ]})].

Definition political_only_analyzer : MarketEntryAnalyzer :=
  {| current_data := Seed.prepare_market_data;
     historical_data := Seed.prepare_historical_data;
     risk_factors := <["France" := political_only]> Seed.prepare_risk_data;
     logged := [] |}.

(** The same profile with an economic risk of 0 added. *)
Definition political_and_zero : risk_profile :=
  political_only
  ++ [("Economic_Risk", {[ "score" := PNum 0; "factors" := PList [] ]})].

Definition political_and_zero_analyzer : MarketEntryAnalyzer :=
  {| current_data := Seed.prepare_market_data;
     historical_data := Seed.prepare_historical_data;
     risk_factors := <["France" := political_and_zero]> Seed.prepare_risk_data;
     logged := [] |}.

End Variant.

(** Stand-ins for [str] and [float], for the examples: they cover the texts
    the examples meet, integers for [str] and the decimals that
    [format_decimal] writes for [float]. *)
Module Console.

Definition str (v : pyval) : string :=
  match v with
  | PNum q => format_decimal 0 q
  | PList l => "[" +:+ String.concat ", " l +:+ "]"
  end.

Definition digit_value (c : Ascii.ascii) : option Z :=
  let n := Z.of_N (Ascii.N_of_ascii c) in
  if ((48 <=? n) && (n <=? 57))%Z then Some (n - 48)%Z else None.

(** The number a non-empty run of digits writes, and the length of the run. *)
Fixpoint read_digits (s : string) (acc : Z) (count : nat) : option (Z * nat) :=
  match s with
  | EmptyString =>
      match count with
      | O => None
      | S _ => Some (acc, count)
      end
  | String c rest =>
      match digit_value c with
      | Some d => read_digits rest (10 * acc + d)%Z (S count)
      | None => None
      end
  end.

(** The text before the first point, and the text after it if there is one. *)
Fixpoint split_point (s : string) : string * option string :=
  match s with
  | EmptyString => (EmptyString, None)
  | String c rest =>
      if Ascii.eqb c (Ascii.ascii_of_nat 46) then (EmptyString, Some rest)
      else (String c (split_point rest).1, (split_point rest).2)
  end.

Definition read_unsigned (s : string) : option Q :=
  match read_digits (split_point s).1 0 0, (split_point s).2 with
  | None, _ => None
  | Some (whole, _), None => Some (inject_Z whole)
  | Some (whole, _), Some fraction =>
      match read_digits fraction 0 0 with
      | None => None
      | Some (num, k) => Some (Qred (inject_Z whole + inject_Z num / inject_Z (10 ^ Z.of_nat k)))
      end
  end.

Definition float (s : string) : option float64 :=
  match s with
  | EmptyString => None
  | String c rest =>
      if Ascii.eqb c (Ascii.ascii_of_nat 45)
      then (fun q => Fin (- q)) <$> read_unsigned rest
      else Fin <$> read_unsigned s
  end.

(** The console of a process that has printed and saved nothing yet. *)
Definition start : console :=
  {| analyzer := Seed.analyzer; stdout := []; figures := [] |}.

End Console.

(** The analysis that [analyze_country] returns for [name] on [tables]. *)
Definition analysis_of (fit : list Q -> Z -> result (list float64))
    (fmt : nat -> Q -> string) (tables : MarketEntryAnalyzer) (name : string)
    : option CountryAnalysis :=
  match (analyze_country fit fmt name tables).1 with
  | Ok r => r
  | Raise _ => None
  end.

Definition is_list (v : pyval) : bool :=
  match v with
  | PList _ => true
  | PNum _ => false
  end.

(** An assessment with the four categories of the chart, each with a list of
    factors. *)
Definition reportable_risk (r : RiskAssessment) : bool :=
  forallb (fun category => match detail_of (detailed_scores r) category with
                           | Ok _ => true
                           | Raise _ => false
                           end) risk_categories
  && forallb (fun item : string * DetailedScore => is_list (factors item.2))
       (detailed_scores r).

(** An analysis that has what the report and the chart index without a
    check: an assessment as above, and lists of strengths and weaknesses. *)
Definition reportable (a : CountryAnalysis) : bool :=
  match risk_analysis a with
  | Some r => reportable_risk r
  | None => false
  end
  && is_list (strengths a)
  && is_list (weaknesses a).

(** The characters the chart strips from a metric: of ["$"], [" Trillion
    USD"] and ["%"], the ones a text must not hold to come back unchanged. *)
Definition is_mark (c : Ascii.ascii) : bool :=
  existsb (Ascii.eqb c) (String.list_ascii_of_string "$% ").

Definition plain (s : string) : bool :=
  forallb (fun c => negb (is_mark c)) (String.list_ascii_of_string s).

(** [float(text)] as an outcome. *)
Definition float_outcome (py_float : string -> option float64) (text : string)
    : outcome float64 :=
  match py_float text with
  | Some v => Returned v
  | None => Aborted (ValueError text)
  end.

(** From [w] to [w'] the analyzer and the charts were left alone and lines
    were added; [printer m]: that is all [m] does. *)
Definition only_prints (w w' : console) : Prop :=
  analyzer w' = analyzer w
  ∧ figures w' = figures w
  ∧ ∃ lines, stdout w' = stdout w ++ lines.

Definition printer {A : Type} (m : IO A) : Prop := ∀ w, only_prints w (m w).2.

(** An outcome that is a value or one of the errors [E]; [raises_only E m]:
    so is the outcome of [m] on every console. *)
Definition outcome_only {A : Type} (E : error -> Prop) (o : outcome A) : Prop :=
  match o with
  | Returned _ => True
  | Aborted e => E e
  end.

Definition raises_only {A : Type} (E : error -> Prop) (m : IO A) : Prop :=
  ∀ w, outcome_only E (m w).1.

(** The sets of errors that the properties name. *)
Definition no_error (e : error) : Prop := False.

Definition type_error (e : error) : Prop := e = Uncaught TypeError.

Definition value_error (e : error) : Prop :=
  match e with
  | ValueError _ => True
  | Uncaught _ => False
  end.

(** One method call appends [extra] to the log and touches nothing else. *)
Definition logs (s s' : MarketEntryAnalyzer) (extra : list log_message) : Prop :=
  same_data s s' ∧ logged s' = logged s ++ extra.

(** Two binary64 numbers within 1e-9 of each other. *)
Definition within_tolerance (x y : PrimFloat.float) : bool :=
  PrimFloat.leb (PrimFloat.abs (PrimFloat.sub x y)) (Binary64.of_Q (1 # 1000000000)).

(** The binary64 number nearest to [j + q], for the tick [j] of a chart. *)
Definition beside (j : nat) (q : Q) : PrimFloat.float :=
  Binary64.of_Q (inject_Z (Z.of_nat j) + q).

(** * Properties *)

(** ** The methods catch every exception and leave the dataset alone *)

Lemma same_data_refl s : same_data s s.
Proof. by repeat split. Qed.

Lemma same_data_trans s1 s2 s3 : same_data s1 s2 → same_data s2 s3 → same_data s1 s3.
Proof. intros (? & ? & ?) (? & ? & ?). repeat split; congruence. Qed.

Lemma with_error_same_data s m : same_data s (with_error s m).
Proof. by repeat split. Qed.

Lemma with_error_logged s m : logged (with_error s m) = logged s ++ [m].
Proof. reflexivity. Qed.

(** [calculate_risk_score] case by case: a value is returned with the
    analyzer untouched, an exception becomes [None] and one log line. *)
Lemma calculate_risk_score_unfold c s :
  calculate_risk_score c s =
    match risk_factors s !! c with
    | None | Some [] => (Ok None, s)
    | Some items =>
        match sum_from 0 items with
        | Raise e => (Ok None, with_error s (ErrorRiskScore c e))
        | Ok total =>
            match detail_items items with
            | Raise e => (Ok None, with_error s (ErrorRiskScore c e))
            | Ok details =>
                (Ok (Some {| total_score := total;
                             risk_rating := risk_rating_of total;
                             detailed_scores := details |}), s)
            end
        end
    end.
Proof.
  unfold calculate_risk_score, try_except, risk_score_body, bind, read, lift, ret.
  destruct (risk_factors s !! c) as [[|item rest]|]; try reflexivity.
  destruct (sum_from 0 (item :: rest)); try reflexivity.
  destruct (detail_items (item :: rest)); reflexivity.
Qed.

Section AnalysisFacts.

Variable fit : list Q -> Z -> result (list float64).
Variable fmt : nat -> Q -> string.

Lemma forecast_metrics_unfold c n s :
  forecast_metrics fit c n s =
    match historical_data s !! c with
    | None => (Ok None, s)
    | Some series =>
        match forecast_loop fit series n metrics_to_forecast ∅ with
        | Ok fs => (Ok (Some fs), s)
        | Raise e => (Ok None, with_error s (ErrorForecasting c e))
        end
    end.
Proof.
  unfold forecast_metrics, try_except, forecast_body, bind, read, lift, ret.
  destruct (historical_data s !! c) as [series|]; try reflexivity.
  destruct (forecast_loop fit series n metrics_to_forecast ∅); reflexivity.
Qed.

(** Neither method lets an exception out. *)
Lemma calculate_risk_score_returns c s :
  ∃ r s', calculate_risk_score c s = (Ok r, s') ∧ same_data s s'.
Proof.
  rewrite calculate_risk_score_unfold.
  destruct (risk_factors s !! c) as [[|item rest]|]; eauto using same_data_refl.
  destruct (sum_from 0 (item :: rest)); eauto using with_error_same_data.
  destruct (detail_items (item :: rest));
    eauto using same_data_refl, with_error_same_data.
Qed.

Lemma forecast_metrics_returns c n s :
  ∃ r s', forecast_metrics fit c n s = (Ok r, s') ∧ same_data s s'.
Proof.
  rewrite forecast_metrics_unfold.
  destruct (historical_data s !! c) as [series|]; eauto using same_data_refl.
  destruct (forecast_loop fit series n metrics_to_forecast ∅);
    eauto using same_data_refl, with_error_same_data.
Qed.

End AnalysisFacts.

(** ** Risk scoring *)



(** Lookups in the dataset of the source, by the map laws. *)
Ltac seed_lookup :=
  solve [ repeat first
    [ apply lookup_insert_eq
    | apply lookup_singleton_eq
    | apply lookup_delete_eq
    | rewrite lookup_insert_ne by discriminate
    | rewrite lookup_delete_ne by discriminate ] ].


(** Japan's assessment on the dataset of the source. *)
Lemma seed_japan_assessment :
  ∃ r, (calculate_risk_score "Japan" Seed.analyzer).1 = Ok (Some r)
       ∧ (total_score r == 19)%Q
       ∧ risk_rating r = "Low Risk".
Proof.
  eexists. split; [vm_compute; reflexivity |]. split; [vm_compute |]; reflexivity.
Qed.

(** ** The total score in binary64 *)

Lemma binary64_risk_score_unfold mode c s :
  Binary64.calculate_risk_score mode c s =
    match risk_factors s !! c with
    | None | Some [] => (Ok None, s)
    | Some items =>
        match Binary64.products items with
        | Raise e => (Ok None, with_error s (ErrorRiskScore c e))
        | Ok terms =>
            match detail_items items with
            | Raise e => (Ok None, with_error s (ErrorRiskScore c e))
            | Ok details =>
                (Ok (Some {| Binary64.total_score := Binary64.py_sum mode terms;
                             Binary64.risk_rating :=
                               Binary64.risk_rating_of (Binary64.py_sum mode terms);
                             Binary64.detailed_scores := details |}), s)
            end
        end
    end.
Proof.
  unfold Binary64.calculate_risk_score, try_except, Binary64.risk_score_body,
    bind, read, lift, ret.
  destruct (risk_factors s !! c) as [[|item rest]|]; try reflexivity.
  destruct (Binary64.products (item :: rest)); [| reflexivity].
  destruct (detail_items (item :: rest)); reflexivity.
Qed.




(** The two tables of weights have the same keys. *)
Lemma weights_same_keys key :
  is_Some (Binary64.weights !! key) ↔ is_Some (weights !! key).
Proof.
  unfold Binary64.weights, weights.
  rewrite !lookup_insert_is_Some, !lookup_singleton_is_Some. tauto.
Qed.

(** A product raises in binary64 what it raises in exact arithmetic. *)
Lemma weighted_score_same_outcome item :
  match Binary64.weighted_score item, weighted_score item with
  | Ok _, Ok _ => True
  | Raise e1, Raise e2 => e1 = e2
  | _, _ => False
  end.
Proof.
  unfold Binary64.weighted_score, weighted_score, getitem.
  pose proof (weights_same_keys item.1) as Hkeys.
  destruct (Binary64.weights !! item.1) as [wb|], (weights !! item.1) as [w|]; simpl.
  - by destruct (item.2 !! "score") as [[s|l]|].
  - destruct (proj1 Hkeys) as [? [=]]. eauto.
  - destruct (proj2 Hkeys) as [? [=]]. eauto.
  - reflexivity.
Qed.

Lemma products_same_outcome items acc :
  match Binary64.products items, sum_from acc items with
  | Ok _, Ok _ => True
  | Raise e1, Raise e2 => e1 = e2
  | _, _ => False
  end.
Proof.
  revert acc. induction items as [|item rest IH]; intros acc; simpl; [done |].
  pose proof (weighted_score_same_outcome item) as Hitem.
  destruct (Binary64.weighted_score item) as [xb|eb], (weighted_score item) as [x|e];
    simpl; try done.
  specialize (IH (acc + x)%Q).
  by destruct (Binary64.products rest), (sum_from (acc + x) rest).
Qed.

(** The scorer in binary64 and the scorer in exact arithmetic differ in the
    value of the total, and in the rating when the total is next to a
    threshold, and in nothing else: they return an assessment for the same
    profiles, with the same detailed scores, and leave the same analyzer. *)
Lemma binary64_scorer_same_shape mode name s :
  (Binary64.calculate_risk_score mode name s).2 = (calculate_risk_score name s).2
  ∧ match (Binary64.calculate_risk_score mode name s).1, (calculate_risk_score name s).1 with
    | Ok (Some rb), Ok (Some r) => Binary64.detailed_scores rb = detailed_scores r
    | Ok None, Ok None => True
    | _, _ => False
    end.
Proof.
  rewrite binary64_risk_score_unfold, calculate_risk_score_unfold.
  destruct (risk_factors s !! name) as [[|item rest]|]; [done | | done].
  pose proof (products_same_outcome (item :: rest) 0%Q) as Hsum.
  destruct (Binary64.products (item :: rest)) as [terms|eb],
    (sum_from 0 (item :: rest)) as [total|e]; try done.
  - by destruct (detail_items (item :: rest)).
  - by rewrite Hsum.
Qed.



Section Binary64Facts.

Import PrimFloat.
Local Open Scope float_scope.





(** With item-by-item summation the insertion order of the categories
    shows in the total and in the rating: the entries of the profile above
    in the order Technical, Economic, Operational, Political total exactly
    15. *)
Lemma insertion_order_shows_in_the_total :
  ∃ r1 r2,
    (Binary64.calculate_risk_score Binary64.left_to_right "Japan"
       Fixture.rounding_analyzer).1 = Ok (Some r1)
    ∧ (Binary64.calculate_risk_score Binary64.left_to_right "Japan"
         Fixture.rounding_reordered_analyzer).1 = Ok (Some r2)
    ∧ Binary64.total_score r1 = 0x1.e000000000001p+3
    ∧ Binary64.total_score r2 = 15
    ∧ Binary64.risk_rating r1 = "Low Risk"
    ∧ Binary64.risk_rating r2 = "Very Low Risk".
Proof.
  eexists _, _. split; [vm_compute; reflexivity |]. split; [vm_compute; reflexivity |].
  repeat split; vm_compute; reflexivity.
Qed.

End Binary64Facts.

(** A comparison [x <= b] of the source, as a proposition. *)
Lemma Qle_bool_false x b : Qle_bool x b = false ↔ (b < x)%Q.
Proof.
  split.
  - intros H. apply Qnot_le_lt. intros Hle.
    apply Qle_bool_iff in Hle. congruence.
  - intros Hlt. destruct (Qle_bool x b) eqn:E; [| done].
    apply Qle_bool_iff in E. by apply Qlt_not_le in Hlt.
Qed.

Ltac bucket_cases :=
  repeat match goal with
    | |- context [Qle_bool ?x ?b] =>
        let E := fresh "E" in
        destruct (Qle_bool x b) eqn:E;
        [apply Qle_bool_iff in E | apply Qle_bool_false in E]
    end.

Ltac bucket_absurd :=
  match goal with
  | H1 : (?a < ?x)%Q, H2 : (?x <= ?b)%Q |- _ =>
      exfalso; apply (Qlt_not_le _ _ (Qlt_le_trans _ _ _ H1 H2)); by vm_compute
  | H1 : (?b < ?x)%Q, H2 : (?x <= ?b)%Q |- _ =>
      exfalso; exact (Qlt_not_le _ _ H1 H2)
  | H1 : (?a <= ?x)%Q, H2 : (?x < ?b)%Q |- _ =>
      exfalso; apply (Qlt_not_le _ _ (Qle_lt_trans _ _ _ H1 H2)); by vm_compute
  | H1 : (?x < ?b)%Q, H2 : (?b <= ?x)%Q |- _ =>
      exfalso; exact (Qlt_not_le _ _ H1 H2)
  end.

Lemma risk_rating_of_buckets t :
  ((t <= 15)%Q → risk_rating_of t = "Very Low Risk")
  ∧ ((15 < t)%Q → (t <= 25)%Q → risk_rating_of t = "Low Risk")
  ∧ ((25 < t)%Q → (t <= 35)%Q → risk_rating_of t = "Moderate Risk")
  ∧ ((35 < t)%Q → (t <= 45)%Q → risk_rating_of t = "High Risk")
  ∧ ((45 < t)%Q → risk_rating_of t = "Very High Risk").
Proof.
  unfold risk_rating_of.
  repeat split; intros; bucket_cases; try reflexivity; bucket_absurd.
Qed.

(** An assessment that is returned carries the rating of its own total. *)
Lemma risk_rating_of_total self name r :
  (calculate_risk_score name self).1 = Ok (Some r) →
  risk_rating r = risk_rating_of (total_score r).
Proof.
  rewrite calculate_risk_score_unfold.
  destruct (risk_factors self !! name) as [[|item rest]|]; try discriminate.
  destruct (sum_from 0 (item :: rest)); try discriminate.
  destruct (detail_items (item :: rest)); try discriminate.
  simpl. by intros [= <-].
Qed.

(** C2. The risk rating is chosen by ascending inclusive upper bounds, first
    match first: for every total t, t <= 15 gives "Very Low Risk",
    15 < t <= 25 "Low Risk", 25 < t <= 35 "Moderate Risk", 35 < t <= 45
    "High Risk" and t > 45 "Very High Risk", so exactly 15 is "Very Low Risk"
    and exactly 45 is "High Risk"; and every assessment that
    [calculate_risk_score] returns carries the rating of its own total. *)
Theorem risk_rating_by_upper_bounds :
  (∀ t,
     ((t <= 15)%Q → risk_rating_of t = "Very Low Risk")
     ∧ ((15 < t)%Q → (t <= 25)%Q → risk_rating_of t = "Low Risk")
     ∧ ((25 < t)%Q → (t <= 35)%Q → risk_rating_of t = "Moderate Risk")
     ∧ ((35 < t)%Q → (t <= 45)%Q → risk_rating_of t = "High Risk")
     ∧ ((45 < t)%Q → risk_rating_of t = "Very High Risk"))
  ∧ risk_rating_of 15 = "Very Low Risk"
  ∧ risk_rating_of 45 = "High Risk"
  ∧ (∀ self name r,
       (calculate_risk_score name self).1 = Ok (Some r) →
       risk_rating r = risk_rating_of (total_score r)).
Proof.
  split; [exact risk_rating_of_buckets |].
  split; [reflexivity |]. split; [reflexivity |].
  exact risk_rating_of_total.
Qed.

(** Japan's total of 19 lies in the second bucket. *)
Lemma risk_rating_by_upper_bounds_witness :
  ∃ r, (calculate_risk_score "Japan" Seed.analyzer).1 = Ok (Some r)
       ∧ (15 < total_score r)%Q ∧ (total_score r <= 25)%Q
       ∧ risk_rating r = "Low Risk".
Proof.
  destruct seed_japan_assessment as (r & Hr & Ht & _).
  assert (Hlo : (15 < total_score r)%Q) by (rewrite Ht; by vm_compute).
  assert (Hhi : (total_score r <= 25)%Q) by (rewrite Ht; by vm_compute).
  exists r. repeat split; try assumption.
  destruct risk_rating_by_upper_bounds as (Hbuckets & _ & _ & Hreturned).
  rewrite (Hreturned Seed.analyzer "Japan" r Hr).
  by apply (Hbuckets (total_score r)).
Defined.

(** ** Growth rate and trend *)





(** ** Forecasting *)

Section ForecastFacts.

Variable fit : list Q -> Z -> result (list float64).

(** What one successful turn of the loop has read and computed. *)
Lemma forecast_metric_ok series n metric f :
  forecast_metric fit series n metric = Ok f →
  ∃ hs points,
    series !! metric = Some hs
    ∧ fit hs n = Ok points
    ∧ last hs = Some (current_value f)
    ∧ last points = Some (forecasted_value f)
    ∧ growth_rate f = growth_rate_of (forecasted_value f) (current_value f)
    ∧ trend f = trend_of (growth_rate f).
Proof.
  unfold forecast_metric, getitem, last_item.
  destruct (series !! metric) as [hs|]; [simpl | discriminate].
  destruct (fit hs n) as [points|] eqn:Hfit; [simpl | discriminate].
  destruct (last hs) as [x|] eqn:Hx; [simpl | discriminate].
  destruct (last points) as [y|] eqn:Hy; [simpl | discriminate].
  intros [= <-]. by exists hs, points.
Qed.

(** The loop stores under each metric what that metric's turn computed, and
    keeps the entries it started from under every other key. *)
Lemma forecast_loop_lookup series n metrics acc fs key f :
  forecast_loop fit series n metrics acc = Ok fs →
  fs !! key = Some f →
  (key ∈ metrics ∧ forecast_metric fit series n key = Ok f) ∨ acc !! key = Some f.
Proof.
  revert acc. induction metrics as [|m rest IH]; intros acc; simpl.
  - intros [= ->]. by right.
  - destruct (forecast_metric fit series n m) as [f0|] eqn:Hm; [simpl | discriminate].
    intros Hloop Hkey. destruct (IH _ Hloop Hkey) as [[Hin Hf]|Hacc].
    + left. split; [by apply list_elem_of_further | done].
    + destruct (decide (m = key)) as [->|Hne].
      * rewrite lookup_insert_eq in Hacc. injection Hacc as ->.
        left. split; [apply list_elem_of_here | done].
      * rewrite lookup_insert_ne in Hacc by done. by right.
Qed.

(** The loop succeeds exactly when every turn does. *)
Lemma forecast_loop_ok series n metrics acc :
  (∃ fs, forecast_loop fit series n metrics acc = Ok fs)
  ↔ ∀ m, m ∈ metrics → ∃ f, forecast_metric fit series n m = Ok f.
Proof.
  revert acc. induction metrics as [|m rest IH]; intros acc; simpl.
  - split; [intros _ m' Hin; by apply elem_of_nil in Hin | eauto].
  - split.
    + intros [fs Hloop] m' Hin.
      destruct (forecast_metric fit series n m) as [f0|] eqn:Hm; [simpl in Hloop | discriminate].
      apply elem_of_cons in Hin as [->|Hin]; [eauto |].
      eapply IH; eauto.
    + intros Hall. destruct (Hall m) as [f0 Hm]; [apply list_elem_of_here |].
      rewrite Hm. simpl. apply IH. intros m' Hin. apply Hall. by apply list_elem_of_further.
Qed.

(** A key the loop starts with is still bound at the end. *)
Lemma forecast_loop_keeps series n metrics acc fs key :
  forecast_loop fit series n metrics acc = Ok fs →
  is_Some (acc !! key) → is_Some (fs !! key).
Proof.
  revert acc. induction metrics as [|m rest IH]; intros acc; simpl.
  - by intros [= ->].
  - destruct (forecast_metric fit series n m) as [f0|]; [simpl | discriminate].
    intros Hloop Hkey. apply (IH _ Hloop).
    destruct (decide (m = key)) as [->|Hne].
    + rewrite lookup_insert_eq. eauto.
    + by rewrite lookup_insert_ne.
Qed.

(** Started from the empty dict, the loop binds each of its metrics to what
    that metric's turn computed. *)
Lemma forecast_loop_complete series n metrics fs m :
  forecast_loop fit series n metrics ∅ = Ok fs →
  m ∈ metrics →
  ∃ f, forecast_metric fit series n m = Ok f ∧ fs !! m = Some f.
Proof.
  intros Hloop Hin.
  assert (Hsome : is_Some (fs !! m)).
  { revert Hloop Hin. generalize (∅ : gmap string Forecast).
    induction metrics as [|m0 rest IH]; intros acc; simpl.
    - intros _ Hin. by apply elem_of_nil in Hin.
    - destruct (forecast_metric fit series n m0) as [f0|]; [simpl | discriminate].
      intros Hloop Hin. apply elem_of_cons in Hin as [->|Hin]; [| by eapply IH].
      apply (forecast_loop_keeps _ _ _ _ _ _ Hloop). rewrite lookup_insert_eq. eauto. }
  destruct Hsome as [f Hf]. exists f. split; [| done].
  destruct (forecast_loop_lookup _ _ _ _ _ _ _ Hloop Hf) as [[_ ?]|Hempty]; [done |].
  by rewrite lookup_empty in Hempty.
Qed.

End ForecastFacts.

(** Reading a returned dict of forecasts back to the loop that built it. *)
Lemma forecast_metrics_some fit name n self fs :
  (forecast_metrics fit name n self).1 = Ok (Some fs) →
  ∃ series, historical_data self !! name = Some series
            ∧ forecast_loop fit series n metrics_to_forecast ∅ = Ok fs.
Proof.
  rewrite forecast_metrics_unfold.
  destruct (historical_data self !! name) as [series|]; [| discriminate].
  destruct (forecast_loop fit series n metrics_to_forecast ∅) as [fs'|] eqn:Hloop;
    [| discriminate].
  intros [= ->]. eauto.
Qed.


(** The dict of forecasts is returned exactly when every metric's turn
    succeeds; one turn that raises makes the method return [None]. *)
Lemma forecast_metrics_complete fit name n self series :
  historical_data self !! name = Some series →
  (∀ m, m ∈ metrics_to_forecast → ∃ f, forecast_metric fit series n m = Ok f) →
  ∃ fs, forecast_metrics fit name n self = (Ok (Some fs), self)
        ∧ ∀ m, m ∈ metrics_to_forecast →
            ∃ f, forecast_metric fit series n m = Ok f ∧ fs !! m = Some f.
Proof.
  intros Hseries Hall. rewrite forecast_metrics_unfold, Hseries.
  destruct (proj2 (forecast_loop_ok fit series n metrics_to_forecast ∅) Hall) as [fs Hloop].
  rewrite Hloop. exists fs. split; [done |].
  intros m Hin. by eapply forecast_loop_complete.
Qed.

Lemma forecast_metrics_aborts fit name n self series m e :
  historical_data self !! name = Some series →
  m ∈ metrics_to_forecast →
  forecast_metric fit series n m = Raise e →
  ∃ m' e', m' ∈ metrics_to_forecast
           ∧ forecast_metric fit series n m' = Raise e'
           ∧ forecast_metrics fit name n self
             = (Ok None, with_error self (ErrorForecasting name e')).
Proof.
  intros Hseries Hin Hm. rewrite forecast_metrics_unfold, Hseries.
  destruct (forecast_loop fit series n metrics_to_forecast ∅) as [fs|e'] eqn:Hloop.
  - destruct (proj1 (forecast_loop_ok fit series n metrics_to_forecast ∅)
                (ex_intro _ fs Hloop) m Hin) as [f Hf].
    congruence.
  - revert Hloop. generalize (∅ : gmap string Forecast). clear Hin Hm.
    induction metrics_to_forecast as [|m0 rest IH]; intros acc; simpl; [discriminate |].
    destruct (forecast_metric fit series n m0) as [f0|e0] eqn:Hm0; simpl.
    + intros Hloop. destruct (IH _ Hloop) as (m' & e'' & Hin' & Hm' & Heq).
      exists m', e''. split; [by apply list_elem_of_further | done].
    + intros [= ->]. exists m0, e'. split; [apply list_elem_of_here | done].
Qed.




Lemma short_history_japan :
  historical_data Fixture.short_gdp_analyzer !! "Japan" = Some Fixture.short_gdp_history.
Proof. simpl. seed_lookup. Qed.

Lemma short_history_gdp : Fixture.short_gdp_history !! "GDP" = Some [4.23%Q].
Proof. unfold Fixture.short_gdp_history. seed_lookup. Qed.


(** A turn of the loop on an empty series raises, whatever the fit does:
    [data.iloc[-1]] has nothing to return. *)
Lemma forecast_metric_empty fit series n m :
  series !! m = Some [] → ∃ e, forecast_metric fit series n m = Raise e.
Proof.
  intros Hm. unfold forecast_metric, getitem. rewrite Hm. simpl.
  destruct (fit [] n); simpl; eauto.
Qed.

(** The loop stops at the first turn that raises, with the exception of that
    turn. *)
Lemma forecast_loop_first_failure fit series n good m rest e acc :
  (∀ g, g ∈ good → ∃ f, forecast_metric fit series n g = Ok f) →
  forecast_metric fit series n m = Raise e →
  forecast_loop fit series n (good ++ m :: rest) acc = Raise e.
Proof.
  intros Hgood Hm. revert acc.
  induction good as [|g good IH]; intros acc; simpl.
  - by rewrite Hm.
  - destruct (Hgood g) as [f Hf]; [apply list_elem_of_here |].
    rewrite Hf. simpl. apply IH. intros g' Hin. apply Hgood. by apply list_elem_of_further.
Qed.

Lemma forecast_metrics_first_failure fit name n self series good m rest e :
  historical_data self !! name = Some series →
  metrics_to_forecast = good ++ m :: rest →
  (∀ g, g ∈ good → ∃ f, forecast_metric fit series n g = Ok f) →
  forecast_metric fit series n m = Raise e →
  forecast_metrics fit name n self
  = (Ok None, with_error self (ErrorForecasting name e)).
Proof.
  intros Hseries Hsplit Hgood Hm.
  rewrite forecast_metrics_unfold, Hseries, Hsplit.
  by rewrite (forecast_loop_first_failure fit series n good m rest e ∅ Hgood Hm).
Qed.

(** Among the metrics of a list of which one fails there is a first one
    that fails. *)
Lemma first_failing_metric fit series n metrics m e :
  m ∈ metrics →
  forecast_metric fit series n m = Raise e →
  ∃ good m' rest e',
    metrics = good ++ m' :: rest
    ∧ (∀ g, g ∈ good → ∃ f, forecast_metric fit series n g = Ok f)
    ∧ forecast_metric fit series n m' = Raise e'.
Proof.
  intros Hin Hm. induction metrics as [|m0 metrics IH].
  - by apply elem_of_nil in Hin.
  - destruct (forecast_metric fit series n m0) as [f0|e0] eqn:Hm0.
    + apply elem_of_cons in Hin as [->|Hin]; [congruence |].
      destruct (IH Hin) as (good & m' & rest & e' & -> & Hgood & Hm').
      exists (m0 :: good), m', rest, e'. split; [done |]. split; [| done].
      intros g Hg. apply elem_of_cons in Hg as [->|Hg]; eauto.
    + exists [], m0, metrics, e0. split; [done |]. split; [| done].
      intros g Hg. by apply elem_of_nil in Hg.
Qed.

(** C7 (as amended). The forecasts of a country are computed all or nothing:
    when each of the four metrics can be forecast, [forecast_metrics] returns
    all four results; when one metric fails (its series is missing or empty,
    or the smoothing fit raises), the method returns [None] for the country,
    whatever the other three metrics would have given, and the one line it
    logs is the failure of the first metric that fails, in the order GDP,
    Population, Consumer_Spending, Economic_Growth. *)
Theorem forecast_all_or_nothing fit self name n series :
  historical_data self !! name = Some series →
  ((∀ m, m ∈ metrics_to_forecast → ∃ f, forecast_metric fit series n m = Ok f) →
     ∃ fs, forecast_metrics fit name n self = (Ok (Some fs), self)
           ∧ ∀ m, m ∈ metrics_to_forecast →
               ∃ f, forecast_metric fit series n m = Ok f ∧ fs !! m = Some f)
  ∧ (∀ m hs e, m ∈ metrics_to_forecast → series !! m = Some hs → fit hs n = Raise e →
       forecast_metric fit series n m = Raise e)
  ∧ (∀ m, m ∈ metrics_to_forecast → series !! m = None →
       forecast_metric fit series n m = Raise (KeyError m))
  ∧ (∀ m, m ∈ metrics_to_forecast → series !! m = Some [] →
       ∃ e, forecast_metric fit series n m = Raise e)
  ∧ (∀ good m rest e,
       metrics_to_forecast = good ++ m :: rest →
       (∀ g, g ∈ good → ∃ f, forecast_metric fit series n g = Ok f) →
       forecast_metric fit series n m = Raise e →
       forecast_metrics fit name n self
       = (Ok None, with_error self (ErrorForecasting name e)))
  ∧ (∀ m e, m ∈ metrics_to_forecast → forecast_metric fit series n m = Raise e →
       (forecast_metrics fit name n self).1 = Ok None
       ∧ ∃ good m' rest e',
           metrics_to_forecast = good ++ m' :: rest
           ∧ (∀ g, g ∈ good → ∃ f, forecast_metric fit series n g = Ok f)
           ∧ forecast_metric fit series n m' = Raise e'
           ∧ logged (forecast_metrics fit name n self).2
             = logged self ++ [ErrorForecasting name e']).
Proof.
  intros Hseries. split; [| split; [| split; [| split; [| split]]]].
  - by apply forecast_metrics_complete.
  - intros m hs e _ Hhs Hfit. unfold forecast_metric, getitem. by rewrite Hhs; simpl; rewrite Hfit.
  - intros m _ Hm. unfold forecast_metric, getitem. by rewrite Hm.
  - intros m _. apply forecast_metric_empty.
  - intros good m rest e. by apply forecast_metrics_first_failure.
  - intros m e Hin Hm.
    destruct (first_failing_metric fit series n metrics_to_forecast m e Hin Hm)
      as (good & m' & rest & e' & Hsplit & Hgood & Hm').
    rewrite (forecast_metrics_first_failure fit name n self series good m' rest e'
               Hseries Hsplit Hgood Hm').
    split; [done |]. exists good, m', rest, e'.
    do 3 (split; [done |]). cbn [snd]. apply with_error_logged.
Qed.

Lemma two_failures_history_japan :
  historical_data Fixture.two_failures_analyzer !! "Japan"
  = Some Fixture.two_failures_history.
Proof. simpl. seed_lookup. Qed.

(** Japan without a Population series and with one observation of
    Consumer_Spending: GDP is forecast, Population is the first metric to
    fail, and what the log holds is its [KeyError], not the fit failure of
    Consumer_Spending. *)
Lemma forecast_all_or_nothing_witness :
  (∃ f, forecast_metric Run.smoothing Fixture.two_failures_history 5 "GDP" = Ok f)
  ∧ forecast_metric Run.smoothing Fixture.two_failures_history 5 "Population"
    = Raise (KeyError "Population")
  ∧ forecast_metric Run.smoothing Fixture.two_failures_history 5 "Consumer_Spending"
    = Raise FitError
  ∧ forecast_metrics Run.smoothing "Japan" 5 Fixture.two_failures_analyzer
    = (Ok None,
       with_error Fixture.two_failures_analyzer
         (ErrorForecasting "Japan" (KeyError "Population"))).
Proof.
  assert (Hgdp : ∃ f, forecast_metric Run.smoothing Fixture.two_failures_history 5 "GDP"
                      = Ok f) by (eexists; vm_compute; reflexivity).
  assert (Hpop : forecast_metric Run.smoothing Fixture.two_failures_history 5 "Population"
                 = Raise (KeyError "Population")) by (vm_compute; reflexivity).
  split; [exact Hgdp |]. split; [exact Hpop |]. split; [vm_compute; reflexivity |].
  apply (proj1 (proj2 (proj2 (proj2 (proj2
           (forecast_all_or_nothing Run.smoothing Fixture.two_failures_analyzer "Japan" 5
              Fixture.two_failures_history two_failures_history_japan)))))
           ["GDP"] "Population" ["Consumer_Spending"; "Economic_Growth"]
           (KeyError "Population") eq_refl).
  - intros g Hg. apply list_elem_of_singleton in Hg as ->. exact Hgdp.
  - exact Hpop.
Defined.

Lemma short_gdp_forecast_none :
  forecast_metrics Run.smoothing "Japan" 5 Fixture.short_gdp_analyzer
  = (Ok None, with_error Fixture.short_gdp_analyzer (ErrorForecasting "Japan" FitError)).
Proof.
  rewrite forecast_metrics_unfold, short_history_japan.
  assert (forecast_loop Run.smoothing Fixture.short_gdp_history 5 metrics_to_forecast ∅
          = Raise FitError) as -> by (vm_compute; reflexivity).
  reflexivity.
Qed.

(** The claim of C7 as the spec states it fails: on Japan with a single
    observation of GDP the fit of GDP raises, the other three metrics can be
    forecast, and still [forecast_metrics] returns [None]. *)
Lemma one_failure_aborts_siblings :
  Run.smoothing [4.23%Q] 5 = Raise FitError
  ∧ (∃ f, forecast_metric Run.smoothing Fixture.short_gdp_history 5 "Population" = Ok f)
  ∧ (∃ f, forecast_metric Run.smoothing Fixture.short_gdp_history 5 "Consumer_Spending" = Ok f)
  ∧ (∃ f, forecast_metric Run.smoothing Fixture.short_gdp_history 5 "Economic_Growth" = Ok f)
  ∧ forecast_metrics Run.smoothing "Japan" 5 Fixture.short_gdp_analyzer
    = (Ok None, with_error Fixture.short_gdp_analyzer (ErrorForecasting "Japan" FitError)).
Proof.
  split; [reflexivity |].
  do 3 (split; [eexists; vm_compute; reflexivity |]).
  exact short_gdp_forecast_none.
Qed.

(** A series with fewer than two points is empty or a singleton. *)
Lemma short_series_cases {A : Type} (hs : list A) :
  length hs < 2 → hs = [] ∨ ∃ x, hs = [x].
Proof.
  destruct hs as [|x [|y rest]]; simpl; intros Hlen; [by left | right; by exists x | lia].
Qed.

(** Whatever the smoothing function: when the series of one of the four
    metrics has fewer than 2 points and the fit raises on it if it has one
    point (on an empty series the analyzer's own [iloc[-1]] raises anyway),
    [forecast_metrics] returns [None] and logs the error. *)
Lemma short_series_fails_when_fit_raises fit self name n series m hs :
  historical_data self !! name = Some series →
  m ∈ metrics_to_forecast →
  series !! m = Some hs →
  length hs < 2 →
  (∀ x, hs = [x] → ∃ e, fit hs n = Raise e) →
  ∃ e, forecast_metrics fit name n self
       = (Ok None, with_error self (ErrorForecasting name e)).
Proof.
  intros Hseries Hin Hhs Hlen Hfit.
  assert (Hraise : ∃ e, forecast_metric fit series n m = Raise e).
  { destruct (short_series_cases hs Hlen) as [->|[x ->]].
    - by apply forecast_metric_empty.
    - destruct (Hfit x eq_refl) as [e He]. exists e.
      unfold forecast_metric, getitem. by rewrite Hhs; simpl; rewrite He. }
  destruct Hraise as [e He].
  destruct (forecast_metrics_aborts fit name n self series m e Hseries Hin He)
    as (_ & e' & _ & _ & Habort).
  by exists e'.
Qed.

(** The smoothing of the spec fails on fewer than two observations. *)
Lemma holt_forecast_short estimate hs n :
  length hs < 2 → holt_forecast estimate hs n = Raise FitError.
Proof.
  intros Hlen. by destruct (short_series_cases hs Hlen) as [->|[x ->]].
Qed.

(** C8. When the historical series of one of the four metrics has fewer than
    2 points (one point in particular), the forecaster signals a failure and
    returns no forecast, flat or otherwise: the fit of that metric raises
    its fit failure, and [forecast_metrics] catches it, logs it and returns
    [None]. *)
Theorem short_series_is_a_failure estimate self name n series m hs :
  historical_data self !! name = Some series →
  m ∈ metrics_to_forecast →
  series !! m = Some hs →
  length hs < 2 →
  forecast_metric (holt_forecast estimate) series n m = Raise FitError
  ∧ (forecast_metrics (holt_forecast estimate) name n self).1 = Ok None
  ∧ ∃ e, forecast_metrics (holt_forecast estimate) name n self
         = (Ok None, with_error self (ErrorForecasting name e)).
Proof.
  intros Hseries Hin Hhs Hlen.
  assert (Hfit : holt_forecast estimate hs n = Raise FitError)
    by (by apply holt_forecast_short).
  assert (Hnone : ∃ e, forecast_metrics (holt_forecast estimate) name n self
                       = (Ok None, with_error self (ErrorForecasting name e))).
  { eapply short_series_fails_when_fit_raises; eauto. }
  split; [| split; [| exact Hnone]].
  - unfold forecast_metric, getitem. by rewrite Hhs; simpl; rewrite Hfit.
  - destruct Hnone as [e ->]. reflexivity.
Qed.

(** Japan with one observation of GDP: the history [4.23] alone is a fit
    failure and the whole forecast is [None]. *)
Lemma short_series_is_a_failure_witness :
  historical_data Fixture.short_gdp_analyzer !! "Japan" = Some Fixture.short_gdp_history
  ∧ Fixture.short_gdp_history !! "GDP" = Some [4.23%Q]
  ∧ length [4.23%Q] < 2
  ∧ forecast_metric Run.smoothing Fixture.short_gdp_history 5 "GDP" = Raise FitError
  ∧ (forecast_metrics Run.smoothing "Japan" 5 Fixture.short_gdp_analyzer).1 = Ok None
  ∧ ∃ e, forecast_metrics Run.smoothing "Japan" 5 Fixture.short_gdp_analyzer
         = (Ok None, with_error Fixture.short_gdp_analyzer (ErrorForecasting "Japan" e)).
Proof.
  assert (Hlen : length [4.23%Q] < 2) by (simpl; lia).
  split; [exact short_history_japan |]. split; [exact short_history_gdp |].
  split; [exact Hlen |].
  exact (short_series_is_a_failure (fun _ => (1 # 2, 1 # 2)) Fixture.short_gdp_analyzer
           "Japan" 5 Fixture.short_gdp_history "GDP" [4.23%Q]
           short_history_japan (list_elem_of_here _ _) short_history_gdp Hlen).
Defined.

(** The outcome of [forecast_metrics] is a function of the historical table,
    the country and the horizon alone. *)
Lemma forecast_metrics_reads_history fit name n s1 s2 :
  historical_data s1 = historical_data s2 →
  (forecast_metrics fit name n s1).1 = (forecast_metrics fit name n s2).1.
Proof.
  intros Hsame. rewrite !forecast_metrics_unfold, Hsame.
  destruct (historical_data s2 !! name) as [series|]; [| reflexivity].
  by destruct (forecast_loop fit series n metrics_to_forecast ∅).
Qed.




(** The forecast of a metric carries the last point of the library's
    answer: where two answers end differently, so do the two forecasts.
    The repeatability of the forecaster is that of the library and no
    more. *)
Lemma forecast_follows_the_library fit1 fit2 series n m hs points1 points2 y1 y2 f1 f2 :
  series !! m = Some hs →
  fit1 hs n = Ok points1 → fit2 hs n = Ok points2 →
  last points1 = Some y1 → last points2 = Some y2 →
  forecast_metric fit1 series n m = Ok f1 →
  forecast_metric fit2 series n m = Ok f2 →
  forecasted_value f1 = y1 ∧ forecasted_value f2 = y2 ∧ (y1 ≠ y2 → f1 ≠ f2).
Proof.
  intros Hhs Hfit1 Hfit2 Hy1 Hy2 Hf1 Hf2.
  destruct (forecast_metric_ok _ _ _ _ _ Hf1) as (hs1 & p1 & Hhs1 & Hp1 & _ & Hl1 & _).
  destruct (forecast_metric_ok _ _ _ _ _ Hf2) as (hs2 & p2 & Hhs2 & Hp2 & _ & Hl2 & _).
  assert (hs1 = hs) as -> by congruence. assert (hs2 = hs) as -> by congruence.
  assert (p1 = points1) as -> by congruence. assert (p2 = points2) as -> by congruence.
  assert (H1 : forecasted_value f1 = y1) by congruence.
  assert (H2 : forecasted_value f2 = y2) by congruence.
  split; [done |]. split; [done |]. intros Hne Heq. apply Hne. by rewrite <- H1, <- H2, Heq.
Qed.




(** ** The country analysis *)

(** [analyze_country] case by case. *)
Lemma analyze_country_unfold fit fmt name s :
  analyze_country fit fmt name s =
    match current_data s !! name with
    | None => (Ok None, with_error s (NoDataFound name))
    | Some d =>
        if is_empty_dict d then (Ok None, with_error s (NoDataFound name))
        else
          match as_number (default (PNum 0) (d !! "Market_Score")) with
          | Raise e => (Ok None, with_error s (ErrorAnalyzing name e))
          | Ok score =>
              match current_metrics_of fmt d with
              | Raise e => (Ok None, with_error s (ErrorAnalyzing name e))
              | Ok metrics =>
                  match forecast_metrics fit name 5 s with
                  | (Raise e, s1) => (Ok None, with_error s1 (ErrorAnalyzing name e))
                  | (Ok fs, s1) =>
                      match calculate_risk_score name s1 with
                      | (Raise e, s2) => (Ok None, with_error s2 (ErrorAnalyzing name e))
                      | (Ok risk, s2) =>
                          match getitem d "Strengths", getitem d "Weaknesses" with
                          | Ok strong, Ok weak =>
                              (Ok (Some {| country := name;
                                           market_score := score;
                                           status := status_of score;
                                           current_metrics := metrics;
                                           strengths := strong;
                                           weaknesses := weak;
                                           forecasts := fs;
                                           risk_analysis := risk |}), s2)
                          | Raise e, _ | Ok _, Raise e =>
                              (Ok None, with_error s2 (ErrorAnalyzing name e))
                          end
                      end
                  end
              end
          end
    end.
Proof.
  unfold analyze_country, try_except, analyze_body, no_data, bind, read, lift, ret.
  destruct (current_data s !! name) as [d|]; [| reflexivity].
  destruct (is_empty_dict d); [reflexivity |].
  destruct (as_number (default (PNum 0) (d !! "Market_Score"))); [| reflexivity].
  destruct (current_metrics_of fmt d); [| reflexivity].
  destruct (forecast_metrics fit name 5 s) as [[fs|e] s1]; [| reflexivity].
  destruct (calculate_risk_score name s1) as [[risk|e] s2]; [| reflexivity].
  destruct (getitem d "Strengths"); [| reflexivity].
  destruct (getitem d "Weaknesses"); reflexivity.
Qed.

(** The outcome of [calculate_risk_score] is a function of the risk table
    and the country alone. *)
Lemma calculate_risk_score_reads_risks name s1 s2 :
  risk_factors s1 = risk_factors s2 →
  (calculate_risk_score name s1).1 = (calculate_risk_score name s2).1.
Proof.
  intros Hsame. rewrite !calculate_risk_score_unfold, Hsame.
  destruct (risk_factors s2 !! name) as [[|item rest]|]; try reflexivity.
  destruct (sum_from 0 (item :: rest)); [| reflexivity].
  by destruct (detail_items (item :: rest)).
Qed.

(** An analysis that is returned carries the status of its own market
    score. *)
Lemma status_of_market_score fit fmt name s a :
  (analyze_country fit fmt name s).1 = Ok (Some a) →
  status a = status_of (market_score a).
Proof.
  rewrite analyze_country_unfold.
  destruct (current_data s !! name) as [d|]; [| discriminate].
  destruct (is_empty_dict d); [discriminate |].
  destruct (as_number (default (PNum 0) (d !! "Market_Score"))); [| discriminate].
  destruct (current_metrics_of fmt d); [| discriminate].
  destruct (forecast_metrics fit name 5 s) as [[fs|e] s1]; [| discriminate].
  destruct (calculate_risk_score name s1) as [[risk|e] s2]; [| discriminate].
  destruct (getitem d "Strengths"); [| discriminate].
  destruct (getitem d "Weaknesses"); [| discriminate].
  simpl. by intros [= <-].
Qed.

(** What a well-formed snapshot holds, field by field. *)
Lemma well_formed_snapshot_fields d :
  well_formed_snapshot d = true →
  (∃ x, d !! "Population" = Some (PNum x))
  ∧ (∃ x, d !! "GDP" = Some (PNum x))
  ∧ (∃ x, d !! "Consumer_Spending" = Some (PNum x))
  ∧ (∃ x, d !! "Economic_Growth" = Some (PNum x))
  ∧ is_Some (d !! "Strengths")
  ∧ is_Some (d !! "Weaknesses")
  ∧ (d !! "Market_Score" = None ∨ ∃ x, d !! "Market_Score" = Some (PNum x)).
Proof.
  unfold well_formed_snapshot, holds_number, has_field. simpl.
  destruct (d !! "Population") as [[p|]|]; try discriminate.
  destruct (d !! "GDP") as [[g|]|]; try discriminate.
  destruct (d !! "Consumer_Spending") as [[c|]|]; try discriminate.
  destruct (d !! "Economic_Growth") as [[e|]|]; try discriminate.
  destruct (d !! "Strengths") as [strong|]; try discriminate.
  destruct (d !! "Weaknesses") as [weak|]; try discriminate.
  destruct (d !! "Market_Score") as [[m|]|]; try discriminate; intros _;
    repeat split; first [by eexists | by left | right; by eexists].
Qed.

Lemma well_formed_not_empty d : well_formed_snapshot d = true → is_empty_dict d = false.
Proof.
  intros ([x Hx] & _)%well_formed_snapshot_fields. unfold is_empty_dict.
  destruct (size d) eqn:Hsize; [| reflexivity].
  apply map_size_empty_iff in Hsize. subst d. by rewrite lookup_empty in Hx.
Qed.

Lemma well_formed_metrics fmt d :
  well_formed_snapshot d = true → ∃ metrics, current_metrics_of fmt d = Ok metrics.
Proof.
  intros ([p Hp] & [g Hg] & [c Hc] & [e He] & _)%well_formed_snapshot_fields.
  unfold current_metrics_of, formatted, getitem.
  rewrite Hp, Hg, Hc, He. simpl. eauto.
Qed.

Lemma well_formed_score d :
  well_formed_snapshot d = true →
  ∃ score, as_number (default (PNum 0) (d !! "Market_Score")) = Ok score.
Proof.
  intros (_ & _ & _ & _ & _ & _ & [-> | [x ->]])%well_formed_snapshot_fields; simpl; eauto.
Qed.

(** The analysis of a country with a well-formed snapshot: the record is
    returned, with whatever the forecaster and the risk scorer returned, a
    value or [None], in its last two fields. *)
Lemma analyze_country_snapshot fit fmt name s d :
  current_data s !! name = Some d →
  well_formed_snapshot d = true →
  ∃ a s',
    analyze_country fit fmt name s = (Ok (Some a), s')
    ∧ same_data s s'
    ∧ s' = (calculate_risk_score name (forecast_metrics fit name 5 s).2).2
    ∧ country a = name
    ∧ as_number (default (PNum 0) (d !! "Market_Score")) = Ok (market_score a)
    ∧ status a = status_of (market_score a)
    ∧ current_metrics_of fmt d = Ok (current_metrics a)
    ∧ d !! "Strengths" = Some (strengths a)
    ∧ d !! "Weaknesses" = Some (weaknesses a)
    ∧ (forecast_metrics fit name 5 s).1 = Ok (forecasts a)
    ∧ (calculate_risk_score name s).1 = Ok (risk_analysis a).
Proof.
  intros Hd Hwf.
  destruct (well_formed_score d Hwf) as [score Hscore].
  destruct (well_formed_metrics fmt d Hwf) as [metrics Hmetrics].
  pose proof (well_formed_not_empty d Hwf) as Hne.
  apply well_formed_snapshot_fields in Hwf
    as (_ & _ & _ & _ & [strong Hstrong] & [weak Hweak] & _).
  destruct (forecast_metrics_returns fit name 5 s) as (fs & s1 & Hfs & Hs1).
  destruct (calculate_risk_score_returns name s1) as (risk & s2 & Hrisk & Hs2).
  rewrite analyze_country_unfold, Hd, Hne, Hscore, Hmetrics, Hfs, Hrisk.
  unfold getitem. rewrite Hstrong, Hweak.
  eexists _, s2. split; [reflexivity |]. simpl.
  split; [by eapply same_data_trans |].
  split; [by rewrite Hrisk |].
  repeat split; try done.
  change (Ok risk) with (Ok risk, s2).1. rewrite <- Hrisk.
  apply calculate_risk_score_reads_risks. by destruct Hs1 as (_ & _ & ?).
Qed.

Lemma status_of_buckets m :
  ((88 <= m)%Q → status_of m = "Highly Suitable")
  ∧ ((82 <= m)%Q → (m < 88)%Q → status_of m = "Very Suitable")
  ∧ ((75 <= m)%Q → (m < 82)%Q → status_of m = "Suitable")
  ∧ ((m < 75)%Q → status_of m = "Moderately Suitable").
Proof.
  unfold status_of.
  repeat split; intros; bucket_cases; try reflexivity; bucket_absurd.
Qed.

Lemma seed_snapshot_canada : current_data Seed.analyzer !! "Canada" = Some Seed.canada_snapshot.
Proof. simpl. unfold Seed.prepare_market_data. seed_lookup. Qed.

Lemma seed_canada_well_formed : well_formed_snapshot Seed.canada_snapshot = true.
Proof. by vm_compute. Qed.

Lemma seed_canada_market_score : Seed.canada_snapshot !! "Market_Score" = Some (PNum 83).
Proof. unfold Seed.canada_snapshot. seed_lookup. Qed.

(** C4. The status is chosen by descending inclusive lower bounds, first
    match first: for every market score m, m >= 88 gives "Highly Suitable",
    82 <= m < 88 "Very Suitable", 75 <= m < 82 "Suitable" and m < 75
    "Moderately Suitable"; every analysis that [analyze_country] returns
    carries the status of its own market score; and Canada's market score 83
    of the dataset gives "Very Suitable". *)
Theorem status_by_lower_bounds :
  (∀ m,
     ((88 <= m)%Q → status_of m = "Highly Suitable")
     ∧ ((82 <= m)%Q → (m < 88)%Q → status_of m = "Very Suitable")
     ∧ ((75 <= m)%Q → (m < 82)%Q → status_of m = "Suitable")
     ∧ ((m < 75)%Q → status_of m = "Moderately Suitable"))
  ∧ (∀ fit fmt self name a,
       (analyze_country fit fmt name self).1 = Ok (Some a) →
       status a = status_of (market_score a))
  ∧ (∀ fit fmt,
       ∃ a, (analyze_country fit fmt "Canada" Seed.analyzer).1 = Ok (Some a)
            ∧ market_score a = 83%Q
            ∧ status a = "Very Suitable").
Proof.
  split; [exact status_of_buckets |].
  split; [intros fit fmt self name a; apply status_of_market_score |].
  intros fit fmt.
  destruct (analyze_country_snapshot fit fmt "Canada" Seed.analyzer _
              seed_snapshot_canada seed_canada_well_formed)
    as (a & s' & Ha & _ & _ & _ & Hscore & Hstatus & _).
  rewrite seed_canada_market_score in Hscore. injection Hscore as Hscore.
  exists a. split; [by rewrite Ha |]. split; [done |].
  by rewrite Hstatus, <- Hscore.
Qed.

(** France, market score 84 in the dataset, is in the second bucket. *)
Lemma status_by_lower_bounds_witness :
  ∃ a, (analyze_country Run.smoothing format_decimal "France" Seed.analyzer).1 = Ok (Some a)
       ∧ (82 <= market_score a)%Q ∧ (market_score a < 88)%Q
       ∧ status a = "Very Suitable".
Proof.
  assert (Hd : current_data Seed.analyzer !! "France" = Some Seed.france_snapshot).
  { simpl. unfold Seed.prepare_market_data. seed_lookup. }
  assert (Hwf : well_formed_snapshot Seed.france_snapshot = true) by (by vm_compute).
  destruct (analyze_country_snapshot Run.smoothing format_decimal "France" Seed.analyzer _ Hd Hwf)
    as (a & s' & Ha & _ & _ & _ & Hscore & _).
  assert (Hm : Seed.france_snapshot !! "Market_Score" = Some (PNum 84)).
  { unfold Seed.france_snapshot. seed_lookup. }
  rewrite Hm in Hscore. injection Hscore as Hscore.
  assert (Hreturned : (analyze_country Run.smoothing format_decimal "France"
                         Seed.analyzer).1 = Ok (Some a)) by (by rewrite Ha).
  assert (Hlo : (82 <= market_score a)%Q) by (rewrite <- Hscore; by vm_compute).
  assert (Hhi : (market_score a < 88)%Q) by (rewrite <- Hscore; by vm_compute).
  exists a. repeat split; try assumption.
  destruct status_by_lower_bounds as (Hbuckets & Hstatus & _).
  rewrite (Hstatus _ _ _ _ _ Hreturned).
  by apply (Hbuckets (market_score a)).
Defined.

(** Germany is in none of the three tables of the dataset. *)
Lemma seed_germany_absent :
  risk_factors Seed.analyzer !! "Germany" = None
  ∧ historical_data Seed.analyzer !! "Germany" = None
  ∧ current_data Seed.analyzer !! "Germany" = None.
Proof.
  simpl. unfold Seed.prepare_risk_data, Seed.prepare_historical_data, Seed.prepare_market_data.
  repeat split;
    rewrite !lookup_insert_ne by discriminate; by apply lookup_singleton_ne.
Qed.

(** C5. For a country that the dataset does not have, each of the three
    methods returns [None], the not-found signal, and no default or zeroed
    record: the risk scorer and the forecaster at once, the analyzer after
    logging that no data was found.  So it is for "Germany" on the dataset of
    the source. *)
Theorem unknown_country_is_not_found :
  (∀ fit fmt self name n,
     (risk_factors self !! name = None →
        calculate_risk_score name self = (Ok None, self))
     ∧ (historical_data self !! name = None →
          forecast_metrics fit name n self = (Ok None, self))
     ∧ (current_data self !! name = None →
          analyze_country fit fmt name self
          = (Ok None, with_error self (NoDataFound name))))
  ∧ (∀ fit fmt n,
       (calculate_risk_score "Germany" Seed.analyzer).1 = Ok None
       ∧ (forecast_metrics fit "Germany" n Seed.analyzer).1 = Ok None
       ∧ (analyze_country fit fmt "Germany" Seed.analyzer).1 = Ok None).
Proof.
  assert (Hgeneral : ∀ fit fmt self name n,
     (risk_factors self !! name = None →
        calculate_risk_score name self = (Ok None, self))
     ∧ (historical_data self !! name = None →
          forecast_metrics fit name n self = (Ok None, self))
     ∧ (current_data self !! name = None →
          analyze_country fit fmt name self
          = (Ok None, with_error self (NoDataFound name)))).
  { intros fit fmt self name n. repeat split; intros Hnone.
    - by rewrite calculate_risk_score_unfold, Hnone.
    - by rewrite forecast_metrics_unfold, Hnone.
    - by rewrite analyze_country_unfold, Hnone. }
  split; [exact Hgeneral |].
  intros fit fmt n.
  destruct seed_germany_absent as (Hrisk & Hhist & Hcur).
  destruct (Hgeneral fit fmt Seed.analyzer "Germany" n) as (H1 & H2 & H3).
  by rewrite (H1 Hrisk), (H2 Hhist), (H3 Hcur).
Qed.

Lemma short_snapshot_japan :
  current_data Fixture.short_gdp_analyzer !! "Japan" = Some Seed.japan_snapshot.
Proof. simpl. unfold Seed.prepare_market_data. seed_lookup. Qed.

Lemma seed_japan_well_formed : well_formed_snapshot Seed.japan_snapshot = true.
Proof. by vm_compute. Qed.

(** C10. When the snapshot of a country is found but has no [Market_Score]
    field, [analyze_country] signals no error: it takes 0 for the market
    score, so the record it returns has market score 0 and the status
    "Moderately Suitable"; the analyzer logs nothing of its own. *)
Theorem missing_market_score_counts_as_zero fit fmt self name d :
  current_data self !! name = Some d →
  d !! "Market_Score" = None →
  well_formed_snapshot d = true →
  ∃ a s',
    analyze_country fit fmt name self = (Ok (Some a), s')
    ∧ market_score a = 0%Q
    ∧ status a = "Moderately Suitable"
    ∧ s' = (calculate_risk_score name (forecast_metrics fit name 5 self).2).2.
Proof.
  intros Hd Hnone Hwf.
  destruct (analyze_country_snapshot fit fmt name self d Hd Hwf)
    as (a & s' & Ha & _ & Hs' & _ & Hscore & Hstatus & _).
  rewrite Hnone in Hscore. injection Hscore as Hscore.
  exists a, s'. repeat split; try assumption; [done |].
  by rewrite Hstatus, <- Hscore.
Qed.

(** Canada without its market score. *)
Lemma missing_market_score_counts_as_zero_witness :
  current_data Fixture.unscored_analyzer !! "Canada" = Some Fixture.unscored_snapshot
  ∧ Fixture.unscored_snapshot !! "Market_Score" = None
  ∧ well_formed_snapshot Fixture.unscored_snapshot = true
  ∧ ∃ a s',
      analyze_country Run.smoothing format_decimal "Canada" Fixture.unscored_analyzer = (Ok (Some a), s')
      ∧ market_score a = 0%Q
      ∧ status a = "Moderately Suitable"
      ∧ s' = (calculate_risk_score "Canada"
                (forecast_metrics Run.smoothing "Canada" 5 Fixture.unscored_analyzer).2).2.
Proof.
  assert (Hd : current_data Fixture.unscored_analyzer !! "Canada"
               = Some Fixture.unscored_snapshot) by (simpl; seed_lookup).
  assert (Hnone : Fixture.unscored_snapshot !! "Market_Score" = None)
    by (unfold Fixture.unscored_snapshot; seed_lookup).
  assert (Hwf : well_formed_snapshot Fixture.unscored_snapshot = true) by (by vm_compute).
  split; [exact Hd |]. split; [exact Hnone |]. split; [exact Hwf |].
  exact (missing_market_score_counts_as_zero Run.smoothing format_decimal
           Fixture.unscored_analyzer "Canada" Fixture.unscored_snapshot Hd Hnone Hwf).
Defined.

(** Outside the data model: a snapshot that is found but lacks one of the
    current metrics makes the analysis [None], through the [except] of
    [analyze_country]. *)
Lemma incomplete_snapshot_is_none fit fmt :
  well_formed_snapshot Fixture.no_gdp_snapshot = false
  ∧ analyze_country fit fmt "Canada" Fixture.no_gdp_analyzer
    = (Ok None, with_error Fixture.no_gdp_analyzer (ErrorAnalyzing "Canada" (KeyError "GDP"))).
Proof.
  split; [by vm_compute |].
  assert (Hd : current_data Fixture.no_gdp_analyzer !! "Canada" = Some Fixture.no_gdp_snapshot)
    by (simpl; seed_lookup).
  assert (Hne : is_empty_dict Fixture.no_gdp_snapshot = false) by (by vm_compute).
  assert (Hscore : Fixture.no_gdp_snapshot !! "Market_Score" = Some (PNum 83))
    by (unfold Fixture.no_gdp_snapshot, Seed.canada_snapshot; seed_lookup).
  assert (Hp : Fixture.no_gdp_snapshot !! "Population" = Some (PNum 38.5))
    by (unfold Fixture.no_gdp_snapshot, Seed.canada_snapshot; seed_lookup).
  assert (Hg : Fixture.no_gdp_snapshot !! "GDP" = None)
    by (unfold Fixture.no_gdp_snapshot; seed_lookup).
  rewrite analyze_country_unfold, Hd, Hne, Hscore. simpl.
  unfold current_metrics_of, formatted, getitem. by rewrite Hp, Hg.
Qed.

(** The formatted current metrics of Japan on the dataset of the source. *)
Lemma seed_japan_current_metrics :
  match current_metrics_of format_decimal Seed.japan_snapshot with
  | Ok metrics =>
      metrics !! "Population" = Some "125.2 Million"
      ∧ metrics !! "GDP" = Some "$4.23 Trillion USD"
      ∧ metrics !! "Consumer_Spending" = Some "$2.88 Trillion USD"
      ∧ metrics !! "Economic_Growth" = Some "1.0%"
  | Raise _ => False
  end.
Proof. vm_compute. by repeat split. Qed.

(** * Further properties of the analyzer *)

(** ** The status is monotone in the market score *)

Lemma status_of_monotone m1 m2 :
  (m1 <= m2)%Q → status_rank (status_of m1) ≤ status_rank (status_of m2).
Proof.
  intros Hle. unfold status_of.
  bucket_cases; first [vm_compute; lia | exfalso; lra].
Qed.

(** X3. A higher market score never gives a lower status: of two analyses
    that [analyze_country] returns, the one with the larger market score has
    a status at least as good. *)
Theorem higher_score_is_never_less_suitable fit fmt self1 name1 a1 self2 name2 a2 :
  (analyze_country fit fmt name1 self1).1 = Ok (Some a1) →
  (analyze_country fit fmt name2 self2).1 = Ok (Some a2) →
  (market_score a1 <= market_score a2)%Q →
  status_rank (status a1) ≤ status_rank (status a2).
Proof.
  intros H1 H2 Hle.
  rewrite (status_of_market_score _ _ _ _ _ H1), (status_of_market_score _ _ _ _ _ H2).
  by apply status_of_monotone.
Qed.

(** What [analyze_country] returns for a country of the dataset, whatever the
    smoothing and the formatter. *)
Lemma seed_analysis fit fmt name d m :
  current_data Seed.analyzer !! name = Some d →
  well_formed_snapshot d = true →
  d !! "Market_Score" = Some (PNum m) →
  ∃ a, (analyze_country fit fmt name Seed.analyzer).1 = Ok (Some a)
       ∧ market_score a = m
       ∧ status a = status_of m.
Proof.
  intros Hd Hwf Hm.
  destruct (analyze_country_snapshot fit fmt name Seed.analyzer d Hd Hwf)
    as (a & s' & Ha & _ & _ & _ & Hscore & Hstatus & _).
  rewrite Hm in Hscore. injection Hscore as Hscore.
  exists a. rewrite Ha, Hstatus, <- Hscore. by repeat split.
Qed.

Lemma seed_snapshot_japan : current_data Seed.analyzer !! "Japan" = Some Seed.japan_snapshot.
Proof. simpl. unfold Seed.prepare_market_data. seed_lookup. Qed.

Lemma seed_japan_market_score : Seed.japan_snapshot !! "Market_Score" = Some (PNum 88).
Proof. unfold Seed.japan_snapshot. seed_lookup. Qed.

(** Canada (83) against Japan (88) on the dataset of the source. *)
Lemma higher_score_is_never_less_suitable_witness :
  ∃ a1 a2,
    (analyze_country Run.smoothing format_decimal "Canada" Seed.analyzer).1 = Ok (Some a1)
    ∧ (analyze_country Run.smoothing format_decimal "Japan" Seed.analyzer).1 = Ok (Some a2)
    ∧ (market_score a1 <= market_score a2)%Q
    ∧ status_rank (status a1) ≤ status_rank (status a2).
Proof.
  destruct (seed_analysis Run.smoothing format_decimal "Canada" _ 83
              seed_snapshot_canada seed_canada_well_formed seed_canada_market_score)
    as (a1 & Ha1 & Hm1 & _).
  destruct (seed_analysis Run.smoothing format_decimal "Japan" _ 88
              seed_snapshot_japan seed_japan_well_formed seed_japan_market_score)
    as (a2 & Ha2 & Hm2 & _).
  assert (Hle : (market_score a1 <= market_score a2)%Q) by (rewrite Hm1, Hm2; lra).
  exists a1, a2. repeat split; try assumption.
  exact (higher_score_is_never_less_suitable _ _ _ _ _ _ _ _ Ha1 Ha2 Hle).
Defined.

(** ** Reading an assessment back *)

Lemma sum_from_ok_terms items acc v :
  sum_from acc items = Ok v →
  ∃ xs, Forall2 (λ item x, weighted_score item = Ok x) items xs.
Proof.
  revert acc. induction items as [|item rest IH]; intros acc; simpl.
  - intros _. exists []. constructor.
  - destruct (weighted_score item) as [x|] eqn:Hx; [simpl | discriminate].
    intros Hrest. destruct (IH _ Hrest) as [xs Hxs].
    exists (x :: xs). by constructor.
Qed.

Lemma risk_rating_of_Qeq t1 t2 :
  (t1 == t2)%Q → risk_rating_of t1 = risk_rating_of t2.
Proof.
  intros Heq. unfold risk_rating_of.
  bucket_cases; first [reflexivity | exfalso; lra].
Qed.

(** ** No exception leaves the analyzer, and no failure is silent *)

Lemma calculate_risk_score_effect name s :
  ∃ r s', calculate_risk_score name s = (Ok r, s')
          ∧ (s' = s ∨ (r = None ∧ ∃ e, s' = with_error s (ErrorRiskScore name e))).
Proof.
  rewrite calculate_risk_score_unfold.
  destruct (risk_factors s !! name) as [[|item rest]|]; eauto.
  destruct (sum_from 0 (item :: rest)); eauto 8.
  destruct (detail_items (item :: rest)); eauto 8.
Qed.

Lemma forecast_metrics_effect fit name n s :
  ∃ r s', forecast_metrics fit name n s = (Ok r, s')
          ∧ (s' = s ∨ (r = None ∧ ∃ e, s' = with_error s (ErrorForecasting name e))).
Proof.
  rewrite forecast_metrics_unfold.
  destruct (historical_data s !! name) as [series|]; eauto.
  destruct (forecast_loop fit series n metrics_to_forecast ∅); eauto 8.
Qed.

Lemma logs_nothing s : logs s s [].
Proof. split; [apply same_data_refl | by rewrite app_nil_r]. Qed.

Lemma logs_error s m : logs s (with_error s m) [m].
Proof. split; [apply with_error_same_data | reflexivity]. Qed.

Lemma logs_trans s1 s2 s3 l1 l2 : logs s1 s2 l1 → logs s2 s3 l2 → logs s1 s3 (l1 ++ l2).
Proof.
  intros [Hd1 Hl1] [Hd2 Hl2]. split; [by eapply same_data_trans |].
  by rewrite Hl2, Hl1, app_assoc.
Qed.

Lemma calculate_risk_score_logs name s :
  ∃ r s' extra, calculate_risk_score name s = (Ok r, s')
                ∧ logs s s' extra ∧ length extra ≤ 1 ∧ (is_Some r → extra = []).
Proof.
  destruct (calculate_risk_score_effect name s) as (r & s' & -> & [->|[-> [e ->]]]).
  - exists r, s, []. split; [done |]. split; [apply logs_nothing |]. simpl. split; [lia | done].
  - exists None, (with_error s (ErrorRiskScore name e)), [ErrorRiskScore name e].
    split; [done |]. split; [apply logs_error |]. simpl. split; [lia |].
    by intros [? ?].
Qed.

Lemma forecast_metrics_logs fit name n s :
  ∃ r s' extra, forecast_metrics fit name n s = (Ok r, s')
                ∧ logs s s' extra ∧ length extra ≤ 1 ∧ (is_Some r → extra = []).
Proof.
  destruct (forecast_metrics_effect fit name n s) as (r & s' & -> & [->|[-> [e ->]]]).
  - exists r, s, []. split; [done |]. split; [apply logs_nothing |]. simpl. split; [lia | done].
  - exists None, (with_error s (ErrorForecasting name e)), [ErrorForecasting name e].
    split; [done |]. split; [apply logs_error |]. simpl. split; [lia |].
    by intros [? ?].
Qed.

Lemma analyze_country_logs fit fmt name s :
  ∃ r s' extra, analyze_country fit fmt name s = (Ok r, s')
                ∧ logs s s' extra ∧ length extra ≤ 3 ∧ (r = None → extra ≠ []).
Proof.
  assert (Hfail : ∀ m, ∃ r s' extra,
            (Ok (@None CountryAnalysis), with_error s m) = (Ok r, s') ∧ logs s s' extra
            ∧ length extra ≤ 3 ∧ (r = None → extra ≠ [])).
  { intros m. exists None, (with_error s m), [m].
    split; [done |]. split; [apply logs_error |]. simpl. split; [lia | done]. }
  rewrite analyze_country_unfold.
  destruct (current_data s !! name) as [d|]; [| apply Hfail].
  destruct (is_empty_dict d); [apply Hfail |].
  destruct (as_number (default (PNum 0) (d !! "Market_Score"))); [| apply Hfail].
  destruct (current_metrics_of fmt d); [| apply Hfail].
  destruct (forecast_metrics_logs fit name 5 s) as (fs & s1 & l1 & -> & Hl1 & Hn1 & _).
  destruct (calculate_risk_score_logs name s1) as (risk & s2 & l2 & -> & Hl2 & Hn2 & _).
  pose proof (logs_trans _ _ _ _ _ Hl1 Hl2) as Hl.
  assert (Hfail2 : ∀ m, ∃ r s' extra,
            (Ok (@None CountryAnalysis), with_error s2 m) = (Ok r, s') ∧ logs s s' extra
            ∧ length extra ≤ 3 ∧ (r = None → extra ≠ [])).
  { intros m. exists None, (with_error s2 m), ((l1 ++ l2) ++ [m]).
    split; [done |]. split; [eapply logs_trans; [exact Hl | apply logs_error] |].
    rewrite !length_app. simpl. split; [lia |].
    intros _ Hnil. apply app_eq_nil in Hnil as [_ ?]. discriminate. }
  destruct (getitem d "Strengths"); [| apply Hfail2].
  destruct (getitem d "Weaknesses"); [| apply Hfail2].
  eexists _, s2, (l1 ++ l2). split; [reflexivity |]. split; [exact Hl |].
  rewrite length_app. split; [lia | discriminate].
Qed.

(** X5. None of the three methods lets an exception out, changes one of the
    three tables, or removes a log line.  A call of the risk scorer or of the
    forecaster logs at most one line and none when it returns a value; a call
    of [analyze_country] logs at most three lines, and whenever it returns
    [None] it has logged why. *)
Theorem methods_contain_their_exceptions fit fmt name n s :
  (∃ r s' extra, calculate_risk_score name s = (Ok r, s')
     ∧ same_data s s' ∧ logged s' = logged s ++ extra
     ∧ length extra ≤ 1 ∧ (is_Some r → extra = []))
  ∧ (∃ r s' extra, forecast_metrics fit name n s = (Ok r, s')
       ∧ same_data s s' ∧ logged s' = logged s ++ extra
       ∧ length extra ≤ 1 ∧ (is_Some r → extra = []))
  ∧ (∃ r s' extra, analyze_country fit fmt name s = (Ok r, s')
       ∧ same_data s s' ∧ logged s' = logged s ++ extra
       ∧ length extra ≤ 3 ∧ (r = None → extra ≠ [])).
Proof.
  split; [| split].
  - destruct (calculate_risk_score_logs name s) as (r & s' & extra & ? & [? ?] & ? & ?).
    by exists r, s', extra.
  - destruct (forecast_metrics_logs fit name n s) as (r & s' & extra & ? & [? ?] & ? & ?).
    by exists r, s', extra.
  - destruct (analyze_country_logs fit fmt name s) as (r & s' & extra & ? & [? ?] & ? & ?).
    by exists r, s', extra.
Qed.

(** ** What the trend label says about the direction of the forecast *)








(** * The batch report and the comparison chart *)

(** ** What an analysis is made of *)

Lemma analyze_country_some fit fmt name s a :
  (analyze_country fit fmt name s).1 = Ok (Some a) →
  ∃ d, current_data s !! name = Some d
       ∧ country a = name
       ∧ current_metrics_of fmt d = Ok (current_metrics a)
       ∧ d !! "Strengths" = Some (strengths a)
       ∧ d !! "Weaknesses" = Some (weaknesses a)
       ∧ (forecast_metrics fit name 5 s).1 = Ok (forecasts a)
       ∧ (calculate_risk_score name s).1 = Ok (risk_analysis a).
Proof.
  rewrite analyze_country_unfold.
  destruct (current_data s !! name) as [d|]; [| discriminate].
  destruct (is_empty_dict d); [discriminate |].
  destruct (as_number _) as [m|]; [| discriminate].
  destruct (current_metrics_of fmt d) as [metrics|] eqn:Hmetrics; [| discriminate].
  destruct (forecast_metrics_returns fit name 5 s) as (fs & s1 & Hfs & Hsame).
  rewrite Hfs.
  destruct (calculate_risk_score_returns name s1) as (risk & s2 & Hrisk & _).
  rewrite Hrisk. unfold getitem.
  destruct (d !! "Strengths") as [strong|] eqn:Hstrong; [| discriminate].
  destruct (d !! "Weaknesses") as [weak|] eqn:Hweak; [| discriminate].
  simpl. intros [= <-]. exists d. simpl.
  do 5 (split; [done |]).
  rewrite (calculate_risk_score_reads_risks name s s1), Hrisk; [done |].
  apply Hsame.
Qed.

Lemma analyze_country_reads_tables fit fmt name s1 s2 :
  same_data s1 s2 →
  (analyze_country fit fmt name s1).1 = (analyze_country fit fmt name s2).1.
Proof.
  intros (Hcur & Hhist & Hrisk).
  rewrite !analyze_country_unfold, Hcur.
  destruct (current_data s2 !! name) as [d|]; [| reflexivity].
  destruct (is_empty_dict d); [reflexivity |].
  destruct (as_number _) as [m|]; [| reflexivity].
  destruct (current_metrics_of fmt d) as [metrics|]; [| reflexivity].
  pose proof (forecast_metrics_reads_history fit name 5 s1 s2 Hhist) as Hfs.
  destruct (forecast_metrics_returns fit name 5 s1) as (fs1 & t1 & Hfs1 & Hsame1).
  destruct (forecast_metrics_returns fit name 5 s2) as (fs2 & t2 & Hfs2 & Hsame2).
  rewrite Hfs1, Hfs2 in Hfs |- *. simpl in Hfs. injection Hfs as <-.
  assert (Hrisks : risk_factors t1 = risk_factors t2).
  { destruct Hsame1 as (_ & _ & <-). destruct Hsame2 as (_ & _ & <-). exact Hrisk. }
  pose proof (calculate_risk_score_reads_risks name t1 t2 Hrisks) as Hr.
  destruct (calculate_risk_score_returns name t1) as (r1 & u1 & Hr1 & _).
  destruct (calculate_risk_score_returns name t2) as (r2 & u2 & Hr2 & _).
  rewrite Hr1, Hr2 in Hr |- *. simpl in Hr. injection Hr as <-.
  by destruct (getitem d "Strengths"), (getitem d "Weaknesses").
Qed.

Lemma current_metrics_of_keys fmt d metrics key :
  current_metrics_of fmt d = Ok metrics →
  is_Some (metrics !! key)
  ↔ key ∈ ["Population"; "GDP"; "Consumer_Spending"; "Economic_Growth"].
Proof.
  unfold current_metrics_of.
  destruct (formatted fmt d "Population" 1) as [p|]; [simpl | discriminate].
  destruct (formatted fmt d "GDP" 2) as [g|]; [simpl | discriminate].
  destruct (formatted fmt d "Consumer_Spending" 2) as [c|]; [simpl | discriminate].
  destruct (formatted fmt d "Economic_Growth" 1) as [e|]; [simpl | discriminate].
  intros [= <-].
  rewrite !lookup_insert_is_Some, lookup_singleton_is_Some, !elem_of_cons, elem_of_nil.
  split.
  - intros [<- | [_ [<- | [_ [<- | [_ <-]]]]]]; auto.
  - intros [-> | [-> | [-> | [-> | []]]]]; naive_solver.
Qed.

Lemma forecast_loop_keys fit series n metrics acc fs key :
  forecast_loop fit series n metrics acc = Ok fs →
  is_Some (fs !! key) ↔ key ∈ metrics ∨ is_Some (acc !! key).
Proof.
  revert acc. induction metrics as [|m rest IH]; intros acc; simpl.
  - intros [= <-]. rewrite elem_of_nil. tauto.
  - destruct (forecast_metric fit series n m) as [f|]; [simpl | discriminate].
    intros Hrest. rewrite (IH _ Hrest), lookup_insert_is_Some, elem_of_cons.
    destruct (decide (m = key)) as [-> | Hne]; [tauto |].
    split.
    + intros [Hin | [Heq | [_ Hacc]]]; [by left; right | congruence | by right].
    + intros [[Heq | Hin] | Hacc]; [congruence | by left | right; right; by split].
Qed.

Lemma forecast_metrics_keys fit name n self fs key :
  (forecast_metrics fit name n self).1 = Ok (Some fs) →
  is_Some (fs !! key) ↔ key ∈ metrics_to_forecast.
Proof.
  intros Hfs. destruct (forecast_metrics_some _ _ _ _ _ Hfs) as (series & _ & Hloop).
  rewrite (forecast_loop_keys _ _ _ _ _ _ key Hloop).
  pose proof (lookup_empty_is_Some (M := gmap string) (A := Forecast) key). tauto.
Qed.

Lemma calculate_risk_score_some name s r :
  (calculate_risk_score name s).1 = Ok (Some r) →
  ∃ profile, risk_factors s !! name = Some profile
             ∧ profile ≠ []
             ∧ sum_from 0 profile = Ok (total_score r)
             ∧ detail_items profile = Ok (detailed_scores r)
             ∧ risk_rating r = risk_rating_of (total_score r).
Proof.
  rewrite calculate_risk_score_unfold.
  destruct (risk_factors s !! name) as [[|item rest]|]; [discriminate | | discriminate].
  destruct (sum_from 0 (item :: rest)) as [total|] eqn:Hsum; [| discriminate].
  destruct (detail_items (item :: rest)) as [details|] eqn:Hdetails; [| discriminate].
  intros [= <-]. exists (item :: rest).
  split; [reflexivity |]. split; [discriminate |]. by split.
Qed.

Lemma detail_items_entries items ds :
  detail_items items = Ok ds →
  Forall2 (λ (item : string * gmap string pyval) (entry : string * DetailedScore),
             entry.1 = item.1
             ∧ item.2 !! "score" = Some (score entry.2)
             ∧ item.2 !! "factors" = Some (factors entry.2)) items ds.
Proof.
  revert ds. induction items as [|item rest IH]; intros ds; simpl.
  - intros [= <-]. constructor.
  - unfold getitem.
    destruct (item.2 !! "score") as [sc|] eqn:Hsc; [simpl | discriminate].
    destruct (item.2 !! "factors") as [fa|] eqn:Hfa; [simpl | discriminate].
    destruct (detail_items rest) as [ds'|] eqn:Hrest; [simpl | discriminate].
    intros [= <-]. constructor; [done | by apply IH].
Qed.

Lemma weighted_score_ok item x :
  weighted_score item = Ok x →
  ∃ w v, weights !! item.1 = Some w ∧ item.2 !! "score" = Some (PNum v) ∧ x = (w * v)%Q.
Proof.
  unfold weighted_score, getitem.
  destruct (weights !! item.1) as [w|]; [simpl | discriminate].
  destruct (item.2 !! "score") as [[v|l]|]; simpl; try discriminate.
  intros [= <-]. by exists w, v.
Qed.

(** The entries of a returned assessment: one per item of the profile, in
    its order, each with a numeric score and a category that has a weight. *)
Lemma assessment_entries name s r :
  (calculate_risk_score name s).1 = Ok (Some r) →
  ∃ profile, risk_factors s !! name = Some profile
             ∧ (detailed_scores r).*1 = profile.*1
             ∧ detailed_scores r ≠ []
             ∧ Forall (λ entry : string * DetailedScore,
                         (∃ x, score entry.2 = PNum x) ∧ is_Some (weights !! entry.1))
                 (detailed_scores r).
Proof.
  intros Hr. destruct (calculate_risk_score_some _ _ _ Hr)
    as (profile & Hprofile & Hne & Hsum & Hdetails & _).
  exists profile. split; [done |].
  destruct (sum_from_ok_terms _ _ _ Hsum) as (xs & Hxs).
  pose proof (detail_items_entries _ _ Hdetails) as Hentries.
  clear Hsum Hdetails Hr Hprofile.
  revert Hentries. generalize (detailed_scores r). intros ds Hentries.
  split; [| split].
  - clear Hne xs Hxs.
    induction Hentries as [|item entry items ds' (Hkey & _) _ IH]; [done |].
    by rewrite !fmap_cons, Hkey, IH.
  - destruct Hentries; [done | discriminate].
  - clear Hne. revert xs Hxs.
    induction Hentries as [|item entry items ds' (Hkey & Hscore & _) _ IH];
      intros xs Hxs; [constructor |].
    inversion Hxs as [|? x ? xs' Hx Hxs']; subst.
    constructor; [| by eapply IH].
    destruct (weighted_score_ok _ _ Hx) as (w & v & Hw & Hv & _).
    rewrite Hkey, Hw. split; [| done].
    exists v. rewrite Hv in Hscore. by injection Hscore.
Qed.

(** X7. Every analysis that [analyze_country] returns has the fields its
    readers index without a check.  It carries the name it was asked for; its
    displayed metrics are exactly Population, GDP, Consumer_Spending and
    Economic_Growth; its forecasts, when there are any, have exactly the four
    forecast metrics as keys; and its assessment, when there is one, has one
    entry per item of the country's risk profile, in the profile's order,
    each with a numeric score and a category that has a weight. *)
Theorem analysis_has_what_its_readers_index fit fmt name s a :
  (analyze_country fit fmt name s).1 = Ok (Some a) →
  country a = name
  ∧ (∀ key, is_Some (current_metrics a !! key)
            ↔ key ∈ ["Population"; "GDP"; "Consumer_Spending"; "Economic_Growth"])
  ∧ (∀ fs, forecasts a = Some fs →
           ∀ key, is_Some (fs !! key) ↔ key ∈ metrics_to_forecast)
  ∧ (∀ r, risk_analysis a = Some r →
          ∃ profile, risk_factors s !! name = Some profile
                     ∧ (detailed_scores r).*1 = profile.*1
                     ∧ detailed_scores r ≠ []
                     ∧ Forall (λ entry : string * DetailedScore,
                                 (∃ x, score entry.2 = PNum x)
                                 ∧ is_Some (weights !! entry.1))
                         (detailed_scores r)).
Proof.
  intros Ha. destruct (analyze_country_some _ _ _ _ _ Ha)
    as (d & _ & Hname & Hmetrics & _ & _ & Hfs & Hrisk).
  split; [done |]. split; [| split].
  - intros key. by eapply current_metrics_of_keys.
  - intros fs Heq key. rewrite Heq in Hfs. by eapply forecast_metrics_keys.
  - intros r Heq. rewrite Heq in Hrisk. by apply assessment_entries.
Qed.

Lemma analysis_has_what_its_readers_index_witness :
  ∃ a, (analyze_country Run.smoothing format_decimal "Japan" Seed.analyzer).1 = Ok (Some a)
       ∧ country a = "Japan"
       ∧ (∀ key, is_Some (current_metrics a !! key)
                 ↔ key ∈ ["Population"; "GDP"; "Consumer_Spending"; "Economic_Growth"])
       ∧ (∀ fs, forecasts a = Some fs →
                ∀ key, is_Some (fs !! key) ↔ key ∈ metrics_to_forecast)
       ∧ (∀ r, risk_analysis a = Some r →
               ∃ profile, risk_factors Seed.analyzer !! "Japan" = Some profile
                          ∧ (detailed_scores r).*1 = profile.*1
                          ∧ detailed_scores r ≠ []
                          ∧ Forall (λ entry : string * DetailedScore,
                                      (∃ x, score entry.2 = PNum x)
                                      ∧ is_Some (weights !! entry.1))
                              (detailed_scores r)).
Proof.
  destruct (seed_analysis Run.smoothing format_decimal "Japan" _ 88
              seed_snapshot_japan seed_japan_well_formed seed_japan_market_score)
    as (a & Ha & _).
  exists a. split; [exact Ha |].
  exact (analysis_has_what_its_readers_index _ _ _ _ _ Ha).
Defined.

(** ** Running on the console *)

Lemma only_prints_refl w : only_prints w w.
Proof. repeat split. exists []. by rewrite app_nil_r. Qed.

Lemma only_prints_trans w1 w2 w3 :
  only_prints w1 w2 → only_prints w2 w3 → only_prints w1 w3.
Proof.
  intros (Ha1 & Hf1 & l1 & Hl1) (Ha2 & Hf2 & l2 & Hl2).
  split; [congruence |]. split; [congruence |].
  exists (l1 ++ l2). by rewrite Hl2, Hl1, app_assoc.
Qed.

Lemma printer_ret {A : Type} (a : A) : printer (io_ret a).
Proof. intros w. apply only_prints_refl. Qed.

Lemma printer_print text : printer (print text).
Proof. intros w. repeat split. by exists [text]. Qed.

Lemma printer_unguarded {A : Type} (r : result A) : printer (unguarded r).
Proof. intros w. unfold unguarded. destruct r; apply only_prints_refl. Qed.

Lemma printer_bind {A B : Type} (m : IO A) (k : A → IO B) :
  printer m → (∀ a, printer (k a)) → printer (io_bind m k).
Proof.
  intros Hm Hk w. unfold io_bind. specialize (Hm w).
  destruct (m w) as [[a|e] w1]; [| exact Hm].
  eapply only_prints_trans; [exact Hm | apply Hk].
Qed.

Lemma printer_for_each {A : Type} (items : list A) (body : A → IO unit) :
  (∀ x, printer (body x)) → printer (for_each items body).
Proof.
  intros Hbody. induction items as [|x rest IH]; simpl.
  - apply printer_ret.
  - apply printer_bind; [apply Hbody | intros _; exact IH].
Qed.

Ltac printer_step :=
  lazymatch goal with
  | |- printer (print _) => apply printer_print
  | |- printer (io_ret _) => apply printer_ret
  | |- printer (unguarded _) => apply printer_unguarded
  | |- printer (for_each _ _) => apply printer_for_each; intros ?
  | |- printer (io_bind _ _) => apply printer_bind; [| intros ?]
  end.

Ltac printer_steps := repeat printer_step.

Lemma printer_print_analysis fmt py_str name a :
  printer (print_analysis fmt py_str name a).
Proof.
  unfold print_analysis. printer_steps.
  destruct (forecasts a) as [fs|]; [| apply printer_ret].
  destruct (is_empty_dict fs); [apply printer_ret |].
  unfold outlook_line. printer_steps.
Qed.

Lemma raises_only_ret {A : Type} E (a : A) : raises_only E (io_ret a).
Proof. by intros w. Qed.

Lemma raises_only_print E text : raises_only E (print text).
Proof. by intros w. Qed.

Lemma raises_only_bind {A B : Type} E (m : IO A) (k : A → IO B) :
  raises_only E m → (∀ a, raises_only E (k a)) → raises_only E (io_bind m k).
Proof.
  intros Hm Hk w. unfold io_bind. specialize (Hm w).
  destruct (m w) as [[a|e] w1]; [apply Hk | exact Hm].
Qed.

Lemma raises_only_bind_ok {A B : Type} E (a : A) (k : A → IO B) :
  raises_only E (k a) → raises_only E (io_bind (unguarded (Ok a)) k).
Proof. intros Hk w. apply Hk. Qed.

Lemma raises_only_bind_raise {A B : Type} (E : error → Prop) e (k : A → IO B) :
  E (Uncaught e) → raises_only E (io_bind (unguarded (Raise e)) k).
Proof. by intros He w. Qed.

Lemma raises_only_for_each {A : Type} E (items : list A) (body : A → IO unit) :
  (∀ x, x ∈ items → raises_only E (body x)) → raises_only E (for_each items body).
Proof.
  induction items as [|x rest IH]; intros Hbody; simpl.
  - apply raises_only_ret.
  - apply raises_only_bind; [apply Hbody; by left |].
    intros _. apply IH. intros y Hy. apply Hbody. by right.
Qed.

Lemma raises_only_weaken {A : Type} (E1 E2 : error → Prop) (m : IO A) :
  (∀ e, E1 e → E2 e) → raises_only E1 m → raises_only E2 m.
Proof.
  intros Hsub Hm w. specialize (Hm w). destruct (m w).1; [done | by apply Hsub].
Qed.

Lemma raises_only_no_error (m : IO unit) w :
  raises_only no_error m → (m w).1 = Returned tt.
Proof. intros Hm. specialize (Hm w). by destruct (m w).1 as [[]|e]. Qed.

Lemma subscriptable_cases {A : Type} (x : option A) :
  (∃ a, subscriptable x = Ok a) ∨ subscriptable x = Raise TypeError.
Proof. destruct x as [a|]; [left; by exists a | by right]. Qed.

Lemma iterate_cases v : (∃ l, iterate v = Ok l) ∨ iterate v = Raise TypeError.
Proof. destruct v as [q|l]; [by right | left; by exists l]. Qed.

Lemma is_list_iterate v : is_list v = true → ∃ l, iterate v = Ok l.
Proof. destruct v as [q|l]; [discriminate |]. by exists l. Qed.

Lemma forecast_keys_present (fs : gmap string Forecast) :
  (∀ key, key ∈ metrics_to_forecast → is_Some (fs !! key)) →
  ∃ gdp pop spend growth,
    getitem fs "GDP" = Ok gdp ∧ getitem fs "Population" = Ok pop
    ∧ getitem fs "Consumer_Spending" = Ok spend
    ∧ getitem fs "Economic_Growth" = Ok growth.
Proof.
  intros Hkeys. unfold getitem.
  destruct (Hkeys "GDP") as (f1 & ->); [repeat constructor |].
  destruct (Hkeys "Population") as (f2 & ->); [repeat constructor |].
  destruct (Hkeys "Consumer_Spending") as (f3 & ->); [repeat constructor |].
  destruct (Hkeys "Economic_Growth") as (f4 & ->); [repeat constructor |].
  by exists f1, f2, f3, f4.
Qed.

Ltac raises_step :=
  lazymatch goal with
  | |- raises_only _ (print _) => apply raises_only_print
  | |- raises_only _ (io_ret _) => apply raises_only_ret
  | |- raises_only _ (io_bind (unguarded (Ok _)) _) => apply raises_only_bind_ok
  | |- raises_only _ (io_bind (unguarded (Raise _)) _) =>
      apply raises_only_bind_raise; exact eq_refl
  | |- raises_only _ (io_bind (unguarded (subscriptable ?x)) _) =>
      let H := fresh "Hcase" in
      destruct (subscriptable_cases x) as [(? & H) | H]; rewrite H
  | |- raises_only _ (io_bind (unguarded (iterate ?v)) _) =>
      let H := fresh "Hcase" in
      destruct (iterate_cases v) as [(? & H) | H]; rewrite H
  | |- raises_only _ (for_each _ _) => apply raises_only_for_each; intros ? ?
  | |- raises_only _ (io_bind _ _) => apply raises_only_bind; [| intros ?]
  end.

Ltac raises_steps := repeat raises_step.

(** The outlook of a dict with the four metrics is printed. *)
Lemma raises_only_outlook E fmt (fs : gmap string Forecast) :
  (∀ key, key ∈ metrics_to_forecast → is_Some (fs !! key)) →
  raises_only E
    (let! _ := print (nl +:+ "5-Year Market Outlook:") in
     let! _ := outlook_line fmt fs "GDP" "GDP: $" 2 " Trillion USD" "% growth)" in
     let! _ := outlook_line fmt fs "Population" "Population: " 1 " Million" "% change)" in
     let! _ := outlook_line fmt fs "Consumer_Spending" "Consumer Spending: $" 2
                 " Trillion USD" "% growth)" in
     let! growth := unguarded (getitem fs "Economic_Growth") in
     print ("Expected GDP Growth Rate: "
            +:+ format_float64 fmt 1 (forecasted_value growth) +:+ "%")).
Proof.
  intros Hkeys.
  destruct (forecast_keys_present fs Hkeys) as (f1 & f2 & f3 & f4 & H1 & H2 & H3 & H4).
  unfold outlook_line. rewrite H1, H2, H3, H4. raises_steps.
Qed.

(** Whatever the analysis with complete forecasts, its report is printed to
    the end or stops at a [TypeError]: a missing assessment, or a field that
    is no list. *)
Lemma print_analysis_type_error fmt py_str name a :
  (∀ fs, forecasts a = Some fs → ∀ key, key ∈ metrics_to_forecast → is_Some (fs !! key)) →
  raises_only type_error (print_analysis fmt py_str name a).
Proof.
  intros Hkeys. unfold print_analysis. raises_steps.
  all: destruct (forecasts a) as [fs|]; [| apply raises_only_ret].
  all: destruct (is_empty_dict fs); [apply raises_only_ret |].
  all: by apply raises_only_outlook, Hkeys.
Qed.

(** The report of an analysis with the fields it indexes is printed to the
    end. *)
Lemma print_analysis_returns fmt py_str name a :
  reportable a = true →
  (∀ fs, forecasts a = Some fs → ∀ key, key ∈ metrics_to_forecast → is_Some (fs !! key)) →
  raises_only no_error (print_analysis fmt py_str name a).
Proof.
  unfold reportable. intros Hrep Hkeys.
  destruct (risk_analysis a) as [r|] eqn:Hrisk; [| discriminate].
  apply andb_prop in Hrep as [Hrep Hweak]. apply andb_prop in Hrep as [Hrep Hstrong].
  unfold reportable_risk in Hrep. apply andb_prop in Hrep as [_ Hfactors].
  rewrite forallb_forall in Hfactors.
  destruct (is_list_iterate _ Hstrong) as (strong & Hstrong').
  destruct (is_list_iterate _ Hweak) as (weak & Hweak').
  unfold print_analysis. rewrite Hrisk, Hstrong', Hweak'.
  change (subscriptable (Some r)) with (Ok r). raises_steps.
  - exfalso.
    match goal with H : _ ∈ detailed_scores r |- _ =>
      apply list_elem_of_In, Hfactors, is_list_iterate in H; destruct H as (l & Hl)
    end.
    congruence.
  - destruct (forecasts a) as [fs|]; [| apply raises_only_ret].
    destruct (is_empty_dict fs); [apply raises_only_ret |].
    by apply raises_only_outlook, Hkeys.
Qed.

(** ** The loop over the countries *)

Section BatchFacts.

Variable fit : list Q -> Z -> result (list float64).
Variable fmt : nat -> Q -> string.
Variable py_str : pyval -> string.
Variable py_float : string -> option float64.
Variable tables : MarketEntryAnalyzer.

(** A call of [analyze_country] from the loop: it returns the analysis of the
    tables and touches the log only. *)
Lemma call_analyze_country name w :
  same_data tables (analyzer w) →
  ∃ self', call (analyze_country fit fmt name) w
           = (Returned (analysis_of fit fmt tables name),
              {| analyzer := self'; stdout := stdout w; figures := figures w |})
           ∧ same_data tables self'.
Proof.
  intros Hsame.
  destruct (analyze_country_logs fit fmt name (analyzer w))
    as (r & self' & extra & Hrun & (Hsame' & _) & _).
  exists self'. unfold call. rewrite Hrun. split.
  - unfold analysis_of.
    by rewrite (analyze_country_reads_tables fit fmt name _ _ Hsame), Hrun.
  - by eapply same_data_trans.
Qed.

Lemma analyze_each_cons name rest results w :
  analyze_each fit fmt py_str (name :: rest) results w =
    match call (analyze_country fit fmt name)
            (print (nl +:+ "Analyzing " +:+ name +:+ "...") w).2 with
    | (Aborted e, w2) => (Aborted e, w2)
    | (Returned None, w2) => analyze_each fit fmt py_str rest results w2
    | (Returned (Some a), w2) =>
        match print_analysis fmt py_str name a w2 with
        | (Aborted e, w3) => (Aborted e, w3)
        | (Returned _, w3) => analyze_each fit fmt py_str rest (results ++ [a]) w3
        end
    end.
Proof.
  cbn [analyze_each]. unfold io_bind. cbn [print fst snd].
  destruct (call _ _) as [[[a|]|e] w2]; reflexivity.
Qed.

Lemma analyze_each_run countries results w :
  same_data tables (analyzer w) →
  figures (analyze_each fit fmt py_str countries results w).2 = figures w
  ∧ same_data tables (analyzer (analyze_each fit fmt py_str countries results w).2)
  ∧ (∃ lines, stdout (analyze_each fit fmt py_str countries results w).2 = stdout w ++ lines)
  ∧ match (analyze_each fit fmt py_str countries results w).1 with
    | Returned out => out = results ++ omap (analysis_of fit fmt tables) countries
    | Aborted e =>
        ∃ name a w', name ∈ countries
                     ∧ analysis_of fit fmt tables name = Some a
                     ∧ (print_analysis fmt py_str name a w').1 = Aborted e
    end.
Proof.
  revert results w. induction countries as [|name rest IH]; intros results w Hsame.
  - cbn [analyze_each io_ret fst snd].
    split; [done |]. split; [exact Hsame |]. split; [exists []; by rewrite app_nil_r |].
    by rewrite app_nil_r.
  - rewrite analyze_each_cons.
    destruct (call_analyze_country name (print (nl +:+ "Analyzing " +:+ name +:+ "...") w).2
                Hsame) as (self' & Hcall & Hsame').
    rewrite Hcall. cbn [print fst snd stdout figures].
    set (w2 := {| analyzer := self'; stdout := _; figures := figures w |}).
    assert (Hw2 : analyzer w2 = self' ∧ figures w2 = figures w
                  ∧ stdout w2 = stdout w ++ [nl +:+ "Analyzing " +:+ name +:+ "..."])
      by done.
    destruct Hw2 as (Hw2a & Hw2f & Hw2s). clearbody w2.
    destruct (analysis_of fit fmt tables name) as [a|] eqn:Ha.
    + pose proof (printer_print_analysis fmt py_str name a w2) as (Hself & Hfig & l1 & Hl1).
      rewrite Hw2a in Hself. rewrite Hw2f in Hfig. rewrite Hw2s in Hl1.
      destruct (print_analysis fmt py_str name a w2) as [[[]|e] w3] eqn:Hprint;
        cbn [fst snd analyzer stdout figures] in *.
      * destruct (IH (results ++ [a]) w3) as (Hf & Hs & (l2 & Hl2) & Hout);
          [by rewrite Hself |].
        split; [by rewrite Hf, Hfig |]. split; [exact Hs |].
        split; [exists ([nl +:+ "Analyzing " +:+ name +:+ "..."] ++ l1 ++ l2);
                by rewrite Hl2, Hl1, !app_assoc |].
        destruct (analyze_each fit fmt py_str rest (results ++ [a]) w3).1 as [out|e].
        -- rewrite Hout, <- app_assoc. cbn [omap list_omap app]. by rewrite Ha.
        -- destruct Hout as (name' & a' & w' & Hin & Ha' & Hw').
           exists name', a', w'. split; [by right | done].
      * split; [done |]. split; [by rewrite Hself |].
        split; [exists ([nl +:+ "Analyzing " +:+ name +:+ "..."] ++ l1);
                by rewrite Hl1, !app_assoc |].
        exists name, a, w2. split; [by left |]. split; [done |]. by rewrite Hprint.
    + destruct (IH results w2) as (Hf & Hs & (l2 & Hl2) & Hout); [by rewrite Hw2a |].
      rewrite Hw2f in Hf. rewrite Hw2s in Hl2.
      split; [done |]. split; [done |].
      split; [exists ([nl +:+ "Analyzing " +:+ name +:+ "..."] ++ l2);
              by rewrite Hl2, !app_assoc |].
      destruct (analyze_each fit fmt py_str rest results w2).1 as [out|e];
        [cbn [omap list_omap]; by rewrite Ha |].
      destruct Hout as (name' & a' & w' & Hin & Ha' & Hw').
      exists name', a', w'. split; [by right | done].
Qed.

(** One analysis whose report aborts is enough to abort the loop. *)
Lemma analyze_each_aborts countries results w name a :
  same_data tables (analyzer w) →
  name ∈ countries →
  analysis_of fit fmt tables name = Some a →
  (∀ w', ∃ e, (print_analysis fmt py_str name a w').1 = Aborted e) →
  ∃ e, (analyze_each fit fmt py_str countries results w).1 = Aborted e.
Proof.
  intros Hsame Hin Ha Hprint. revert results w Hsame.
  induction countries as [|head rest IH]; intros results w Hsame.
  - by apply elem_of_nil in Hin.
  - rewrite analyze_each_cons.
    destruct (call_analyze_country head (print (nl +:+ "Analyzing " +:+ head +:+ "...") w).2
                Hsame) as (self' & Hcall & Hsame').
    rewrite Hcall. cbn [print fst snd stdout figures].
    set (w2 := {| analyzer := self'; stdout := _; figures := figures w |}).
    destruct (decide (head = name)) as [-> | Hne].
    + rewrite Ha. destruct (Hprint w2) as (e & He).
      destruct (print_analysis fmt py_str name a w2) as [o w3]. cbn [fst] in He. subst o.
      by exists e.
    + apply elem_of_cons in Hin as [-> | Hin]; [done |].
      destruct (analysis_of fit fmt tables head) as [a'|].
      * pose proof (printer_print_analysis fmt py_str head a' w2) as (Hself & _).
        destruct (print_analysis fmt py_str head a' w2) as [[[]|e] w3]; cbn [fst snd] in *.
        -- apply (IH Hin). by rewrite Hself.
        -- by exists e.
      * by apply (IH Hin).
Qed.

End BatchFacts.

(** ** The chart *)

Lemma comprehension_only {A B : Type} E (f : A → outcome B) items :
  (∀ x, x ∈ items → outcome_only E (f x)) → outcome_only E (comprehension f items).
Proof.
  induction items as [|x rest IH]; intros Hf; simpl; [done |].
  pose proof (Hf x (list_elem_of_here _ _)) as Hx.
  destruct (f x) as [y|e]; [| exact Hx].
  assert (Hrest : outcome_only E (comprehension f rest)).
  { apply IH. intros z Hz. apply Hf. by right. }
  by destruct (comprehension f rest).
Qed.

Lemma comprehension_returns {A B : Type} (f : A → outcome B) items :
  (∀ x, x ∈ items → ∃ y, f x = Returned y) →
  ∃ ys, comprehension f items = Returned ys.
Proof.
  induction items as [|x rest IH]; intros Hf; simpl; [by exists [] |].
  destruct (Hf x (list_elem_of_here _ _)) as (y & ->).
  destruct IH as (ys & ->); [intros z Hz; apply Hf; by right |].
  by exists (y :: ys).
Qed.

Lemma comprehension_aborts {A B : Type} (E : error → Prop) (f : A → outcome B) items x :
  (∀ y, y ∈ items → outcome_only E (f y)) →
  x ∈ items → (∃ e, f x = Aborted e) →
  ∃ e, comprehension f items = Aborted e ∧ E e.
Proof.
  induction items as [|y rest IH]; intros Hf Hin Hx; [by apply elem_of_nil in Hin |].
  simpl. pose proof (Hf y (list_elem_of_here _ _)) as Hy.
  destruct (f y) as [v|e] eqn:Hfy; [| by exists e].
  apply elem_of_cons in Hin as [-> | Hin].
  - destruct Hx as (e & He). congruence.
  - destruct IH as (e & -> & He); [intros z Hz; apply Hf; by right | done | done |].
    by exists e.
Qed.

Lemma enumerate_series_only {H : Type} E (f : nat → string → outcome (Bars H)) i items :
  (∀ j x, x ∈ items → outcome_only E (f j x)) →
  outcome_only E (enumerate_series f i items).
Proof.
  revert i. induction items as [|x rest IH]; intros i Hf; simpl; [done |].
  pose proof (Hf i x (list_elem_of_here _ _)) as Hx.
  destruct (f i x) as [b|e]; [| exact Hx].
  assert (Hrest : outcome_only E (enumerate_series f (S i) rest)).
  { apply IH. intros j z Hz. apply Hf. by right. }
  by destruct (enumerate_series f (S i) rest).
Qed.

Lemma enumerate_series_aborts {H : Type} (E : error → Prop)
    (f : nat → string → outcome (Bars H)) i items x :
  (∀ j y, y ∈ items → outcome_only E (f j y)) →
  x ∈ items → (∀ j, ∃ e, f j x = Aborted e) →
  ∃ e, enumerate_series f i items = Aborted e ∧ E e.
Proof.
  revert i. induction items as [|y rest IH]; intros i Hf Hin Hx;
    [by apply elem_of_nil in Hin |].
  simpl. pose proof (Hf i y (list_elem_of_here _ _)) as Hy.
  destruct (f i y) as [v|e] eqn:Hfy; [| by exists e].
  apply elem_of_cons in Hin as [-> | Hin].
  - destruct (Hx i) as (e & He). congruence.
  - destruct (IH (S i)) as (e & -> & He); [intros j z Hz; apply Hf; by right | done | done |].
    by exists e.
Qed.

Lemma detail_of_cases details key :
  (∃ d, detail_of details key = Ok d ∧ key ∈ details.*1)
  ∨ (detail_of details key = Raise (KeyError key) ∧ key ∉ details.*1).
Proof.
  unfold detail_of.
  destruct (list_find _ details) as [[i entry]|] eqn:Hfind.
  - left. exists entry.2. split; [done |].
    apply list_find_Some in Hfind as (Hi & Heq & _).
    apply Is_true_true, String.eqb_eq in Heq. subst key.
    apply list_elem_of_fmap. exists entry. split; [done |].
    by eapply list_elem_of_lookup_2.
  - right. split; [done |].
    apply list_find_None in Hfind. rewrite Forall_forall in Hfind.
    intros (entry & -> & Hentry)%list_elem_of_fmap.
    apply (Hfind entry Hentry). apply Is_true_true, String.eqb_eq. done.
Qed.

Section ChartFacts.

Variable fmt : nat -> Q -> string.
Variable py_float : string -> option float64.

Lemma reread_only text : outcome_only value_error (reread py_float text).
Proof. unfold reread. by destruct (py_float _). Qed.

Lemma reportable_risk_some a :
  reportable a = true →
  ∃ r, risk_analysis a = Some r
       ∧ ∀ category, category ∈ risk_categories →
                     ∃ d, detail_of (detailed_scores r) category = Ok d.
Proof.
  unfold reportable. destruct (risk_analysis a) as [r|]; [| discriminate].
  intros Hrep. apply andb_prop in Hrep as [Hrep _]. apply andb_prop in Hrep as [Hrep _].
  unfold reportable_risk in Hrep. apply andb_prop in Hrep as [Hcats _].
  rewrite forallb_forall in Hcats.
  exists r. split; [done |]. intros category Hin.
  apply list_elem_of_In, Hcats in Hin.
  destruct (detail_of (detailed_scores r) category) as [d|]; [by exists d | discriminate].
Qed.

(** The chart of analyses that have what it indexes is drawn, unless
    [float] refuses a text. *)
Lemma comparison_chart_only (E : error → Prop) results :
  (∀ a, a ∈ results →
        reportable a = true
        ∧ ∀ metric, metric ∈ chart_metrics →
                    ∃ text, current_metrics a !! metric = Some text
                            ∧ outcome_only E (reread py_float text)) →
  outcome_only E (comparison_chart fmt py_float results).
Proof.
  intros Hall. unfold comparison_chart.
  destruct (comprehension_returns
              (λ r, guarded (let? risk := subscriptable (risk_analysis r) in
                             Ok (total_score risk))) results) as (risk_scores & ->).
  { intros a Ha. destruct (Hall a Ha) as (Hrep & _).
    destruct (reportable_risk_some a Hrep) as (r & -> & _). by exists (total_score r). }
  assert (Hcats : outcome_only E
            (enumerate_series (category_series results) 0 risk_categories)).
  { apply enumerate_series_only. intros j category Hcat. unfold category_series.
    destruct (comprehension_returns
                (λ r, guarded (let? risk := subscriptable (risk_analysis r) in
                               let? detail := detail_of (detailed_scores risk) category in
                               Ok (score detail))) results) as (scores & ->); [| done].
    intros a Ha. destruct (Hall a Ha) as (Hrep & _).
    destruct (reportable_risk_some a Hrep) as (r & -> & Hr).
    destruct (Hr category Hcat) as (d & Hd). simpl. rewrite Hd. by exists (score d). }
  destruct (enumerate_series (category_series results) 0 risk_categories)
    as [categories|e]; [| exact Hcats].
  assert (Hmetrics : outcome_only E
            (enumerate_series (metric_series py_float results) 0 chart_metrics)).
  { apply enumerate_series_only. intros j metric Hmetric. unfold metric_series.
    assert (Hvalues : outcome_only E
              (comprehension
                 (λ r, match guarded (getitem (current_metrics r) metric) with
                       | Aborted e => Aborted e
                       | Returned text => reread py_float text
                       end) results)).
    { apply comprehension_only. intros a Ha. destruct (Hall a Ha) as (_ & Hkeys).
      destruct (Hkeys metric Hmetric) as (text & Htext & Hread).
      unfold getitem. by rewrite Htext. }
    by destruct (comprehension _ results). }
  by destruct (enumerate_series (metric_series py_float results) 0 chart_metrics).
Qed.

(** X13. The chart needs all four categories, the scorer does not.  When
    every analysis to be plotted has an assessment and one assessment lacks
    one of Political_Risk, Economic_Risk, Operational_Risk and
    Technical_Risk, [create_comparison_visualizations] computes no chart: it
    is ended by the [KeyError] of a category of the chart. *)
Theorem chart_needs_the_four_categories results a r category :
  (∀ b, b ∈ results → is_Some (risk_analysis b)) →
  a ∈ results → risk_analysis a = Some r →
  category ∈ risk_categories → category ∉ (detailed_scores r).*1 →
  ∃ missing, missing ∈ risk_categories
             ∧ comparison_chart fmt py_float results = Aborted (Uncaught (KeyError missing)).
Proof.
  intros Hall Ha Hr Hcat Hmissing. unfold comparison_chart.
  destruct (comprehension_returns
              (λ r, guarded (let? risk := subscriptable (risk_analysis r) in
                             Ok (total_score risk))) results) as (risk_scores & ->).
  { intros b Hb. destruct (Hall b Hb) as (rb & ->). by exists (total_score rb). }
  set (E := λ e : error, ∃ missing, missing ∈ risk_categories
                                    ∧ e = Uncaught (KeyError missing)).
  assert (Hone : ∀ b c, b ∈ results → c ∈ risk_categories →
            outcome_only E
              (guarded (let? risk := subscriptable (risk_analysis b) in
                        let? detail := detail_of (detailed_scores risk) c in
                        Ok (score detail)))).
  { intros b c Hb Hc. destruct (Hall b Hb) as (rb & ->). simpl.
    destruct (detail_of_cases (detailed_scores rb) c) as [(d & -> & _) | (-> & _)];
      [done |].
    by exists c. }
  destruct (enumerate_series_aborts E (category_series results) 0 risk_categories category)
    as (e & -> & missing & Hin & ->); [| done | | by exists missing].
  - intros j c Hc. unfold category_series.
    assert (Hscores : outcome_only E
              (comprehension
                 (λ r, guarded (let? risk := subscriptable (risk_analysis r) in
                                let? detail := detail_of (detailed_scores risk) c in
                                Ok (score detail))) results)).
    { apply comprehension_only. intros b Hb. by apply Hone. }
    by destruct (comprehension _ results).
  - intros j. unfold category_series.
    destruct (comprehension_aborts E
                (λ r, guarded (let? risk := subscriptable (risk_analysis r) in
                               let? detail := detail_of (detailed_scores risk) category in
                               Ok (score detail))) results a) as (e & -> & _);
      [intros b Hb; by apply Hone | done | | by exists e].
    rewrite Hr. simpl.
    destruct (detail_of_cases (detailed_scores r) category) as [(d & _ & Hin) | (-> & _)];
      [done |].
    by eexists.
Qed.

End ChartFacts.

(** ** The batch report *)

Section MarketsFacts.

Variable fit : list Q -> Z -> result (list float64).
Variable fmt : nat -> Q -> string.
Variable py_str : pyval -> string.
Variable py_float : string -> option float64.
Variable tables : MarketEntryAnalyzer.

(** The console on which the loop of [analyze_markets_from] starts. *)
Lemma analyze_markets_from_unfold country_list w :
  ∃ w0, analyzer w0 = {| current_data := current_data tables;
                         historical_data := historical_data tables;
                         risk_factors := risk_factors tables;
                         logged := logged (analyzer w) |}
        ∧ figures w0 = figures w
        ∧ (∃ line, stdout w0 = stdout w ++ [line])
        ∧ analyze_markets_from fit fmt py_str py_float tables country_list w =
            match analyze_each fit fmt py_str country_list [] w0 with
            | (Aborted e, w1) => (Aborted e, w1)
            | (Returned [], w1) => (Returned [], w1)
            | (Returned (a :: results), w1) =>
                match comparison_chart fmt py_float (a :: results) with
                | Aborted e => (Aborted e, w1)
                | Returned chart =>
                    (Returned (a :: results),
                     {| analyzer := analyzer w1;
                        stdout := stdout w1
                                  ++ [nl +:+ "Visualization saved as 'market_comparison.png'"];
                        figures := figures w1 ++ [chart] |})
                end
            end.
Proof.
  exists {| analyzer := {| current_data := current_data tables;
                           historical_data := historical_data tables;
                           risk_factors := risk_factors tables;
                           logged := logged (analyzer w) |};
            stdout := stdout w ++ [nl +:+ "Analyzing countries: "
                                   +:+ String.concat ", " country_list];
            figures := figures w |}.
  split; [reflexivity |]. split; [reflexivity |]. split; [by eexists |].
  unfold analyze_markets_from. unfold io_bind at 1. cbn [print analyzer stdout figures].
  unfold io_bind at 1.
  destruct (analyze_each fit fmt py_str country_list [] _) as [[[|a results]|e] w1];
    [reflexivity | | reflexivity].
  unfold io_bind, create_comparison_visualizations, savefig, print, io_ret.
  destruct (comparison_chart fmt py_float (a :: results)); reflexivity.
Qed.

Lemma analysis_of_country name a :
  analysis_of fit fmt tables name = Some a → country a = name.
Proof.
  unfold analysis_of.
  destruct (analyze_country fit fmt name tables).1 as [r|] eqn:Hrun; [| discriminate].
  intros ->. by destruct (analyze_country_some _ _ _ _ _ Hrun) as (d & _ & Hname & _).
Qed.

Lemma analysis_of_keys name a :
  analysis_of fit fmt tables name = Some a →
  (∀ fs, forecasts a = Some fs → ∀ key, key ∈ metrics_to_forecast → is_Some (fs !! key))
  ∧ (∀ metric, metric ∈ chart_metrics → is_Some (current_metrics a !! metric)).
Proof.
  unfold analysis_of.
  destruct (analyze_country fit fmt name tables).1 as [r|] eqn:Hrun; [| discriminate].
  intros ->. destruct (analyze_country_some _ _ _ _ _ Hrun)
    as (d & _ & _ & Hmetrics & _ & _ & Hfs & _).
  split.
  - intros fs Heq key Hkey. rewrite Heq in Hfs.
    by apply (forecast_metrics_keys _ _ _ _ _ key Hfs).
  - intros metric Hmetric. apply (current_metrics_of_keys _ _ _ metric Hmetrics).
    unfold chart_metrics in Hmetric.
    repeat (apply elem_of_cons in Hmetric as [-> | Hmetric]; [by repeat constructor |]).
    by apply elem_of_nil in Hmetric.
Qed.

Lemma omap_analysis_of_countries (country_list : list string) :
  country <$> omap (analysis_of fit fmt tables) country_list
  = filter (λ name, is_Some (analysis_of fit fmt tables name)) country_list.
Proof.
  induction country_list as [|name rest IH]; [done |].
  cbn [omap list_omap]. rewrite filter_cons.
  destruct (analysis_of fit fmt tables name) as [a|] eqn:Ha.
  - rewrite decide_True by done. rewrite fmap_cons, IH.
    by rewrite (analysis_of_country _ _ Ha).
  - rewrite decide_False by (by intros [? ?]). exact IH.
Qed.

Lemma same_data_fresh log :
  same_data tables {| current_data := current_data tables;
                      historical_data := historical_data tables;
                      risk_factors := risk_factors tables;
                      logged := log |}.
Proof. by repeat split. Qed.

End MarketsFacts.

Lemma analyze_markets_from_outcome fit fmt py_str py_float tables country_list w :
  same_data tables (analyzer (analyze_markets_from fit fmt py_str py_float tables country_list w).2)
  ∧ (∀ results,
       (analyze_markets_from fit fmt py_str py_float tables country_list w).1 = Returned results →
       results = omap (analysis_of fit fmt tables) country_list
       ∧ country <$> results
         = filter (λ name, is_Some (analysis_of fit fmt tables name)) country_list
       ∧ (results = [] →
          figures (analyze_markets_from fit fmt py_str py_float tables country_list w).2
          = figures w)
       ∧ (results ≠ [] →
          ∃ chart, comparison_chart fmt py_float results = Returned chart
                   ∧ figures (analyze_markets_from fit fmt py_str py_float tables
                                country_list w).2
                     = figures w ++ [chart]))
  ∧ (∀ e,
       (analyze_markets_from fit fmt py_str py_float tables country_list w).1 = Aborted e →
       figures (analyze_markets_from fit fmt py_str py_float tables country_list w).2
       = figures w).
Proof.
  destruct (analyze_markets_from_unfold fit fmt py_str py_float tables country_list w)
    as (w0 & Hw0 & Hfig0 & _ & ->).
  destruct (analyze_each_run fit fmt py_str tables country_list [] w0)
    as (Hfig & Hsame & _ & Hout).
  { rewrite Hw0. apply same_data_fresh. }
  destruct (analyze_each fit fmt py_str country_list [] w0) as [[[|a results]|e] w1];
    cbn [fst snd app] in *.
  - split; [done |]. split; [| done].
    intros ? [= <-]. rewrite <- omap_analysis_of_countries, <- Hout.
    split; [done |]. split; [done |]. split; [congruence | done].
  - destruct (comparison_chart fmt py_float (a :: results)) as [chart|e] eqn:Hchart;
      cbn [fst snd analyzer figures].
    + split; [done |]. split; [| done].
      intros ? [= <-]. rewrite <- omap_analysis_of_countries, <- Hout.
      split; [done |]. split; [done |]. split; [done |].
      intros _. exists chart. split; [done |]. by rewrite Hfig, Hfig0.
    + split; [done |]. split; [done |]. intros ? _. congruence.
  - split; [done |]. split; [done |]. intros ? _. congruence.
Qed.


(** X8. What a call of [analyze_markets] leaves behind.  The tables of the
    analyzer are unchanged.  When the call returns, its result is the list of
    the analyses of the listed countries, in the order listed and as often as
    listed, the countries without an analysis left out; no chart is saved if
    that list is empty, and otherwise exactly one chart, the chart of that
    list, is added.  When the call is ended by an exception, no chart is
    saved. *)
Theorem batch_returns_the_found_analyses fit fmt py_str py_float tables country_list w :
  same_data tables (analyzer (analyze_markets_from fit fmt py_str py_float tables country_list w).2)
  ∧ (∀ results,
       (analyze_markets_from fit fmt py_str py_float tables country_list w).1 = Returned results →
       results = omap (analysis_of fit fmt tables) country_list
       ∧ country <$> results
         = filter (λ name, is_Some (analysis_of fit fmt tables name)) country_list
       ∧ (results = [] →
          figures (analyze_markets_from fit fmt py_str py_float tables country_list w).2
          = figures w)
       ∧ (results ≠ [] →
          ∃ chart, comparison_chart fmt py_float results = Returned chart
                   ∧ figures (analyze_markets_from fit fmt py_str py_float tables
                                country_list w).2
                     = figures w ++ [chart]))
  ∧ (∀ e,
       (analyze_markets_from fit fmt py_str py_float tables country_list w).1 = Aborted e →
       figures (analyze_markets_from fit fmt py_str py_float tables country_list w).2
       = figures w).
Proof. apply analyze_markets_from_outcome. Qed.

Section ReportableFacts.

Variable fit : list Q -> Z -> result (list float64).
Variable fmt : nat -> Q -> string.
Variable py_str : pyval -> string.
Variable py_float : string -> option float64.
Variable tables : MarketEntryAnalyzer.

Lemma elem_of_omap_analysis_of (country_list : list string) a :
  a ∈ omap (analysis_of fit fmt tables) country_list →
  ∃ name, name ∈ country_list ∧ analysis_of fit fmt tables name = Some a.
Proof. intros (name & Hin & Ha)%list_elem_of_omap. by exists name. Qed.

(** When every analysis of the batch has what the report and the chart
    index, the errors of the batch are those of re-reading the metrics. *)
Lemma reportable_batch (E : error → Prop) country_list w :
  (∀ name a, name ∈ country_list → analysis_of fit fmt tables name = Some a →
             reportable a = true
             ∧ ∀ metric text, metric ∈ chart_metrics →
                              current_metrics a !! metric = Some text →
                              outcome_only E (reread py_float text)) →
  outcome_only E (analyze_markets_from fit fmt py_str py_float tables country_list w).1.
Proof.
  intros Hall.
  destruct (analyze_markets_from_unfold fit fmt py_str py_float tables country_list w)
    as (w0 & Hw0 & _ & _ & ->).
  destruct (analyze_each_run fit fmt py_str tables country_list [] w0)
    as (_ & _ & _ & Hout).
  { rewrite Hw0. apply same_data_fresh. }
  destruct (analyze_each fit fmt py_str country_list [] w0) as [[[|a results]|e] w1];
    cbn [fst snd app] in *.
  - done.
  - assert (Hchart : outcome_only E (comparison_chart fmt py_float (a :: results))).
    { apply comparison_chart_only. intros b Hb. rewrite Hout in Hb.
      destruct (elem_of_omap_analysis_of _ _ Hb) as (name & Hin & Hname).
      destruct (Hall name b Hin Hname) as (Hrep & Hread). split; [done |].
      intros metric Hmetric.
      destruct (proj2 (analysis_of_keys fit fmt tables name b Hname) metric Hmetric)
        as (text & Htext).
      exists text. split; [done |]. by eapply Hread. }
    by destruct (comparison_chart fmt py_float (a :: results)).
  - destruct Hout as (name & a & w' & Hin & Ha & Hprint).
    destruct (Hall name a Hin Ha) as (Hrep & _).
    pose proof (print_analysis_returns fmt py_str name a Hrep
                  (proj1 (analysis_of_keys fit fmt tables name a Ha)) w') as Hno.
    rewrite Hprint in Hno. destruct Hno.
Qed.

(** The report of an analysis without an assessment stops at the rating. *)
Lemma print_analysis_unrated name a w' :
  risk_analysis a = None →
  (print_analysis fmt py_str name a w').1 = Aborted (Uncaught TypeError).
Proof. intros Hrisk. unfold print_analysis, io_bind, print. by rewrite Hrisk. Qed.

End ReportableFacts.

(** X9. The batch report does not survive a missing assessment.  When one
    of the listed countries has a snapshot of the data model but the risk
    scorer returns [None] for it (no profile, an empty one, or one it cannot
    score), [analyze_country] still returns its analysis, and
    [analyze_markets] is ended by the [TypeError] of
    [risk_analysis['risk_rating']] on [None]: it returns no result for any
    country and saves no chart. *)
Theorem unrated_country_aborts_the_batch fit fmt py_str py_float tables
    country_list w name d :
  name ∈ country_list →
  current_data tables !! name = Some d →
  well_formed_snapshot d = true →
  (calculate_risk_score name tables).1 = Ok None →
  (analyze_markets_from fit fmt py_str py_float tables country_list w).1
  = Aborted (Uncaught TypeError)
  ∧ figures (analyze_markets_from fit fmt py_str py_float tables country_list w).2
    = figures w.
Proof.
  intros Hin Hd Hwf Hnone.
  destruct (analyze_country_snapshot fit fmt name tables d Hd Hwf)
    as (a & s' & Ha & _ & _ & _ & _ & _ & _ & _ & _ & _ & Hrisk).
  rewrite Hnone in Hrisk. injection Hrisk as Hrisk.
  assert (Hof : analysis_of fit fmt tables name = Some a).
  { unfold analysis_of. by rewrite Ha. }
  destruct (analyze_markets_from_unfold fit fmt py_str py_float tables country_list w)
    as (w0 & Hw0 & Hfig0 & _ & ->).
  assert (Hsame : same_data tables (analyzer w0)).
  { rewrite Hw0. apply same_data_fresh. }
  destruct (analyze_each_run fit fmt py_str tables country_list [] w0 Hsame)
    as (Hfig & _ & _ & Hout).
  destruct (analyze_each_aborts fit fmt py_str tables country_list [] w0 name a
              Hsame Hin Hof) as (e & He).
  { intros w'. eexists. by apply print_analysis_unrated. }
  destruct (analyze_each fit fmt py_str country_list [] w0) as [o w1];
    cbn [fst snd] in *. subst o.
  destruct Hout as (name' & a' & w' & _ & Ha' & Hprint).
  pose proof (print_analysis_type_error fmt py_str name' a'
                (proj1 (analysis_of_keys fit fmt tables name' a' Ha')) w') as Htype.
  rewrite Hprint in Htype. cbn [outcome_only] in Htype. unfold type_error in Htype.
  subst e. split; [done |]. cbn [snd]. by rewrite Hfig, Hfig0.
Qed.

(** ** Stripping the decorations of a metric *)

Lemma plain_cons c s : plain (String c s) = negb (is_mark c) && plain s.
Proof. reflexivity. Qed.

Lemma append_cons c s t : String c s +:+ t = String c (s +:+ t).
Proof. reflexivity. Qed.

Lemma append_empty_r s : s +:+ "" = s.
Proof. induction s as [|c s IH]; [done |]. by rewrite append_cons, IH. Qed.

(** A text without marks is copied by a replacement whose pattern starts
    with a mark, and the scan goes on behind it. *)
Lemma replace_plain_prefix old new s t :
  match old with
  | String m _ => is_mark m
  | EmptyString => false
  end = true →
  plain s = true →
  replace old new (s +:+ t) = s +:+ replace old new t.
Proof.
  destruct old as [|m tail]; [discriminate |].
  intros Hm. unfold replace. induction s as [|c s IH]; intros Hs; [done |].
  rewrite plain_cons in Hs. apply andb_prop in Hs as [Hc Hs].
  rewrite !append_cons. cbn [replace_go String.prefix].
  destruct (Ascii.ascii_dec m c) as [-> | Hne].
  - rewrite Hm in Hc. discriminate.
  - by rewrite (IH Hs).
Qed.

Lemma append_empty_l s : "" +:+ s = s.
Proof. reflexivity. Qed.

(** A pattern of one character is replaced at the head of a text. *)
Lemma replace_head c new s :
  replace (String c "") new (String c s) = new +:+ replace (String c "") new s.
Proof.
  unfold replace. cbn [replace_go String.prefix].
  destruct (Ascii.ascii_dec c c) as [_ | Hne]; [by destruct s | by destruct Hne].
Qed.

Lemma replace_plain old new s :
  match old with
  | String m _ => is_mark m
  | EmptyString => false
  end = true →
  plain s = true →
  replace old new s = s.
Proof.
  intros Hm Hs. rewrite <- (append_empty_r s) at 1.
  rewrite (replace_plain_prefix _ _ _ _ Hm Hs).
  destruct old as [|m tail]; [discriminate |]. by rewrite append_empty_r.
Qed.

Section RereadFacts.

Variable py_float : string -> option float64.

Lemma reread_dollars text :
  plain text = true →
  reread py_float ("$" +:+ text +:+ " Trillion USD") = float_outcome py_float text.
Proof.
  intros Hplain. unfold reread, float_outcome.
  rewrite append_cons, append_empty_l, replace_head, append_empty_l.
  rewrite (replace_plain_prefix "$" "" text " Trillion USD" eq_refl Hplain).
  change (replace "$" "" " Trillion USD") with " Trillion USD".
  rewrite (replace_plain_prefix " Trillion USD" "" text " Trillion USD" eq_refl Hplain).
  change (replace " Trillion USD" "" " Trillion USD") with "".
  rewrite append_empty_r. by rewrite (replace_plain "%" "" text eq_refl Hplain).
Qed.

Lemma reread_percent text :
  plain text = true →
  reread py_float (text +:+ "%") = float_outcome py_float text.
Proof.
  intros Hplain. unfold reread, float_outcome.
  rewrite (replace_plain_prefix "$" "" text "%" eq_refl Hplain).
  change (replace "$" "" "%") with "%".
  rewrite (replace_plain_prefix " Trillion USD" "" text "%" eq_refl Hplain).
  change (replace " Trillion USD" "" "%") with "%".
  rewrite (replace_plain_prefix "%" "" text "%" eq_refl Hplain).
  change (replace "%" "" "%") with "".
  by rewrite append_empty_r.
Qed.

End RereadFacts.

(** ** The metrics on display and on the chart *)

Lemma current_metrics_of_texts fmt d metrics :
  current_metrics_of fmt d = Ok metrics →
  ∃ p g c e,
    d !! "Population" = Some (PNum p)
    ∧ d !! "GDP" = Some (PNum g)
    ∧ d !! "Consumer_Spending" = Some (PNum c)
    ∧ d !! "Economic_Growth" = Some (PNum e)
    ∧ metrics = {[ "Population" := fmt 1%nat p +:+ " Million";
                   "GDP" := "$" +:+ fmt 2%nat g +:+ " Trillion USD";
                   "Consumer_Spending" := "$" +:+ fmt 2%nat c +:+ " Trillion USD";
                   "Economic_Growth" := fmt 1%nat e +:+ "%" ]}.
Proof.
  unfold current_metrics_of, formatted, getitem.
  destruct (d !! "Population") as [[p|]|]; try discriminate.
  destruct (d !! "GDP") as [[g|]|]; try discriminate.
  destruct (d !! "Consumer_Spending") as [[c|]|]; try discriminate.
  destruct (d !! "Economic_Growth") as [[e|]|]; try discriminate.
  simpl. intros [= <-]. by exists p, g, c, e.
Qed.

(** What the chart reads back from a metric on display: [float] of the text
    the formatter wrote, when that text holds none of the stripped marks. *)
Lemma current_metric_reread fmt py_float d metrics metric decimals x :
  current_metrics_of fmt d = Ok metrics →
  d !! metric = Some (PNum x) →
  (metric, decimals) ∈ [("GDP", 2%nat); ("Consumer_Spending", 2%nat);
                        ("Economic_Growth", 1%nat)] →
  plain (fmt decimals x) = true →
  ∃ text, metrics !! metric = Some text
          ∧ reread py_float text = float_outcome py_float (fmt decimals x).
Proof.
  intros Hmetrics Hx Hin Hplain.
  destruct (current_metrics_of_texts _ _ _ Hmetrics)
    as (p & g & c & e & _ & Hg & Hc & He & ->).
  repeat (apply elem_of_cons in Hin as [[= -> ->] | Hin]);
    [| | | by apply elem_of_nil in Hin]; eexists; (split; [seed_lookup |]).
  - rewrite Hg in Hx. injection Hx as <-. by apply reread_dollars.
  - rewrite Hc in Hx. injection Hx as <-. by apply reread_dollars.
  - rewrite He in Hx. injection Hx as <-. by apply reread_percent.
Qed.

(** X11. The chart plots what is on display, not the snapshot.  For GDP,
    Consumer_Spending and Economic_Growth, the text that [analyze_country]
    stores for a snapshot value [x] is stripped by the three [replace] calls
    of the chart back to the formatter's text, so that the bar height is
    [float] of [x] formatted with 2 decimals (1 decimal for the growth), when
    that text holds no dollar sign, percent sign or space. *)
Theorem chart_rereads_the_displayed_metric fit fmt py_float name s a d metric decimals x :
  (analyze_country fit fmt name s).1 = Ok (Some a) →
  current_data s !! name = Some d →
  d !! metric = Some (PNum x) →
  (metric, decimals) ∈ [("GDP", 2%nat); ("Consumer_Spending", 2%nat);
                        ("Economic_Growth", 1%nat)] →
  plain (fmt decimals x) = true →
  ∃ text, current_metrics a !! metric = Some text
          ∧ reread py_float text = float_outcome py_float (fmt decimals x).
Proof.
  intros Ha Hd Hx Hin Hplain.
  destruct (analyze_country_some _ _ _ _ _ Ha) as (d' & Hd' & _ & Hmetrics & _).
  rewrite Hd in Hd'. injection Hd' as <-.
  by eapply current_metric_reread.
Qed.

(** ** The analysis and its sub-computations *)

(** A returned analysis comes from a snapshot of the data model. *)
Lemma analysis_needs_well_formed fit fmt name s a :
  (analyze_country fit fmt name s).1 = Ok (Some a) →
  ∃ d, current_data s !! name = Some d ∧ well_formed_snapshot d = true.
Proof.
  rewrite analyze_country_unfold.
  destruct (current_data s !! name) as [d|]; [| discriminate].
  destruct (is_empty_dict d); [discriminate |].
  destruct (as_number _) as [m|] eqn:Hscore; [| discriminate].
  destruct (current_metrics_of fmt d) as [metrics|] eqn:Hmetrics; [| discriminate].
  destruct (forecast_metrics_returns fit name 5 s) as (fs & s1 & -> & _).
  destruct (calculate_risk_score_returns name s1) as (risk & s2 & -> & _).
  unfold getitem.
  destruct (d !! "Strengths") as [strong|] eqn:Hstrong; [| discriminate].
  destruct (d !! "Weaknesses") as [weak|] eqn:Hweak; [| discriminate].
  intros _. exists d. split; [done |].
  destruct (current_metrics_of_texts _ _ _ Hmetrics)
    as (p & g & c & e & Hp & Hg & Hc & He & _).
  unfold well_formed_snapshot, holds_number, has_field. cbn [forallb].
  rewrite Hp, Hg, Hc, He, Hstrong, Hweak.
  by destruct (d !! "Market_Score") as [[q|l]|].
Qed.

(** C6 (as amended). For a country whose snapshot is found and has the
    fields of the data model (the four current metrics as numbers, Strengths
    and Weaknesses, and a market score that is a number when present),
    [analyze_country] returns the record whatever the forecaster and the
    risk scorer return: country, market score, status, the four current
    metrics formatted as "<population> Million", "$<gdp> Trillion USD",
    "$<spending> Trillion USD" and "<growth>%", strengths and weaknesses,
    and in the fields [forecasts] and [risk_analysis] the results of the two
    sub-computations, [None] when they failed.  The analysis as a whole is
    [None] exactly when the snapshot lookup fails or the snapshot found lacks
    one of these fields. *)
Theorem analysis_survives_sub_failures fit fmt self name :
  (∀ d, current_data self !! name = Some d → well_formed_snapshot d = true →
     ∃ p g c e a s',
       d !! "Population" = Some (PNum p)
       ∧ d !! "GDP" = Some (PNum g)
       ∧ d !! "Consumer_Spending" = Some (PNum c)
       ∧ d !! "Economic_Growth" = Some (PNum e)
       ∧ analyze_country fit fmt name self = (Ok (Some a), s')
       ∧ country a = name
       ∧ as_number (default (PNum 0) (d !! "Market_Score")) = Ok (market_score a)
       ∧ status a = status_of (market_score a)
       ∧ current_metrics a
         = {[ "Population" := fmt 1%nat p +:+ " Million";
              "GDP" := "$" +:+ fmt 2%nat g +:+ " Trillion USD";
              "Consumer_Spending" := "$" +:+ fmt 2%nat c +:+ " Trillion USD";
              "Economic_Growth" := fmt 1%nat e +:+ "%" ]}
       ∧ d !! "Strengths" = Some (strengths a)
       ∧ d !! "Weaknesses" = Some (weaknesses a)
       ∧ (forecast_metrics fit name 5 self).1 = Ok (forecasts a)
       ∧ (calculate_risk_score name self).1 = Ok (risk_analysis a))
  ∧ ((analyze_country fit fmt name self).1 = Ok None
     ↔ current_data self !! name = None
       ∨ ∃ d, current_data self !! name = Some d ∧ well_formed_snapshot d = false).
Proof.
  split.
  - intros d Hd Hwf.
    destruct (analyze_country_snapshot fit fmt name self d Hd Hwf)
      as (a & s' & Ha & _ & _ & Hname & Hscore & Hstatus & Hmetrics & Hrest).
    destruct (current_metrics_of_texts _ _ _ Hmetrics)
      as (p & g & c & e & Hp & Hg & Hc & He & Heq).
    exists p, g, c, e, a, s'. by do 8 (split; [done |]).
  - split.
    + intros Hnone. destruct (current_data self !! name) as [d|] eqn:Hd; [| by left].
      right. exists d. split; [done |].
      destruct (well_formed_snapshot d) eqn:Hwf; [| done].
      destruct (analyze_country_snapshot fit fmt name self d Hd Hwf) as (a & s' & Ha & _).
      rewrite Ha in Hnone. discriminate.
    + intros Hcase.
      destruct (analyze_country_logs fit fmt name self) as (r & s' & extra & Hrun & _).
      rewrite Hrun. cbn [fst]. destruct r as [a|]; [| done]. exfalso.
      assert (Ha : (analyze_country fit fmt name self).1 = Ok (Some a)) by (by rewrite Hrun).
      destruct (analysis_needs_well_formed _ _ _ _ _ Ha) as (d & Hd & Hwf).
      destruct Hcase as [Hnone | (d' & Hd' & Hill)]; congruence.
Qed.

(** Japan with one observation of GDP: the forecaster fails, and the
    analysis is returned with its score, its status, its four formatted
    metrics, its strengths and weaknesses and its risk assessment, the field
    [forecasts] being [None]. *)
Lemma analysis_survives_sub_failures_witness :
  ∃ a s',
    analyze_country Run.smoothing format_decimal "Japan" Fixture.short_gdp_analyzer
    = (Ok (Some a), s')
    ∧ country a = "Japan"
    ∧ market_score a = 88%Q
    ∧ status a = "Highly Suitable"
    ∧ current_metrics a !! "Population" = Some "125.2 Million"
    ∧ current_metrics a !! "GDP" = Some "$4.23 Trillion USD"
    ∧ current_metrics a !! "Consumer_Spending" = Some "$2.88 Trillion USD"
    ∧ current_metrics a !! "Economic_Growth" = Some "1.0%"
    ∧ Seed.japan_snapshot !! "Strengths" = Some (strengths a)
    ∧ Seed.japan_snapshot !! "Weaknesses" = Some (weaknesses a)
    ∧ forecasts a = None
    ∧ (∃ r, risk_analysis a = Some r ∧ risk_rating r = "Low Risk").
Proof.
  destruct (proj1 (analysis_survives_sub_failures Run.smoothing format_decimal
                     Fixture.short_gdp_analyzer "Japan")
              Seed.japan_snapshot short_snapshot_japan seed_japan_well_formed)
    as (p & g & c & e & a & s' & Hp & Hg & Hc & He & Ha & Hcountry & Hscore & Hstatus
        & Hmetrics & Hstrong & Hweak & Hfs & Hrisk).
  vm_compute in Hp. injection Hp as <-.
  vm_compute in Hg. injection Hg as <-.
  vm_compute in Hc. injection Hc as <-.
  vm_compute in He. injection He as <-.
  rewrite seed_japan_market_score in Hscore. injection Hscore as Hscore.
  rewrite short_gdp_forecast_none in Hfs. injection Hfs as Hfs.
  assert (Hr : ∃ r, (calculate_risk_score "Japan" Fixture.short_gdp_analyzer).1
                    = Ok (Some r) ∧ risk_rating r = "Low Risk").
  { eexists. split; vm_compute; reflexivity. }
  destruct Hr as (r & Hr & Hlow). rewrite Hr in Hrisk. injection Hrisk as Hrisk.
  exists a, s'. split; [exact Ha |]. split; [exact Hcountry |].
  split; [by symmetry |]. split; [by rewrite Hstatus, <- Hscore |].
  rewrite Hmetrics.
  do 4 (split; [seed_lookup |]).
  split; [exact Hstrong |]. split; [exact Hweak |]. split; [by symmetry |].
  exists r. by split.
Defined.

(** The claim of C6 as the spec states it fails.  For Canada without its
    current GDP the snapshot lookup succeeds and both the forecaster and the
    risk scorer return their results, and still the analysis is [None]: the
    [except] of [analyze_country] catches the [KeyError] of the missing
    field. *)
Lemma found_snapshot_is_not_enough :
  current_data Fixture.no_gdp_analyzer !! "Canada" = Some Fixture.no_gdp_snapshot
  ∧ (∃ fs, (forecast_metrics Run.smoothing "Canada" 5 Fixture.no_gdp_analyzer).1
           = Ok (Some fs))
  ∧ (∃ r, (calculate_risk_score "Canada" Fixture.no_gdp_analyzer).1 = Ok (Some r))
  ∧ analyze_country Run.smoothing format_decimal "Canada" Fixture.no_gdp_analyzer
    = (Ok None,
       with_error Fixture.no_gdp_analyzer (ErrorAnalyzing "Canada" (KeyError "GDP"))).
Proof.
  split; [cbn [current_data Fixture.no_gdp_analyzer]; seed_lookup |].
  split.
  { destruct (forecast_metrics Run.smoothing "Canada" 5 Fixture.no_gdp_analyzer).1
      as [[fs|]|] eqn:Hfs; [by exists fs | |];
      exfalso;
      assert (H : match (forecast_metrics Run.smoothing "Canada" 5
                           Fixture.no_gdp_analyzer).1 with
                  | Ok (Some _) => true
                  | _ => false
                  end = true) by (vm_compute; reflexivity);
      by rewrite Hfs in H. }
  split; [eexists; vm_compute; reflexivity |].
  exact (proj2 (incomplete_snapshot_is_none Run.smoothing format_decimal)).
Qed.

(** ** The dataset of the source under the batch report *)

Lemma seed_countries name d :
  current_data Seed.analyzer !! name = Some d →
  (name = "Japan" ∧ d = Seed.japan_snapshot)
  ∨ (name = "Brazil" ∧ d = Seed.brazil_snapshot)
  ∨ (name = "France" ∧ d = Seed.france_snapshot)
  ∨ (name = "Canada" ∧ d = Seed.canada_snapshot).
Proof.
  cbn [current_data Seed.analyzer]. unfold Seed.prepare_market_data.
  rewrite !lookup_insert_Some, lookup_singleton_Some.
  intros [[<- <-] | [_ [[<- <-] | [_ [[<- <-] | [_ [<- <-]]]]]]]; tauto.
Qed.

Ltac seed_case :=
  repeat split;
  first
    [ vm_compute; reflexivity
    | eexists; vm_compute; reflexivity ].

(** Every snapshot of the dataset is one of the data model, with lists of
    strengths and weaknesses, and its country has an assessment with the
    four categories of the chart. *)
Lemma seed_snapshots name d :
  current_data Seed.analyzer !! name = Some d →
  well_formed_snapshot d = true
  ∧ is_list <$> d !! "Strengths" = Some true
  ∧ is_list <$> d !! "Weaknesses" = Some true
  ∧ match (calculate_risk_score name Seed.analyzer).1 with
    | Ok (Some r) => reportable_risk r
    | _ => false
    end = true.
Proof.
  intros [(-> & ->) | [(-> & ->) | [(-> & ->) | (-> & ->)]]]%seed_countries;
    repeat split; vm_compute; reflexivity.
Qed.

Lemma seed_reportable fit fmt name a :
  analysis_of fit fmt Seed.analyzer name = Some a → reportable a = true.
Proof.
  unfold analysis_of.
  destruct (analyze_country fit fmt name Seed.analyzer).1 as [r|] eqn:Hrun; [| discriminate].
  intros ->. destruct (analyze_country_some _ _ _ _ _ Hrun)
    as (d & Hd & _ & _ & Hstrong & Hweak & _ & Hrisk).
  destruct (seed_snapshots name d Hd) as (_ & Hs & Hw & Hr).
  rewrite Hstrong in Hs. rewrite Hweak in Hw. rewrite Hrisk in Hr.
  injection Hs as Hs. injection Hw as Hw.
  unfold reportable. destruct (risk_analysis a); [| discriminate].
  by rewrite Hr, Hs, Hw.
Qed.

Lemma seed_analysis_of fit fmt name :
  is_Some (analysis_of fit fmt Seed.analyzer name)
  ↔ name ∈ ["Japan"; "Brazil"; "France"; "Canada"].
Proof.
  split.
  - intros (a & Ha). unfold analysis_of in Ha.
    destruct (analyze_country fit fmt name Seed.analyzer).1 as [r|] eqn:Hrun;
      [| discriminate].
    subst r. destruct (analyze_country_some _ _ _ _ _ Hrun) as (d & Hd & _).
    destruct (seed_countries name d Hd)
      as [(-> & _) | [(-> & _) | [(-> & _) | (-> & _)]]]; by repeat constructor.
  - intros Hin.
    assert (Hd : ∃ d, current_data Seed.analyzer !! name = Some d).
    { repeat (apply elem_of_cons in Hin as [-> | Hin];
                [eexists; cbn [current_data Seed.analyzer];
                 unfold Seed.prepare_market_data; seed_lookup |]).
      by apply elem_of_nil in Hin. }
    destruct Hd as (d & Hd). destruct (seed_snapshots name d Hd) as (Hwf & _).
    destruct (analyze_country_snapshot fit fmt name Seed.analyzer d Hd Hwf)
      as (a & s' & Ha & _).
    exists a. unfold analysis_of. by rewrite Ha.
Qed.

(** X10. On the dataset of the source, for every list of country names,
    every smoothing function and every formatter, no [KeyError] and no
    [TypeError] leaves [analyze_markets]: the call returns, or it stops in
    the [float(...)] of the chart.  When the formatter writes no dollar
    sign, percent sign or space, and [float] reads what the formatter writes,
    the call returns, and the countries of its result are the listed names
    among Japan, Brazil, France and Canada, in the order listed. *)
Theorem source_dataset_stops_in_float_only fit fmt py_str py_float country_list w :
  outcome_only value_error (analyze_markets fit fmt py_str py_float country_list w).1
  ∧ ((∀ decimals x, plain (fmt decimals x) = true ∧ is_Some (py_float (fmt decimals x))) →
     ∃ results,
       (analyze_markets fit fmt py_str py_float country_list w).1 = Returned results
       ∧ country <$> results
         = filter (λ name, name ∈ ["Japan"; "Brazil"; "France"; "Canada"]) country_list).
Proof.
  unfold analyze_markets. split.
  - apply reportable_batch. intros name a _ Ha. split; [by eapply seed_reportable |].
    intros metric text _ _. apply reread_only.
  - intros Hfmt.
    assert (Hno : outcome_only no_error
              (analyze_markets_from fit fmt py_str py_float Seed.analyzer country_list w).1).
    { apply reportable_batch. intros name a _ Ha. split; [by eapply seed_reportable |].
      intros metric text Hmetric Htext.
      unfold analysis_of in Ha.
      destruct (analyze_country fit fmt name Seed.analyzer).1 as [r|] eqn:Hrun;
        [| discriminate].
      subst r. destruct (analyze_country_some _ _ _ _ _ Hrun)
        as (d & Hd & _ & Hmetrics & _).
      destruct (current_metrics_of_texts _ _ _ Hmetrics)
        as (p & g & c & e & _ & Hg & Hc & He & Heq).
      assert (Hread : ∃ decimals x text',
                current_metrics a !! metric = Some text'
                ∧ reread py_float text' = float_outcome py_float (fmt decimals x)).
      { unfold chart_metrics in Hmetric.
        repeat (apply elem_of_cons in Hmetric as [-> | Hmetric]);
          [| | | by apply elem_of_nil in Hmetric].
        - destruct (current_metric_reread fmt py_float d _ "GDP" 2%nat g Hmetrics Hg)
            as (t & Ht & Hr); [repeat constructor | apply Hfmt |]. by exists 2%nat, g, t.
        - destruct (current_metric_reread fmt py_float d _ "Consumer_Spending" 2%nat c
                      Hmetrics Hc) as (t & Ht & Hr); [repeat constructor | apply Hfmt |].
          by exists 2%nat, c, t.
        - destruct (current_metric_reread fmt py_float d _ "Economic_Growth" 1%nat e
                      Hmetrics He) as (t & Ht & Hr); [repeat constructor | apply Hfmt |].
          by exists 1%nat, e, t. }
      destruct Hread as (decimals & x & text' & Ht & Hr).
      rewrite Htext in Ht. injection Ht as <-.
      rewrite Hr. unfold float_outcome. by destruct (proj2 (Hfmt decimals x)) as (v & ->). }
    destruct (analyze_markets_from_outcome fit fmt py_str py_float Seed.analyzer
                country_list w) as (_ & Hreturned & _).
    destruct (analyze_markets_from fit fmt py_str py_float Seed.analyzer country_list w).1
      as [results|e]; [| destruct Hno].
    exists results. split; [done |].
    destruct (Hreturned results eq_refl) as (_ & -> & _).
    apply list_filter_iff. intros name. apply seed_analysis_of.
Qed.

(** ** Colours and labels *)

(** X12. The colours of the chart agree with the labels of the analyzer:
    the thresholds of the two colour chains are those of the status chain and
    of the rating chain.  A score bar is green, blue, yellow or orange exactly
    when the status of that score is Highly Suitable, Very Suitable, Suitable
    or Moderately Suitable; a risk bar is green, blue or yellow exactly when
    the rating of that total is Very Low, Low or Moderate Risk, and orange for
    both High Risk and Very High Risk, which the chart does not tell apart. *)
Theorem chart_colours_follow_the_labels m t :
  (score_color m = "#2ecc71" ↔ status_of m = "Highly Suitable")
  ∧ (score_color m = "#3498db" ↔ status_of m = "Very Suitable")
  ∧ (score_color m = "#f1c40f" ↔ status_of m = "Suitable")
  ∧ (score_color m = "#e67e22" ↔ status_of m = "Moderately Suitable")
  ∧ (risk_color t = "#2ecc71" ↔ risk_rating_of t = "Very Low Risk")
  ∧ (risk_color t = "#3498db" ↔ risk_rating_of t = "Low Risk")
  ∧ (risk_color t = "#f1c40f" ↔ risk_rating_of t = "Moderate Risk")
  ∧ (risk_color t = "#e67e22"
     ↔ risk_rating_of t = "High Risk" ∨ risk_rating_of t = "Very High Risk").
Proof.
  unfold score_color, status_of, risk_color, risk_rating_of.
  destruct (Qle_bool 88 m), (Qle_bool 82 m), (Qle_bool 75 m),
    (Qle_bool t 15), (Qle_bool t 25), (Qle_bool t 35), (Qle_bool t 45);
    repeat split; try (intros [?|?]); intros; first [reflexivity | discriminate | by left | by right].
Qed.

(** ** Partial risk profiles *)

Lemma sum_from_app acc items more :
  sum_from acc (items ++ more) = let? total := sum_from acc items in sum_from total more.
Proof.
  revert acc. induction items as [|item rest IH]; intros acc; [done |].
  cbn [app sum_from]. destruct (weighted_score item) as [x|]; [| done].
  cbn [rbind]. apply IH.
Qed.

Lemma detail_items_app items more :
  detail_items (items ++ more)
  = let? ds := detail_items items in
    let? ds' := detail_items more in
    Ok (ds ++ ds').
Proof.
  induction items as [|item rest IH].
  - cbn [app detail_items rbind]. by destruct (detail_items more).
  - cbn [app detail_items]. rewrite IH.
    destruct (getitem item.2 "score"); [| done].
    destruct (getitem item.2 "factors"); [| done]. cbn [rbind].
    destruct (detail_items rest); [| done]. cbn [rbind].
    by destruct (detail_items more).
Qed.

(** X14. A category that a risk profile does not have counts as risk 0.
    Adding to a scored profile a category with a weight, with score 0, gives
    an assessment with the same total and the same rating: the total is not
    scaled to the weights that are present, so a profile with fewer
    categories is rated as if the absent ones carried no risk.  (The added
    category is one the profile lacks, a dict holding each key once.) *)
Theorem absent_category_counts_as_zero_risk self name profile r self' name' category :
  risk_factors self !! name = Some profile →
  (calculate_risk_score name self).1 = Ok (Some r) →
  is_Some (weights !! category) →
  category ∉ profile.*1 →
  risk_factors self' !! name'
  = Some (profile ++ [(category, {[ "score" := PNum 0; "factors" := PList [] ]})]) →
  ∃ r', (calculate_risk_score name' self').1 = Ok (Some r')
        ∧ (total_score r' == total_score r)%Q
        ∧ risk_rating r' = risk_rating r.
Proof.
  intros Hprofile Hr (weight & Hweight) _ Hprofile'.
  destruct (calculate_risk_score_some _ _ _ Hr)
    as (profile0 & Hprofile0 & _ & Hsum & Hdetails & Hrating).
  rewrite Hprofile in Hprofile0. injection Hprofile0 as <-.
  set (zero := (category, ({[ "score" := PNum 0; "factors" := PList [] ]}
                           : gmap string pyval))).
  assert (Hzero : weighted_score zero = Ok (weight * 0)%Q).
  { unfold weighted_score, getitem. cbn [fst snd zero]. rewrite Hweight.
    by rewrite lookup_insert_eq. }
  assert (Hsum' : sum_from 0 (profile ++ [zero]) = Ok (total_score r + weight * 0)%Q).
  { rewrite sum_from_app, Hsum. cbn [rbind sum_from]. by rewrite Hzero. }
  assert (Hdetails' : ∃ ds, detail_items (profile ++ [zero]) = Ok ds).
  { rewrite detail_items_app, Hdetails. cbn [rbind detail_items].
    unfold getitem. cbn [fst snd zero].
    rewrite lookup_insert_eq, lookup_insert_ne by discriminate.
    rewrite lookup_singleton_eq. by eexists. }
  destruct Hdetails' as (ds & Hds).
  rewrite calculate_risk_score_unfold, Hprofile'. fold zero.
  destruct (profile ++ [zero]) as [|item rest] eqn:Happ;
    [by destruct profile |].
  rewrite Hsum', Hds. eexists. split; [reflexivity |]. cbn [total_score risk_rating].
  assert (Heq : (total_score r + weight * 0 == total_score r)%Q) by ring.
  split; [exact Heq |]. rewrite Hrating. by apply risk_rating_of_Qeq.
Qed.

(** ** The properties on examples *)

Lemma unrated_country_aborts_the_batch_witness :
  (analyze_markets_from Run.smoothing format_decimal Console.str Console.float
     Variant.unrated_analyzer ["Japan"; "Brazil"] Console.start).1
  = Aborted (Uncaught TypeError)
  ∧ figures (analyze_markets_from Run.smoothing format_decimal Console.str Console.float
               Variant.unrated_analyzer ["Japan"; "Brazil"] Console.start).2
    = figures Console.start.
Proof.
  apply (unrated_country_aborts_the_batch Run.smoothing format_decimal Console.str
           Console.float Variant.unrated_analyzer ["Japan"; "Brazil"] Console.start
           "Brazil" Seed.brazil_snapshot).
  - repeat constructor.
  - cbn [current_data Variant.unrated_analyzer]. unfold Seed.prepare_market_data.
    seed_lookup.
  - vm_compute. reflexivity.
  - vm_compute. reflexivity.
Defined.

Lemma chart_rereads_the_displayed_metric_witness :
  ∃ a, (analyze_country Run.smoothing format_decimal "Japan" Seed.analyzer).1 = Ok (Some a)
       ∧ ∃ text, current_metrics a !! "GDP" = Some text
                 ∧ reread Console.float text
                   = float_outcome Console.float (format_decimal 2 4.23).
Proof.
  destruct (seed_analysis Run.smoothing format_decimal "Japan" _ 88
              seed_snapshot_japan seed_japan_well_formed seed_japan_market_score)
    as (a & Ha & _).
  exists a. split; [exact Ha |].
  apply (chart_rereads_the_displayed_metric Run.smoothing format_decimal Console.float
           "Japan" Seed.analyzer a Seed.japan_snapshot "GDP" 2 4.23 Ha
           seed_snapshot_japan).
  - unfold Seed.japan_snapshot. seed_lookup.
  - repeat constructor.
  - vm_compute. reflexivity.
Defined.

Lemma seed_snapshot_france :
  current_data Seed.analyzer !! "France" = Some Seed.france_snapshot.
Proof. cbn [current_data Seed.analyzer]. unfold Seed.prepare_market_data. seed_lookup. Qed.

Lemma chart_needs_the_four_categories_witness :
  ∃ a, analysis_of Run.smoothing format_decimal Variant.political_only_analyzer "France"
       = Some a
       ∧ ∃ missing, missing ∈ risk_categories
                    ∧ comparison_chart format_decimal Console.float [a]
                      = Aborted (Uncaught (KeyError missing)).
Proof.
  destruct (analyze_country_snapshot Run.smoothing format_decimal "France"
              Variant.political_only_analyzer Seed.france_snapshot seed_snapshot_france)
    as (a & s' & Ha & _ & _ & _ & _ & _ & _ & _ & _ & _ & Hrisk);
    [vm_compute; reflexivity |].
  assert (Hr : ∃ r, (calculate_risk_score "France" Variant.political_only_analyzer).1
                    = Ok (Some r)
                    ∧ "Economic_Risk" ∉ (detailed_scores r).*1).
  { eexists. split; [vm_compute; reflexivity |].
    cbn. rewrite elem_of_cons, elem_of_nil. by intros [? | []]. }
  destruct Hr as (r & Hr & Hmissing). rewrite Hr in Hrisk. injection Hrisk as Hrisk.
  exists a. split; [unfold analysis_of; by rewrite Ha |].
  apply (chart_needs_the_four_categories format_decimal Console.float [a] a r
           "Economic_Risk").
  - intros b ->%list_elem_of_singleton. by rewrite <- Hrisk.
  - by left.
  - done.
  - repeat constructor.
  - exact Hmissing.
Defined.

Lemma absent_category_counts_as_zero_risk_witness :
  ∃ r r', (calculate_risk_score "France" Variant.political_only_analyzer).1 = Ok (Some r)
          ∧ (calculate_risk_score "France" Variant.political_and_zero_analyzer).1 = Ok (Some r')
          ∧ (total_score r' == total_score r)%Q
          ∧ risk_rating r' = risk_rating r
          ∧ risk_rating r = "Low Risk".
Proof.
  assert (Hr : ∃ r, (calculate_risk_score "France" Variant.political_only_analyzer).1
                    = Ok (Some r) ∧ risk_rating r = "Low Risk").
  { eexists. split; vm_compute; reflexivity. }
  destruct Hr as (r & Hr & Hlow).
  destruct (absent_category_counts_as_zero_risk Variant.political_only_analyzer "France"
              Variant.political_only r Variant.political_and_zero_analyzer "France"
              "Economic_Risk") as (r' & Hr' & Htotal & Hrating).
  - cbn [risk_factors Variant.political_only_analyzer]. seed_lookup.
  - exact Hr.
  - eexists. unfold weights. seed_lookup.
  - cbn. rewrite elem_of_cons, elem_of_nil. by intros [? | []].
  - cbn [risk_factors Variant.political_and_zero_analyzer]. seed_lookup.
  - by exists r, r'.
Defined.

(** ** Where the grouped bars stand *)

Lemma arange_lookup n j :
  (j < n)%nat → arange n !! j = Some (Binary64.of_Z (Z.of_nat j)).
Proof.
  intros Hj. unfold arange. rewrite list_lookup_fmap, lookup_seq_lt by done.
  reflexivity.
Qed.

(** Two functions that agree on the list of the first [n] numbers agree on
    each of them. *)
Lemma fmap_seq_pointwise {A : Type} (f g : nat → A) n j :
  f <$> seq 0 n = g <$> seq 0 n → (j < n)%nat → f j = g j.
Proof.
  intros Heq Hj.
  assert (Hf : (f <$> seq 0 n) !! j = Some (f j))
    by (by rewrite list_lookup_fmap, lookup_seq_lt).
  assert (Hg : (g <$> seq 0 n) !! j = Some (g j))
    by (by rewrite list_lookup_fmap, lookup_seq_lt).
  rewrite Heq, Hg in Hf. by injection Hf.
Qed.

Section BarFacts.

Import PrimFloat.
Local Open Scope float_scope.

(** The positions of the metric bars of the first 1000 ticks, by
    evaluation: the width 0.25 and the offsets are powers of two and sums of
    them, and nothing is rounded. *)
Lemma metric_positions_exact j :
  (j < 1000)%nat →
  (λ i : nat, Binary64.of_Z (Z.of_nat j) + Binary64.of_Z (Z.of_nat i) * Binary64.of_Q 0.25
              - Binary64.of_Z (Z.of_nat (length chart_metrics)) * Binary64.of_Q 0.25 / 2)
    <$> [0; 1; 2]%nat
  = [beside j (-0.375); beside j (-0.125); beside j 0.125].
Proof.
  intros Hj.
  apply (fmap_seq_pointwise
           (λ j, (λ i : nat, Binary64.of_Z (Z.of_nat j)
                             + Binary64.of_Z (Z.of_nat i) * Binary64.of_Q 0.25
                             - Binary64.of_Z (Z.of_nat (length chart_metrics))
                               * Binary64.of_Q 0.25 / 2) <$> [0; 1; 2]%nat)
           (λ j, [beside j (-0.375); beside j (-0.125); beside j 0.125]) 1000 j);
    [| exact Hj].
  vm_compute. reflexivity.
Qed.

(** The positions of the category bars of the first 1000 ticks, by
    evaluation: 0.2 is no binary64 number, the positions are rounded, and
    they stay within the tolerance and on their side of the tick. *)
Lemma category_positions_checked j :
  (j < 1000)%nat →
  let c (i : nat) :=
    Binary64.of_Z (Z.of_nat j) + Binary64.of_Z (Z.of_nat i) * Binary64.of_Q 0.2
    - Binary64.of_Z (Z.of_nat (length risk_categories - 1)) * Binary64.of_Q 0.2 / 2 in
  within_tolerance (c 0%nat) (beside j (-0.3))
  && within_tolerance (c 1%nat) (beside j (-0.1))
  && within_tolerance (c 2%nat) (beside j 0.1)
  && within_tolerance (c 3%nat) (beside j 0.3)
  && (c 0%nat <? c 1%nat) && (c 1%nat <? beside j 0)
  && (beside j 0 <? c 2%nat) && (c 2%nat <? c 3%nat) = true.
Proof.
  intros Hj.
  assert (Hall : forallb (λ j,
            let c (i : nat) :=
              Binary64.of_Z (Z.of_nat j) + Binary64.of_Z (Z.of_nat i) * Binary64.of_Q 0.2
              - Binary64.of_Z (Z.of_nat (length risk_categories - 1))
                * Binary64.of_Q 0.2 / 2 in
            within_tolerance (c 0%nat) (beside j (-0.3))
            && within_tolerance (c 1%nat) (beside j (-0.1))
            && within_tolerance (c 2%nat) (beside j 0.1)
            && within_tolerance (c 3%nat) (beside j 0.3)
            && (c 0%nat <? c 1%nat) && (c 1%nat <? beside j 0)
            && (beside j 0 <? c 2%nat) && (c 2%nat <? c 3%nat)) (seq 0 1000) = true)
    by (vm_compute; reflexivity).
  rewrite forallb_forall in Hall. apply (Hall j), in_seq. lia.
Qed.

(** X15. Where the grouped bars of a country stand.  In every chart that is
    drawn, for the country at tick j (one of the first 1000), the three
    metric bars are handed to [plt.bar] at exactly j - 0.375, j - 0.125 and
    j + 0.125, so that two of the three stand left of the tick and the
    group is centred on j - 0.125: the offset of the metrics subtracts
    n * width / 2, that of the categories (n - 1) * width / 2.  The four
    category bars stand within 1e-9 of j - 0.3, j - 0.1, j + 0.1 and
    j + 0.3, two on each side of the tick; their positions are rounded
    binary64 numbers, not these decimals. *)
Theorem category_bars_are_centred_metric_bars_are_not fmt py_float results chart j :
  comparison_chart fmt py_float results = Returned chart →
  (j < length results)%nat →
  (j < 1000)%nat →
  ∃ c0 c1 c2 c3 m0 m1 m2,
    (λ b : Bars pyval, bar_x b !! j) <$> category_bars chart = Some <$> [c0; c1; c2; c3]
    ∧ (λ b : Bars float64, bar_x b !! j) <$> metric_bars chart = Some <$> [m0; m1; m2]
    ∧ [m0; m1; m2] = [beside j (-0.375); beside j (-0.125); beside j 0.125]
    ∧ (m0 <? m1) = true ∧ (m1 <? beside j 0) = true ∧ (beside j 0 <? m2) = true
    ∧ within_tolerance c0 (beside j (-0.3)) = true
    ∧ within_tolerance c1 (beside j (-0.1)) = true
    ∧ within_tolerance c2 (beside j 0.1) = true
    ∧ within_tolerance c3 (beside j 0.3) = true
    ∧ (c0 <? c1) = true ∧ (c1 <? beside j 0) = true
    ∧ (beside j 0 <? c2) = true ∧ (c2 <? c3) = true.
Proof.
  intros Hchart Hj Hbound. unfold comparison_chart in Hchart.
  destruct (comprehension _ results) as [risk_scores|]; [| discriminate].
  unfold risk_categories, chart_metrics in Hchart.
  cbn [enumerate_series] in Hchart.
  unfold category_series, metric_series in Hchart.
  repeat match type of Hchart with
         | context [match comprehension ?f ?l with _ => _ end] =>
             destruct (comprehension f l); [| discriminate]
         end.
  injection Hchart as <-. cbn [category_bars metric_bars fmap list_fmap bar_x].
  rewrite !list_lookup_fmap, (arange_lookup _ _ Hj). cbn [fmap option_fmap option_map].
  pose proof (metric_positions_exact j Hbound) as Hmetric.
  pose proof (category_positions_checked j Hbound) as Hcategory.
  cbn [fmap list_fmap] in Hmetric. cbv zeta in Hcategory.
  repeat (apply andb_prop in Hcategory as [Hcategory ?]).
  eexists _, _, _, _, _, _, _. split; [reflexivity |]. split; [reflexivity |].
  split; [exact Hmetric |].
  assert (Hside : ∀ k, (k < 1000)%nat →
            (beside k (-0.375) <? beside k (-0.125)) && (beside k (-0.125) <? beside k 0)
            && (beside k 0 <? beside k 0.125) = true).
  { intros k Hk.
    assert (Hall : forallb (λ k,
              (beside k (-0.375) <? beside k (-0.125))
              && (beside k (-0.125) <? beside k 0)
              && (beside k 0 <? beside k 0.125)) (seq 0 1000) = true)
      by (vm_compute; reflexivity).
    rewrite forallb_forall in Hall. apply (Hall k), in_seq. lia. }
  specialize (Hside j Hbound).
  repeat (apply andb_prop in Hside as [Hside ?]).
  injection Hmetric as -> -> ->.
  repeat split; assumption.
Qed.

(** Japan and Canada of the dataset: the bars of Canada, at tick 1.  The
    metric bars stand at 0.625, 0.875 and 1.125; the category bars at 0.7,
    0.8999999999999999, 1.0999999999999999 and 1.3, the second of them
    below 0.9 and within the tolerance of it. *)
Lemma category_bars_are_centred_metric_bars_are_not_witness :
  ∃ chart,
    comparison_chart format_decimal Console.float
      (omap (analysis_of Run.smoothing format_decimal Seed.analyzer) ["Japan"; "Canada"])
    = Returned chart
    ∧ (λ b : Bars float64, bar_x b !! 1%nat) <$> metric_bars chart
      = Some <$> [0.625; 0.875; 1.125]
    ∧ (λ b : Bars pyval, bar_x b !! 1%nat) <$> category_bars chart
      = Some <$> [0x1.6666666666666p-1; 0x1.cccccccccccccp-1;
                  0x1.1999999999999p+0; 0x1.4cccccccccccdp+0]
    ∧ within_tolerance 0x1.cccccccccccccp-1 (beside 1 (-0.1)) = true
    ∧ (0x1.cccccccccccccp-1 <? beside 1 0) = true
    ∧ (0.875 <? beside 1 0) = true.
Proof.
  assert (Hvalues :
    match comparison_chart format_decimal Console.float
            (omap (analysis_of Run.smoothing format_decimal Seed.analyzer)
               ["Japan"; "Canada"]) with
    | Returned chart =>
        Some ((λ b : Bars float64, bar_x b !! 1%nat) <$> metric_bars chart,
              (λ b : Bars pyval, bar_x b !! 1%nat) <$> category_bars chart)
    | Aborted _ => None
    end
    = Some (Some <$> [0.625; 0.875; 1.125],
            Some <$> [0x1.6666666666666p-1; 0x1.cccccccccccccp-1;
                      0x1.1999999999999p+0; 0x1.4cccccccccccdp+0]))
    by (vm_compute; reflexivity).
  assert (Hlength :
    (1 < length (omap (analysis_of Run.smoothing format_decimal Seed.analyzer)
                   ["Japan"; "Canada"]))%nat) by (vm_compute; lia).
  revert Hvalues Hlength.
  generalize (omap (analysis_of Run.smoothing format_decimal Seed.analyzer)
                ["Japan"; "Canada"]).
  intros results Hvalues Hlength.
  destruct (comparison_chart format_decimal Console.float results) as [chart|e] eqn:Hchart;
    [| discriminate].
  injection Hvalues as Hmetric Hcategory.
  assert (Hbound : (1 < 1000)%nat) by lia.
  destruct (category_bars_are_centred_metric_bars_are_not format_decimal Console.float
              results chart 1 Hchart Hlength Hbound)
    as (c0 & c1 & c2 & c3 & m0 & m1 & m2 & Hc & Hm & _ & _ & Hm1 & _ & _ & Hc1 & _ & _
        & _ & Hside & _).
  rewrite Hcategory in Hc. injection Hc as <- <- <- <-.
  rewrite Hmetric in Hm. injection Hm as <- <- <-.
  exists chart. by repeat split.
Defined.

End BarFacts.

(** ** The outlook of the dashboard *)

(** X16. The dashboard needs forecasts that the batch report can do
    without.  For an analysis that [analyze_country] returns: when its
    forecasts are [None] (the analyzer's answer to a failed fit), the outlook
    block of the dashboard is ended by the [TypeError] of [forecasts[metric]]
    on [None]; when there are forecasts, the block draws one metric per
    forecast metric, in the order GDP, Population, Consumer_Spending,
    Economic_Growth.  The report of [analyze_markets] for the same analysis
    never stops in its outlook, which is guarded by [if
    analysis['forecasts']]: with or without forecasts the report is printed
    to the end or stops with a [TypeError]; it stops with one when the
    analysis has no risk assessment, and it is printed to the end when the
    analysis has an assessment with the four categories and lists of
    factors, and lists of strengths and weaknesses. *)
Theorem dashboard_outlook_needs_forecasts fit fmt py_str name s a :
  (analyze_country fit fmt name s).1 = Ok (Some a) →
  (forecasts a = None → market_outlook fmt (forecasts a) = Aborted (Uncaught TypeError))
  ∧ (∀ fs, forecasts a = Some fs →
           ∃ widgets, market_outlook fmt (forecasts a) = Returned widgets
                      ∧ metric_label <$> widgets = metrics_to_forecast)
  ∧ (reportable a = true → ∀ w, (print_analysis fmt py_str name a w).1 = Returned tt)
  ∧ (risk_analysis a = None →
     ∀ w, (print_analysis fmt py_str name a w).1 = Aborted (Uncaught TypeError))
  ∧ (∀ w e, (print_analysis fmt py_str name a w).1 = Aborted e → e = Uncaught TypeError).
Proof.
  intros Ha. destruct (analyze_country_some _ _ _ _ _ Ha) as (d & _ & _ & _ & _ & _ & Hfs & _).
  assert (Hkeys : ∀ fs, forecasts a = Some fs →
                    ∀ key, key ∈ metrics_to_forecast → is_Some (fs !! key)).
  { intros fs Heq key Hkey. rewrite Heq in Hfs.
    by apply (forecast_metrics_keys _ _ _ _ _ key Hfs). }
  split; [| split; [| split; [| split]]].
  - intros ->. reflexivity.
  - intros fs Heq. rewrite Heq in Hfs |- *.
    destruct (forecast_keys_present fs) as (f1 & f2 & f3 & f4 & H1 & H2 & H3 & H4).
    { intros key Hkey. by apply (forecast_metrics_keys _ _ _ _ _ key Hfs). }
    unfold market_outlook, outlook_rows, outlook_metric.
    cbn [comprehension subscriptable rbind guarded fst snd].
    rewrite H1, H2, H3, H4. cbn [guarded]. by eexists.
  - intros Hrep w. by apply raises_only_no_error, print_analysis_returns.
  - intros Hrisk w. unfold print_analysis, io_bind, print. by rewrite Hrisk.
  - intros w e Hstop.
    pose proof (print_analysis_type_error fmt py_str name a Hkeys w) as Honly.
    by rewrite Hstop in Honly.
Qed.

Lemma dashboard_outlook_needs_forecasts_witness :
  ∃ a, (analyze_country Run.smoothing format_decimal "Japan" Fixture.short_gdp_analyzer).1
       = Ok (Some a)
       ∧ market_outlook format_decimal (forecasts a) = Aborted (Uncaught TypeError)
       ∧ ∀ w, (print_analysis format_decimal Console.str "Japan" a w).1 = Returned tt.
Proof.
  destruct (analyze_country_snapshot Run.smoothing format_decimal "Japan"
              Fixture.short_gdp_analyzer Seed.japan_snapshot short_snapshot_japan
              seed_japan_well_formed)
    as (a & s' & Ha & _ & _ & _ & _ & _ & _ & Hstrong & Hweak & Hfs & Hrisk).
  rewrite short_gdp_forecast_none in Hfs. injection Hfs as Hfs.
  assert (Hr : ∃ r, (calculate_risk_score "Japan" Fixture.short_gdp_analyzer).1 = Ok (Some r)
                    ∧ reportable_risk r = true).
  { eexists. split; vm_compute; reflexivity. }
  destruct Hr as (r & Hr & Hrep). rewrite Hr in Hrisk. injection Hrisk as Hrisk.
  assert (Hlists : is_list <$> Seed.japan_snapshot !! "Strengths" = Some true
                   ∧ is_list <$> Seed.japan_snapshot !! "Weaknesses" = Some true).
  { split; vm_compute; reflexivity. }
  destruct Hlists as (Hs & Hw). rewrite Hstrong in Hs. rewrite Hweak in Hw.
  injection Hs as Hs. injection Hw as Hw.
  assert (Hreportable : reportable a = true).
  { unfold reportable. by rewrite <- Hrisk, Hrep, Hs, Hw. }
  assert (Hrun : (analyze_country Run.smoothing format_decimal "Japan"
                    Fixture.short_gdp_analyzer).1 = Ok (Some a)) by (by rewrite Ha).
  destruct (dashboard_outlook_needs_forecasts Run.smoothing format_decimal Console.str
              "Japan" Fixture.short_gdp_analyzer a Hrun) as (Hnone & _ & Hprint & _).
  exists a. split; [exact Hrun |]. split; [by apply Hnone | by apply Hprint].
Defined.
